(** * Hybrid retrieval and query orchestration: a shallow embedding

    This development embeds the retrieval / fusion / reranking / answer
    synthesis core of the document question-answering system and proves
    the properties its design document states about it.

    Sources embedded:
    - [backend/rag/services.py]            (modules [Services],
                                            [FloatServices])
    - [backend/core/domain/entities/chunk.py] (module [Domain])
    - [v3/.../retrieval/hybrid_search.py], [v3/.../retrieval/reranker.py],
      [v3/helpers.py]            (modules [V3], [FloatV3], [Helpers])
    - [backend/rag/services.py], [process_document_utility]
                                           (module [DocumentUtility])
    - [backend/core/domain/entities/document.py],
      [backend/core/domain/value_objects/document_status.py]
                                           (module [DomainDocument])

    Modelling conventions:
    - Scores are modelled twice.  In the modules [Services] and [V3] a
      score is an exact rational ([Q]) and float comparison [==] is
      [Qeq_bool]: this serves the properties that do not depend on
      rounding (which chunks are returned, how many, in which order of
      equal scores, which calls are made).  In the modules [Float],
      [FloatServices] and [FloatV3] a score is an IEEE 754 float
      ([pyfloat]: a finite number of the format, an infinity or NaN) and
      every operation rounds: this serves the properties about the range
      of the scores and about the candidate the reranker selects.
    - Python [str] is a list of Unicode code points ([pystr]); literals are
      written as UTF-8 text and decoded by [py].
    - A Python [dict] is an insertion-ordered association list ([pydict]):
      assigning to an existing key keeps the key's position.
    - Exceptions are values of [exn]; fallible code lives in [res]. *)

From Stdlib Require Import List ZArith NArith QArith Qround Lia Lqa Bool.
From Stdlib Require Import Permutation Sorted String Ascii.
From Stdlib Require Import Morphisms DecimalString.
From Stdlib Require PrimFloat FloatOps SpecFloat Uint63.
From Equations Require Import Equations.
Import ListNotations.

Set Implicit Arguments.

(** ** Python primitives *)

Module Py.

(** *** Exceptions and the error monad *)

Definition pystr := list N.

Inductive exn : Type :=
| ZeroDivisionError
| ValueError
| KeyError
| ServiceError (message : pystr).

Inductive res (A : Type) : Type :=
| Ok (a : A)
| Raise (e : exn).
Arguments Ok {A} a.
Arguments Raise {A} e.

Definition bind {A B} (m : res A) (k : A -> res B) : res B :=
  match m with
  | Ok a => k a
  | Raise e => Raise e
  end.

Notation "x <- m ;; k" := (bind m (fun x => k))
  (at level 61, m at next level, right associativity).

Fixpoint mapM {A B} (f : A -> res B) (l : list A) : res (list B) :=
  match l with
  | [] => Ok []
  | a :: r => b <- f a ;; bs <- mapM f r ;; Ok (b :: bs)
  end.

(** *** Strings: code points, UTF-8 literals *)

Fixpoint utf8_decode (bs : list N) : pystr :=
  match bs with
  | [] => []
  | b0 :: r0 =>
    if (b0 <? 128)%N then b0 :: utf8_decode r0
    else match r0 with
    | [] => [b0]
    | b1 :: r1 =>
      if (b0 <? 224)%N then
        ((b0 - 192) * 64 + (b1 - 128))%N :: utf8_decode r1
      else match r1 with
      | [] => [b0; b1]
      | b2 :: r2 =>
        if (b0 <? 240)%N then
          ((b0 - 224) * 4096 + (b1 - 128) * 64 + (b2 - 128))%N
            :: utf8_decode r2
        else match r2 with
        | [] => [b0; b1; b2]
        | b3 :: r3 =>
          ((b0 - 240) * 262144 + (b1 - 128) * 4096
           + (b2 - 128) * 64 + (b3 - 128))%N :: utf8_decode r3
        end
      end
    end
  end.

Definition py (s : string) : pystr :=
  utf8_decode (map N_of_ascii (list_ascii_of_string s)).

(** [needle in haystack] for strings. *)
Fixpoint starts_with (needle hay : pystr) : bool :=
  match needle, hay with
  | [], _ => true
  | _ :: _, [] => false
  | a :: n', b :: h' => (a =? b)%N && starts_with n' h'
  end.

Fixpoint str_in (needle hay : pystr) : bool :=
  starts_with needle hay ||
  match hay with
  | [] => false
  | _ :: h' => str_in needle h'
  end.

(** [l[:n]] and [l[-n:]]; a negative bound counts from the end. *)
Definition slice_to {A} (n : Z) (l : list A) : list A :=
  if (n <? 0)%Z then firstn (List.length l - Z.to_nat (- n)) l
  else firstn (Z.to_nat n) l.

Definition slice_last {A} (n : nat) (l : list A) : list A :=
  skipn (List.length l - n) l.

Fixpoint str_eqb (a b : pystr) : bool :=
  match a, b with
  | [], [] => true
  | x :: a', y :: b' => (x =? y)%N && str_eqb a' b'
  | _, _ => false
  end.

(** [str(n)] for an integer. *)
Definition str_of_Z (n : Z) : pystr :=
  map N_of_ascii
      (list_ascii_of_string (DecimalString.NilZero.string_of_int (Z.to_int n))).

(** [sep.join(parts)] *)
Fixpoint join (sep : pystr) (parts : list pystr) : pystr :=
  match parts with
  | [] => []
  | [p] => p
  | p :: r => p ++ sep ++ join sep r
  end.

(** [any(f(x) for x in l)] *)
Definition any {A} (f : A -> bool) (l : list A) : bool := existsb f l.

(** *** Insertion-ordered dictionaries *)

Section Dict.
Variables (K V : Type) (eqb : K -> K -> bool).

Definition pydict := list (K * V).

Fixpoint dict_lookup (k : K) (d : pydict) : option V :=
  match d with
  | [] => None
  | (k', v) :: r => if eqb k k' then Some v else dict_lookup k r
  end.

(** [d.get(k, default)] *)
Definition dict_get (k : K) (default : V) (d : pydict) : V :=
  match dict_lookup k d with
  | Some v => v
  | None => default
  end.

(** [d[k]] *)
Definition dict_index (k : K) (d : pydict) : res V :=
  match dict_lookup k d with
  | Some v => Ok v
  | None => Raise KeyError
  end.

(** [d[k] = v] *)
Fixpoint dict_set (k : K) (v : V) (d : pydict) : pydict :=
  match d with
  | [] => [(k, v)]
  | (k', v') :: r =>
    if eqb k k' then (k', v) :: r else (k', v') :: dict_set k v r
  end.

(** [{k: v for (k, v) in items}] *)
Definition dict_of_items (items : list (K * V)) : pydict :=
  fold_left (fun d kv => dict_set (fst kv) (snd kv) d) items [].

Definition dict_keys (d : pydict) : list K := map fst d.

(** [k in d] *)
Definition dict_mem (k : K) (d : pydict) : bool :=
  match dict_lookup k d with Some _ => true | None => false end.
End Dict.

(** Keys in order of first occurrence: the key order of a dictionary
    filled by successive assignments. *)
Definition add_unseen {K} (eqb : K -> K -> bool) (acc : list K) (k : K)
    : list K :=
  if existsb (eqb k) acc then acc else acc ++ [k].

Definition first_seen {K} (eqb : K -> K -> bool) (l : list K) : list K :=
  fold_left (add_unseen eqb) l [].

(** Values of free-form ([Any]) dictionary entries. *)
Inductive pyval : Type :=
| VStr (s : pystr)
| VInt (n : Z).

Definition pyval_eqb (a b : pyval) : bool :=
  match a, b with
  | VStr x, VStr y => str_eqb x y
  | VInt x, VInt y => (x =? y)%Z
  | _, _ => false
  end.

(** [a == b] on dictionaries: same keys, equal values, in any order. *)
Definition dict_eqb {K V} (keqb : K -> K -> bool) (veqb : V -> V -> bool)
    (a b : pydict K V) : bool :=
  (List.length a =? List.length b)%nat &&
  forallb (fun k =>
             match dict_lookup keqb k a, dict_lookup keqb k b with
             | Some x, Some y => veqb x y
             | None, None => true
             | _, _ => false
             end) (dict_keys a).

(** *** Numbers *)

(** [a < b] and [a == b] on scores. *)
Definition Qltb (a b : Q) : bool := negb (Qle_bool b a).

(** [min(l)], [max(l)]: the first smallest / largest element. *)
Fixpoint min_from (cur : Q) (l : list Q) : Q :=
  match l with
  | [] => cur
  | x :: r => min_from (if Qltb x cur then x else cur) r
  end.

Fixpoint max_from (cur : Q) (l : list Q) : Q :=
  match l with
  | [] => cur
  | x :: r => max_from (if Qltb cur x then x else cur) r
  end.

Definition py_min (l : list Q) : res Q :=
  match l with
  | [] => Raise ValueError
  | x :: r => Ok (min_from x r)
  end.

Definition py_max (l : list Q) : res Q :=
  match l with
  | [] => Raise ValueError
  | x :: r => Ok (max_from x r)
  end.

(** [a / b]: a zero divisor raises.  (On numpy floats it would give
    [nan] or [inf] with a warning instead; the callers below never reach
    it.) *)
Definition py_div (a b : Q) : res Q :=
  if Qeq_bool b 0 then Raise ZeroDivisionError else Ok (a / b).

(** *** Stable descending sort: [l.sort(key=key, reverse=True)]

    Python's sort is stable, also with [reverse=True]: elements with equal
    keys keep their relative order.  The output of a stable sort is
    determined by its input, so insertion sort models it. *)

Section Sort.
Variables (A : Type) (key : A -> Q).

Fixpoint insert_desc (x : A) (l : list A) : list A :=
  match l with
  | [] => [x]
  | y :: r =>
    if Qltb (key x) (key y) then y :: insert_desc x r
    else x :: y :: r
  end.

Fixpoint sort_desc (l : list A) : list A :=
  match l with
  | [] => []
  | x :: r => insert_desc x (sort_desc r)
  end.

(** [ge_key a b]: [a] may stand before [b] in descending order of key;
    [gt_key a b]: it must. *)
Definition ge_key (a b : A) : Prop := key b <= key a.
Definition gt_key (a b : A) : Prop := key b < key a.
End Sort.

(** The normalisation formula: [(score - min) / (max - min)], and [1.0]
    when [max == min]. *)
Definition min_max_norm (mn mx s : Q) : Q :=
  if Qeq_bool mx mn then 1 else (s - mn) / (mx - mn).

(** [mn] and [mx] are the least and the greatest of [scores]. *)
Definition bounds_of (scores : list Q) (mn mx : Q) : Prop :=
  In mn scores /\ In mx scores /\ forall s, In s scores -> mn <= s <= mx.

End Py.


(** ** [backend/rag/services.py]: [RAGOrchestrator]

    Scores are exact rationals in this module; [FloatServices] and
    [FloatRetriever] below have the fusion and the retriever on floats. *)

Module Services.
Import Py.

(** Rows of [documents.models]. *)
Record Document := {
  doc_pk : Z;
  title : pystr
}.

Record DocumentChunk := {
  id : Z;
  document : Document;
  index : Z;
  text : pystr;
  page_number : option Z;
  embedding : list Q
}.

(** A retrieval result is a [(chunk, score)] tuple. *)
Definition scored := (DocumentChunk * Q)%type.

(** Iteration order of [set(a) | set(b)].  Python leaves the order of a
    set unspecified; every result below holds for every order. *)
Class SetOrder := {
  iter_union : list Z -> list Z -> list Z;
  iter_union_NoDup : forall a b, NoDup (iter_union a b);
  iter_union_In : forall a b k, In k (iter_union a b) <-> In k a \/ In k b
}.

(** [normalize_scores], the closure of [_combine_and_rerank]. *)
Definition normalize_scores (results : list scored) : res (pydict Z Q) :=
  match results with
  | [] => Ok []
  | _ :: _ =>
    let scores := map snd results in
    min_score <- py_min scores ;;
    max_score <- py_max scores ;;
    if Qeq_bool max_score min_score then
      Ok (dict_of_items Z.eqb (map (fun r => (id (fst r), 1)) results))
    else
      items <- mapM (fun r =>
                 v <- py_div (snd r - min_score) (max_score - min_score) ;;
                 Ok (id (fst r), v)) results ;;
      Ok (dict_of_items Z.eqb items)
  end.

Definition combine_scores (alpha : Q) (vector_scores bm25_scores : pydict Z Q)
    (all_chunk_ids : list Z) : pydict Z Q :=
  fold_left
    (fun combined chunk_id =>
       let vec_score := dict_get Z.eqb chunk_id 0 vector_scores in
       let bm25_score := dict_get Z.eqb chunk_id 0 bm25_scores in
       dict_set Z.eqb chunk_id
                (alpha * vec_score + (1 - alpha) * bm25_score) combined)
    all_chunk_ids [].

Definition _combine_and_rerank `{SetOrder}
    (vector_results bm25_results : list scored) (query : pystr) (alpha : Q)
    : res (list scored) :=
  vector_scores <- normalize_scores vector_results ;;
  bm25_scores <- normalize_scores bm25_results ;;
  let all_chunk_ids :=
    iter_union (dict_keys vector_scores) (dict_keys bm25_scores) in
  let combined :=
    combine_scores alpha vector_scores bm25_scores all_chunk_ids in
  let chunk_dict :=
    dict_of_items Z.eqb
      (map (fun r => (id (fst r), fst r)) (vector_results ++ bm25_results)) in
  final_results <-
    mapM (fun kv => c <- dict_index Z.eqb (fst kv) chunk_dict ;;
                    Ok (c, snd kv)) combined ;;
  Ok (sort_desc snd final_results).

(** [alpha: float = 0.7] *)
Definition default_alpha : Q := 7 # 10.

(** *** The agent state *)

Record ChatMessage := {
  role : pystr;
  content : pystr
}.

(** One entry of [state["retrieved_chunks"]]. *)
Record RetrievedChunk := {
  rc_chunk_id : Z;
  rc_document_id : Z;
  rc_document_title : pystr;
  rc_chunk_index : Z;
  rc_page_number : option Z;
  rc_text : pystr;
  rc_score : Q
}.

(** One entry of [state["citations"]]. *)
Record Citation := {
  cit_document_id : Z;
  cit_document_title : pystr;
  cit_chunk_index : Z;
  cit_page : option Z;
  cit_snippet : pystr
}.

Record AgentState := {
  query : pystr;
  chat_history : list ChatMessage;
  intent : pystr;
  retrieved_chunks : list RetrievedChunk;
  answer : pystr;
  citations : list Citation;
  metadata : pydict pystr pyval;
  error : pystr;
  (** present only in the state built by [process_document_utility] *)
  document_content : option pystr
}.

Definition set_intent (v : pystr) (s : AgentState) : AgentState :=
  {| query := query s; chat_history := chat_history s; intent := v;
     retrieved_chunks := retrieved_chunks s; answer := answer s;
     citations := citations s; metadata := metadata s; error := error s;
     document_content := document_content s |}.

Definition set_retrieved_chunks (v : list RetrievedChunk) (s : AgentState)
    : AgentState :=
  {| query := query s; chat_history := chat_history s; intent := intent s;
     retrieved_chunks := v; answer := answer s;
     citations := citations s; metadata := metadata s; error := error s;
     document_content := document_content s |}.

Definition set_answer (v : pystr) (s : AgentState) : AgentState :=
  {| query := query s; chat_history := chat_history s; intent := intent s;
     retrieved_chunks := retrieved_chunks s; answer := v;
     citations := citations s; metadata := metadata s; error := error s;
     document_content := document_content s |}.

Definition set_citations (v : list Citation) (s : AgentState) : AgentState :=
  {| query := query s; chat_history := chat_history s; intent := intent s;
     retrieved_chunks := retrieved_chunks s; answer := answer s;
     citations := v; metadata := metadata s; error := error s;
     document_content := document_content s |}.

Definition set_error (v : pystr) (s : AgentState) : AgentState :=
  {| query := query s; chat_history := chat_history s; intent := intent s;
     retrieved_chunks := retrieved_chunks s; answer := answer s;
     citations := citations s; metadata := metadata s; error := v;
     document_content := document_content s |}.

(** [state["metadata"][k] = v] *)
Definition set_meta (k : pystr) (v : pyval) (s : AgentState) : AgentState :=
  {| query := query s; chat_history := chat_history s; intent := intent s;
     retrieved_chunks := retrieved_chunks s; answer := answer s;
     citations := citations s;
     metadata := dict_set str_eqb k v (metadata s); error := error s;
     document_content := document_content s |}.

(** *** External collaborators and the calls made to them *)

Inductive event : Type :=
| EmbedCall (content : pystr)
| LlmCall (prompt : pystr).

(** The services, settings and library functions the orchestrator is
    given: the embedding and chat clients, the table of chunks of READY
    documents, [settings.TOP_K_RETRIEVAL], numpy's cosine similarity,
    [rank_bm25.BM25Okapi(corpus).get_scores], and the Unicode-table driven
    [str] methods. *)
Record Externals := {
  embed_content : pystr -> res (list Q);
  llm_invoke : pystr -> res pystr;
  ready_chunks : list DocumentChunk;
  TOP_K_RETRIEVAL : Z;
  cosine_similarity : list Q -> list Q -> Q;
  bm25_get_scores : list (list pystr) -> list pystr -> list Q;
  lower : pystr -> pystr;
  split : pystr -> list pystr;
  capitalize : pystr -> pystr
}.

(** Computations that call the collaborators: the calls made so far are
    threaded through, an exception leaves them recorded. *)
Definition io (A : Type) : Type := list event -> res A * list event.

Definition io_ret {A} (a : A) : io A := fun tr => (Ok a, tr).

Definition io_bind {A B} (m : io A) (k : A -> io B) : io B :=
  fun tr =>
    match m tr with
    | (Ok a, tr') => k a tr'
    | (Raise e, tr') => (Raise e, tr')
    end.

Definition io_lift {A} (r : res A) : io A := fun tr => (r, tr).

(** [try: body  except Exception as e: handler(e)] *)
Definition try_except {A} (body : io A) (handler : exn -> io A) : io A :=
  fun tr =>
    match body tr with
    | (Ok a, tr') => (Ok a, tr')
    | (Raise e, tr') => handler e tr'
    end.

Notation "x <~ m ;; k" := (io_bind m (fun x => k))
  (at level 61, m at next level, right associativity).

(** [str(e)] *)
Definition str_exn (e : exn) : pystr :=
  match e with
  | ZeroDivisionError => py "float division by zero"
  | ValueError => py "min() arg is an empty sequence"
  | KeyError => py "KeyError"
  | ServiceError m => m
  end.

Section Orchestrator.
Context {order : SetOrder} (ext : Externals).

(** *** [_router_agent] *)

Definition SUMMARIZE_KEYWORDS : list pystr :=
  [ py "summarize";
    py "summary";
    py "خلاصه";
    py "خلاصه کن";
    py "خلاصه‌اش کن" ].

Definition TRANSLATE_KEYWORDS : list pystr :=
  [ py "translate";
    py "ترجمه";
    py "به انگلیسی";
    py "به فارسی";
    py "translation" ].

Definition CHECKLIST_KEYWORDS : list pystr :=
  [ py "checklist";
    py "چک‌لیست";
    py "چک لیست";
    py "list";
    py "tasks";
    py "کارها" ].

Definition _router_agent (state : AgentState) : AgentState :=
  let query := lower ext (query state) in
  let state :=
    if any (fun keyword => str_in keyword query) SUMMARIZE_KEYWORDS then
      set_intent (py "SUMMARIZE") state
    else if any (fun keyword => str_in keyword query) TRANSLATE_KEYWORDS then
      set_intent (py "TRANSLATE") state
    else if any (fun keyword => str_in keyword query) CHECKLIST_KEYWORDS then
      set_intent (py "CHECKLIST") state
    else
      set_intent (py "RAG_QUERY") state in
  set_meta (py "intent") (VStr (intent state)) state.

Inductive node : Type := Retriever | Utility | GraphEnd.

Definition _route_decision (state : AgentState) : node :=
  let intent := intent state in
  if str_eqb intent (py "RAG_QUERY") then Retriever
  else if existsb (str_eqb intent)
                  [py "SUMMARIZE"; py "TRANSLATE"; py "CHECKLIST"]
  then Utility
  else GraphEnd.

(** *** [_retriever_agent] and its helpers

    The cosine similarity is a total function of the collaborators here;
    [FloatRetriever] has [np.dot], which raises on vectors of different
    lengths, and the division, which gives NaN for a zero norm. *)

Definition _generate_query_embedding (query : pystr) : io (list Q) :=
  fun tr => (embed_content ext query, tr ++ [EmbedCall query]).

Definition _vector_search (query_embedding : list Q)
    (chunks : list DocumentChunk) : list scored :=
  let results :=
    map (fun chunk =>
           (chunk, cosine_similarity ext query_embedding (embedding chunk)))
        chunks in
  sort_desc snd results.

Definition _bm25_search (query : pystr) (chunks : list DocumentChunk)
    : list scored :=
  let corpus := map (fun chunk => split ext (lower ext (text chunk))) chunks in
  let query_tokens := split ext (lower ext query) in
  let scores := bm25_get_scores ext corpus query_tokens in
  let results := List.combine chunks scores in
  sort_desc snd results.

Definition format_chunk (r : scored) : RetrievedChunk :=
  let (chunk, score) := r in
  {| rc_chunk_id := id chunk;
     rc_document_id := doc_pk (document chunk);
     rc_document_title := title (document chunk);
     rc_chunk_index := index chunk;
     rc_page_number := page_number chunk;
     rc_text := text chunk;
     rc_score := score |}.

Definition NO_DOCUMENTS : pystr := py "No documents available for search".

Definition _retriever_agent (state : AgentState) : io AgentState :=
  let query := query state in
  try_except
    (query_embedding <~ _generate_query_embedding query ;;
     let all_chunks := ready_chunks ext in
     match all_chunks with
     | [] =>
       io_ret (set_retrieved_chunks [] (set_error NO_DOCUMENTS state))
     | _ :: _ =>
       let vector_results := _vector_search query_embedding all_chunks in
       let bm25_results := _bm25_search query all_chunks in
       combined_results <~
         io_lift (_combine_and_rerank vector_results bm25_results query
                                      default_alpha) ;;
       let top_chunks := slice_to (TOP_K_RETRIEVAL ext) combined_results in
       let retrieved_chunks := map format_chunk top_chunks in
       io_ret
         (set_meta (py "num_retrieved")
                   (VInt (Z.of_nat (List.length retrieved_chunks)))
                   (set_retrieved_chunks retrieved_chunks state))
     end)
    (fun e =>
       io_ret (set_retrieved_chunks []
                 (set_error (py "Retrieval error: " ++ str_exn e) state))).

(** *** [_reasoning_agent] *)

Definition nl : pystr := [10%N].

Definition FALLBACK_ANSWER : pystr :=
  py "I couldn't find relevant information in the uploaded documents "
  ++ py "to answer your question. Could you please rephrase or ask something else?".

(** [chunk['page_number'] or 'N/A'], formatted *)
Definition page_or_na (p : option Z) : pystr :=
  match p with
  | None => py "N/A"
  | Some 0%Z => py "N/A"
  | Some n => str_of_Z n
  end.

Fixpoint context_parts_from (idx : Z) (chunks : list RetrievedChunk)
    : list pystr :=
  match chunks with
  | [] => []
  | chunk :: r =>
    (py "[Document " ++ str_of_Z (idx + 1) ++ py ": "
     ++ rc_document_title chunk ++ py ", Page "
     ++ page_or_na (rc_page_number chunk) ++ py "]" ++ nl
     ++ rc_text chunk ++ nl)
    :: context_parts_from (idx + 1) r
  end.

Definition history_context_of (chat_history : list ChatMessage) : pystr :=
  match chat_history with
  | [] => []
  | _ :: _ =>
    let recent_history := slice_last 4 chat_history in
    let history_parts :=
      map (fun msg => capitalize ext (role msg) ++ py ": " ++ content msg)
          recent_history in
    nl ++ py "Previous conversation:" ++ nl ++ join nl history_parts ++ nl
  end.

Definition reasoning_prompt (context history_context query : pystr) : pystr :=
  py "You are a helpful AI assistant that answers questions based strictly on the provided document context."
  ++ nl ++ nl
  ++ py "Context from documents:" ++ nl
  ++ context ++ nl
  ++ history_context ++ nl
  ++ nl
  ++ py "User Question: " ++ query ++ nl
  ++ nl ++ nl
  ++ py "Instructions:" ++ nl
  ++ py "1. Analyze the provided context carefully" ++ nl
  ++ py "2. Generate a concise, accurate answer based ONLY on the information in the context" ++ nl
  ++ py "3. If the context doesn't contain enough information, say so" ++ nl
  ++ py "4. Include specific references to which documents support your answer" ++ nl
  ++ py "5. Be clear and direct in your response" ++ nl
  ++ nl
  ++ py "Answer:".

Definition llm (prompt : pystr) : io pystr :=
  fun tr => (llm_invoke ext prompt, tr ++ [LlmCall prompt]).

Definition make_citation (chunk : RetrievedChunk) : Citation :=
  {| cit_document_id := rc_document_id chunk;
     cit_document_title := rc_document_title chunk;
     cit_chunk_index := rc_chunk_index chunk;
     cit_page := rc_page_number chunk;
     cit_snippet := slice_to 200 (rc_text chunk) ++ py "..." |}.

Definition _reasoning_agent (state : AgentState) : io AgentState :=
  let query := query state in
  let chunks := retrieved_chunks state in
  let chat_history := chat_history state in
  match chunks with
  | [] => io_ret (set_citations [] (set_answer FALLBACK_ANSWER state))
  | _ :: _ =>
    let context_parts := context_parts_from 0 chunks in
    let context := join (nl ++ nl) context_parts in
    let history_context := history_context_of chat_history in
    let prompt := reasoning_prompt context history_context query in
    try_except
      (answer <~ llm prompt ;;
       let citations := map make_citation chunks in
       io_ret (set_meta (py "agent_type") (VStr (py "reasoning"))
                 (set_citations citations (set_answer answer state))))
      (fun e =>
         io_ret (set_citations []
                   (set_answer
                      (py "I encountered an error while generating the answer.")
                      (set_error (py "Reasoning error: " ++ str_exn e)
                                 state))))
  end.

(** *** [_utility_agent] *)

Definition utility_prompt (intent text_to_process : pystr) : option pystr :=
  if str_eqb intent (py "SUMMARIZE") then
    Some (py "Summarize the following document text concisely:" ++ nl ++ nl
          ++ text_to_process ++ nl ++ nl
          ++ py "Provide a clear, concise summary.")
  else if str_eqb intent (py "TRANSLATE") then
    Some (py "Translate the following text to English if it's Persian, "
          ++ py "or Persian if it's English:" ++ nl ++ nl ++ text_to_process)
  else if str_eqb intent (py "CHECKLIST") then
    Some (py "Create a structured checklist or task list based on "
          ++ py "the following document text:" ++ nl ++ nl ++ text_to_process)
  else None.

Definition _utility_agent (state : AgentState) : io AgentState :=
  let query := query state in
  let intent := intent state in
  let document_content :=
    match document_content state with Some d => d | None => [] end in
  let text_to_process :=
    match document_content with [] => query | _ :: _ => document_content end in
  try_except
    (match utility_prompt intent text_to_process with
     | None =>
       io_ret (set_error (py "Unknown utility intent: " ++ intent) state)
     | Some prompt =>
       answer <~ llm prompt ;;
       io_ret (set_meta (py "utility_function") (VStr (lower ext intent))
                 (set_meta (py "agent_type") (VStr (py "utility"))
                    (set_citations [] (set_answer answer state))))
     end)
    (fun e =>
       io_ret (set_answer (py "I encountered an error processing your request.")
                 (set_error (py "Utility agent error: " ++ str_exn e) state))).

(** *** The compiled graph and [process_query]

    Entry point [router]; conditional edge by [_route_decision];
    [retriever -> reasoner -> END]; [utility -> END]. *)

Definition graph_invoke (initial_state : AgentState) : io AgentState :=
  let state := _router_agent initial_state in
  match _route_decision state with
  | Retriever =>
    state <~ _retriever_agent state ;;
    _reasoning_agent state
  | Utility => _utility_agent state
  | GraphEnd => io_ret state
  end.

Record QueryResult := {
  res_answer : pystr;
  res_citations : list Citation;
  res_metadata : pydict pystr pyval;
  res_error : pystr
}.

Definition initial_state_of (query : pystr) (chat_history : list ChatMessage)
    : AgentState :=
  {| query := query; chat_history := chat_history; intent := [];
     retrieved_chunks := []; answer := []; citations := [];
     metadata := []; error := []; document_content := None |}.

Definition process_query (query : pystr) (chat_history : list ChatMessage)
    : list event -> QueryResult * list event :=
  fun tr =>
    match graph_invoke (initial_state_of query chat_history) tr with
    | (Ok final_state, tr') =>
      ({| res_answer := answer final_state;
          res_citations := citations final_state;
          res_metadata := metadata final_state;
          res_error := error final_state |}, tr')
    | (Raise e, tr') =>
      ({| res_answer := []; res_citations := []; res_metadata := [];
          res_error := str_exn e |}, tr')
    end.

End Orchestrator.

End Services.

(** ** [backend/core/domain/entities/chunk.py] *)

Module Domain.
Import Py.

Record DocumentChunk := {
  id : option Z;
  document_id : Z;
  index : Z;
  text : pystr;
  embedding : list Q;
  page_number : option Z;
  char_count : Z;
  token_count : Z
}.

(** [get_snippet(self, max_length=200)] *)
Definition get_snippet (self : DocumentChunk) (max_length : Z) : pystr :=
  if (Z.of_nat (List.length (text self)) <=? max_length)%Z then text self
  else slice_to max_length (text self) ++ py "...".

Definition default_max_length : Z := 200.

End Domain.


(** ** [v3/document-qa-system]: hybrid search and reranker

    Scores are exact rationals in this module; [FloatV3] below has the
    same functions on floats. *)

Module V3.
Import Py.

(** [src/models/schemas.py] *)
Record DocumentChunk := {
  chunk_id : pystr;
  document_id : pystr;
  text : pystr;
  chunk_index : Z;
  metadata : pydict pystr pyval
}.

Record RetrievalResult := {
  chunk : DocumentChunk;
  score : Q;
  source : pystr
}.

(** Field-wise [==] of the two models. *)
Definition chunk_eqb (a b : DocumentChunk) : bool :=
  str_eqb (chunk_id a) (chunk_id b)
  && str_eqb (document_id a) (document_id b)
  && str_eqb (text a) (text b)
  && (chunk_index a =? chunk_index b)%Z
  && dict_eqb str_eqb pyval_eqb (metadata a) (metadata b).

Definition result_eqb (a b : RetrievalResult) : bool :=
  chunk_eqb (chunk a) (chunk b)
  && Qeq_bool (score a) (score b)
  && str_eqb (source a) (source b).

(** [src/config/settings.py] *)
Record Settings := {
  top_k_retrieval : Z;
  rerank_top_k : Z;
  bm25_weight : Q;
  vector_weight : Q
}.

Definition default_settings : Settings :=
  {| top_k_retrieval := 5; rerank_top_k := 3;
     bm25_weight := 1 # 2; vector_weight := 1 # 2 |}.

(** [x or y] on an optional integer / float: [None] and zero are falsy. *)
Definition or_Z (x : option Z) (y : Z) : Z :=
  match x with
  | None => y
  | Some 0%Z => y
  | Some v => v
  end.

Definition or_Q (x : option Q) (y : Q) : Q :=
  match x with
  | None => y
  | Some v => if Qeq_bool v 0 then y else v
  end.

(** *** [helpers.calculate_similarity_score] *)
Definition calculate_similarity_score
    (bm25_score vector_score bm25_weight vector_weight : Q) : Q :=
  (bm25_score * bm25_weight) + (vector_score * vector_weight).

(** *** [hybrid_search.HybridRetriever] *)

(** The dictionaries the two retrievers return; [_normalize_scores]
    adds the key [normalized_score]. *)
Record RawResult := {
  r_chunk : DocumentChunk;
  r_score : Q;
  r_source : pystr;
  r_normalized_score : option Q
}.

Definition set_normalized (v : Q) (r : RawResult) : RawResult :=
  {| r_chunk := r_chunk r; r_score := r_score r; r_source := r_source r;
     r_normalized_score := Some v |}.

Definition _normalize_scores (results : list RawResult)
    : res (list RawResult) :=
  match results with
  | [] => Ok results
  | _ :: _ =>
    let scores := map r_score results in
    min_score <- py_min scores ;;
    max_score <- py_max scores ;;
    if Qeq_bool max_score min_score then
      Ok (map (set_normalized 1) results)
    else
      mapM (fun result =>
              v <- py_div (r_score result - min_score)
                          (max_score - min_score) ;;
              Ok (set_normalized v result)) results
  end.

(** Entries of [result_map]. *)
Record Merged := {
  m_chunk : DocumentChunk;
  m_vector_score : Q;
  m_bm25_score : Q
}.

(** [result.get("normalized_score", 0.0)] *)
Definition get_normalized (r : RawResult) : Q :=
  match r_normalized_score r with Some v => v | None => 0 end.

Definition add_vector (result_map : pydict pystr Merged) (result : RawResult)
    : pydict pystr Merged :=
  dict_set str_eqb (chunk_id (r_chunk result))
           {| m_chunk := r_chunk result;
              m_vector_score := get_normalized result;
              m_bm25_score := 0 |} result_map.

Definition add_bm25 (result_map : pydict pystr Merged) (result : RawResult)
    : pydict pystr Merged :=
  let chunk_id := chunk_id (r_chunk result) in
  match dict_lookup str_eqb chunk_id result_map with
  | Some data =>
    dict_set str_eqb chunk_id
             {| m_chunk := m_chunk data;
                m_vector_score := m_vector_score data;
                m_bm25_score := get_normalized result |} result_map
  | None =>
    dict_set str_eqb chunk_id
             {| m_chunk := r_chunk result;
                m_vector_score := 0;
                m_bm25_score := get_normalized result |} result_map
  end.

(** Every entry of [result_map] holds a chunk whose id is its key. *)
Definition keyed_by_chunk_id (d : pydict pystr Merged) : Prop :=
  Forall (fun kv => chunk_id (m_chunk (snd kv)) = fst kv) d.

(** The scores [result_map] holds for a chunk id, [0.0] without entry. *)
Definition vector_score_of (d : pydict pystr Merged) (k : pystr) : Q :=
  match dict_lookup str_eqb k d with
  | Some data => m_vector_score data
  | None => 0
  end.

Definition bm25_score_of (d : pydict pystr Merged) (k : pystr) : Q :=
  match dict_lookup str_eqb k d with
  | Some data => m_bm25_score data
  | None => 0
  end.

(** The normalised score a result list gives a chunk id: that of its last
    result of this id, [0] when it has none. *)
Definition last_normalized (rs : list RawResult) (k : pystr) : Q :=
  fold_left (fun acc r =>
               if str_eqb k (chunk_id (r_chunk r)) then get_normalized r
               else acc) rs 0.

(** The items of [combined_results]: [{"chunk": ..., "score": ...}]. *)
Definition hybrid := (DocumentChunk * Q)%type.

Record HybridRetriever := {
  self_bm25_weight : Q;
  self_vector_weight : Q
}.

(** [__init__(bm25_weight=None, vector_weight=None)] *)
Definition HybridRetriever_init (settings : Settings)
    (bm25_weight vector_weight : option Q) : HybridRetriever :=
  {| self_bm25_weight := or_Q bm25_weight (V3.bm25_weight settings);
     self_vector_weight := or_Q vector_weight (V3.vector_weight settings) |}.

Definition _combine_results (self : HybridRetriever)
    (vector_results bm25_results : list RawResult) : list hybrid :=
  let result_map := fold_left add_vector vector_results [] in
  let result_map := fold_left add_bm25 bm25_results result_map in
  map (fun item =>
         let data := snd item in
         (m_chunk data,
          calculate_similarity_score (m_bm25_score data) (m_vector_score data)
            (self_bm25_weight self) (self_vector_weight self)))
      result_map.

(** *** [reranker.Reranker] *)

(** [sum(1 for s in selected if s.chunk.document_id == candidate_doc_id)] *)
Definition same_doc_count (candidate_doc_id : pystr)
    (selected : list RetrievalResult) : nat :=
  List.length
    (filter (fun s => str_eqb (document_id (chunk s)) candidate_doc_id)
            selected).

(** The divisor [1.0 + same_doc_count] is at least one. *)
Definition _calculate_diversity (candidate : RetrievalResult)
    (selected : list RetrievalResult) : Q :=
  match selected with
  | [] => 1
  | _ :: _ =>
    let candidate_doc_id := document_id (chunk candidate) in
    let same_doc_count := same_doc_count candidate_doc_id selected in
    1 / (1 + inject_Z (Z.of_nat same_doc_count))
  end.

Definition combined_score (selected : list RetrievalResult)
    (candidate : RetrievalResult) : Q :=
  let diversity_score := _calculate_diversity candidate selected in
  (7 # 10) * score candidate + (3 # 10) * diversity_score.

(** One pass of the inner [for candidate in remaining] loop, started from
    [best_candidate = None], [best_score = -1]. *)
Definition scan_step (selected : list RetrievalResult)
    (best : option RetrievalResult * Q) (candidate : RetrievalResult)
    : option RetrievalResult * Q :=
  let combined_score := combined_score selected candidate in
  if Qltb (snd best) combined_score then (Some candidate, combined_score)
  else best.

Definition best_candidate (selected remaining : list RetrievalResult)
    : option RetrievalResult :=
  fst (fold_left (scan_step selected) remaining (None, - (1))).

(** [l.remove(x)]: drops the first element equal to [x]. *)
Fixpoint list_remove (x : RetrievalResult) (l : list RetrievalResult)
    : res (list RetrievalResult) :=
  match l with
  | [] => Raise ValueError
  | y :: r =>
    if result_eqb y x then Ok r
    else r' <- list_remove x r ;; Ok (y :: r')
  end.

(** The [while len(selected) < top_k and remaining] loop. *)
Equations? select_loop (top_k : Z) (selected remaining : list RetrievalResult)
    : res (list RetrievalResult) by wf (List.length remaining) lt :=
select_loop top_k selected remaining
  with ((Z.of_nat (List.length selected) <? top_k)%Z
        && negb (Nat.eqb (List.length remaining) 0)) := {
  | false => Ok selected
  | true with Equations.Prop.Logic.inspect (best_candidate selected remaining) := {
    | exist _ None _ => Ok selected
    | exist _ (Some best) _
        with Equations.Prop.Logic.inspect (list_remove best remaining) := {
      | exist _ (Raise e) _ => Raise e
      | exist _ (Ok remaining') Hrm =>
        select_loop top_k (selected ++ [best]) remaining' } } }.
Proof.
  clear - Hrm. revert remaining' Hrm.
  induction remaining as [|y r IH]; simpl; intros l' H; [discriminate|].
  destruct (result_eqb y best).
  - injection H as <-. lia.
  - destruct (list_remove best r) as [r'|] eqn:E; simpl in H; [|discriminate].
    injection H as <-. simpl. specialize (IH r' eq_refl). lia.
Defined.

Definition _diversity_rerank (results : list RetrievalResult) (top_k : Z)
    : res (list RetrievalResult) :=
  match results with
  | [] => Ok []
  | top :: remaining => select_loop top_k [top] remaining
  end.

Definition rerank (settings : Settings) (query : pystr)
    (results : list RetrievalResult) (top_k : option Z)
    : res (list RetrievalResult) :=
  match results with
  | [] => Ok results
  | _ :: _ =>
    let top_k := or_Z top_k (rerank_top_k settings) in
    if (Z.of_nat (List.length results) <=? top_k)%Z then Ok results
    else _diversity_rerank results top_k
  end.

(** *** [HybridRetriever.retrieve], up to the sort

    The two retrievers are collaborators; their answers are arguments. *)
Definition fuse (self : HybridRetriever)
    (vector_results bm25_results : list RawResult) : res (list hybrid) :=
  vector_results <- _normalize_scores vector_results ;;
  bm25_results <- _normalize_scores bm25_results ;;
  let combined_results := _combine_results self vector_results bm25_results in
  Ok (sort_desc snd combined_results).

End V3.


(** ** Concrete inputs used by the examples below *)

Module Examples.
Import Py.

(** A set order: ids in order of last occurrence over both key lists. *)
#[export] Instance union_order : Services.SetOrder :=
  {| Services.iter_union := fun a b => nodup Z.eq_dec (a ++ b);
     Services.iter_union_NoDup := fun a b => NoDup_nodup Z.eq_dec (a ++ b);
     Services.iter_union_In := fun a b k =>
       iff_trans (nodup_In Z.eq_dec (a ++ b) k) (in_app_iff a b k) |}.

(** Score in thousandths, rounded half up: three decimals. *)
Definition thousandths (q : Q) : Z := Qfloor (q * 1000 + (1 # 2)).

(** Scenario B: four chunks of two documents. *)
Definition doc_A : Services.Document :=
  {| Services.doc_pk := 1; Services.title := py "A" |}.
Definition doc_B : Services.Document :=
  {| Services.doc_pk := 2; Services.title := py "B" |}.

Definition mk_chunk (i : Z) (d : Services.Document) (idx : Z)
    : Services.DocumentChunk :=
  {| Services.id := i; Services.document := d; Services.index := idx;
     Services.text := py "chunk"; Services.page_number := None;
     Services.embedding := [] |}.

Definition c1 := mk_chunk 1 doc_A 0.
Definition c2 := mk_chunk 2 doc_A 1.
Definition c3 := mk_chunk 3 doc_B 0.
Definition c4 := mk_chunk 4 doc_B 1.

Definition scenario_semantic : list Services.scored :=
  [(c1, 95 # 100); (c2, 9 # 10); (c3, 4 # 10); (c4, 3 # 10)].
Definition scenario_lexical : list Services.scored :=
  [(c1, 2); (c2, 2); (c3, 2); (c4, 0)].

(** The fused entry of chunk id [k] in scenario B, given the two
    normalised dictionaries. *)
Definition scenario_entry (vs bs : pydict Z Q) (k : Z) : Services.scored :=
  (if (k =? 1)%Z then c1 else if (k =? 2)%Z then c2
   else if (k =? 3)%Z then c3 else c4,
   Services.default_alpha * dict_get Z.eqb k 0 vs
   + (1 - Services.default_alpha) * dict_get Z.eqb k 0 bs).

(** Two candidates of equal score, for [hybrid_search.py]. *)
Definition raw (cid : pystr) (s : Q) : V3.RawResult :=
  {| V3.r_chunk := {| V3.chunk_id := cid; V3.document_id := py "doc";
                      V3.text := py "text"; V3.chunk_index := 0;
                      V3.metadata := [] |};
     V3.r_score := s; V3.r_source := py "vector";
     V3.r_normalized_score := None |}.

Definition default_retriever : V3.HybridRetriever :=
  V3.HybridRetriever_init V3.default_settings None None.

(** Stand-ins for the collaborators.  [ascii_lower] lowers the letters
    [A-Z] only, which is what [str.lower] does on ASCII text. *)
Definition ascii_lower (s : pystr) : pystr :=
  map (fun c => if ((65 <=? c) && (c <=? 90))%N then (c + 32)%N else c) s.

Definition externals_with (embed : pystr -> res (list Q))
    (chat : pystr -> res pystr) (corpus : list Services.DocumentChunk)
    : Services.Externals :=
  {| Services.embed_content := embed;
     Services.llm_invoke := chat;
     Services.ready_chunks := corpus;
     Services.TOP_K_RETRIEVAL := 5;
     Services.cosine_similarity := fun _ _ => 0;
     Services.bm25_get_scores := fun corpus _ => map (fun _ => 0) corpus;
     Services.lower := ascii_lower;
     Services.split := fun s => [s];
     Services.capitalize := fun s => s |}.

(** Both services answer; no document is ready. *)
Definition empty_corpus_ok : Services.Externals :=
  externals_with (fun _ => Ok [1; 0]) (fun _ => Ok (py "An answer.")) [].

(** The embedding service is down; no document is ready. *)
Definition empty_corpus_embed_down : Services.Externals :=
  externals_with (fun _ => Raise (ServiceError (py "embedding unavailable")))
                 (fun _ => Ok (py "An answer.")) [].

Definition question : Services.AgentState :=
  Services.initial_state_of (py "What is AI?") [].

Definition mixed_query : Services.AgentState :=
  Services.initial_state_of (py "Please Summarize the checklist") [].

(** A state holding one retrieved chunk with a short text. *)
Definition short_chunk : Services.RetrievedChunk :=
  {| Services.rc_chunk_id := 1; Services.rc_document_id := 1;
     Services.rc_document_title := py "AI Guide";
     Services.rc_chunk_index := 0; Services.rc_page_number := Some 1%Z;
     Services.rc_text := py "Short text"; Services.rc_score := 9 # 10 |}.

Definition short_state : Services.AgentState :=
  Services.set_retrieved_chunks [short_chunk] question.

Definition short_domain_chunk : Domain.DocumentChunk :=
  {| Domain.id := Some 1%Z; Domain.document_id := 1; Domain.index := 0;
     Domain.text := py "Short text"; Domain.embedding := [];
     Domain.page_number := None; Domain.char_count := 10;
     Domain.token_count := 2 |}.

(** Fused results for the reranker: four chunks of document A, then two
    of document B. *)
Definition fused (cid did : string) (s : Q) : V3.RetrievalResult :=
  {| V3.chunk := {| V3.chunk_id := py cid; V3.document_id := py did;
                    V3.text := py "text"; V3.chunk_index := 0;
                    V3.metadata := [] |};
     V3.score := s; V3.source := py "hybrid" |}.

Definition six_results : list V3.RetrievalResult :=
  [ fused "a1" "A" (9 # 10); fused "a2" "A" (8 # 10);
    fused "a3" "A" (7 # 10); fused "a4" "A" (6 # 10);
    fused "b1" "B" (5 # 10); fused "b2" "B" (4 # 10) ].

End Examples.

(** ** Vocabulary of the statements *)

Module Spec.
Import Py.


(** [needle] occurs in [hay] as a substring. *)
Definition contains (needle hay : pystr) : Prop :=
  exists pre post, hay = pre ++ needle ++ post.

(** Some keyword of the set occurs in the query. *)
Definition matches (keywords : list pystr) (query : pystr) : Prop :=
  exists keyword, In keyword keywords /\ contains keyword query.

(** A citation carries the document id, title, chunk index and page of a
    chunk. *)
Definition cites (chunk : Services.RetrievedChunk) (c : Services.Citation)
    : Prop :=
  Services.cit_document_id c = Services.rc_document_id chunk
  /\ Services.cit_document_title c = Services.rc_document_title chunk
  /\ Services.cit_chunk_index c = Services.rc_chunk_index chunk
  /\ Services.cit_page c = Services.rc_page_number chunk.

(** *** The reranker, in the words of the design *)

(** [diversity = 1 / (1 + number of selected results of the same
    document)] and [combined = 0.7 * relevance + 0.3 * diversity]. *)
Definition same_document (a b : V3.RetrievalResult) : bool :=
  str_eqb (V3.document_id (V3.chunk a)) (V3.document_id (V3.chunk b)).

Definition diversity (selected : list V3.RetrievalResult)
    (candidate : V3.RetrievalResult) : Q :=
  1 / (1 + inject_Z (Z.of_nat
             (List.length (filter (fun s => same_document s candidate)
                                  selected)))).

Definition combined (selected : list V3.RetrievalResult)
    (candidate : V3.RetrievalResult) : Q :=
  (7 # 10) * V3.score candidate + (3 # 10) * diversity selected candidate.

(** Greedy selection: stop when [K] results are selected or no candidate
    is left; otherwise move a remaining candidate of greatest combined
    score to the end of the selection. *)
Inductive greedy_selection (K : Z)
    : list V3.RetrievalResult -> list V3.RetrievalResult ->
      list V3.RetrievalResult -> Prop :=
| greedy_full selected remaining :
    (K <= Z.of_nat (List.length selected))%Z ->
    greedy_selection K selected remaining selected
| greedy_exhausted selected :
    greedy_selection K selected [] selected
| greedy_pick selected pre best post out :
    (Z.of_nat (List.length selected) < K)%Z ->
    (forall c, In c (pre ++ best :: post) ->
               combined selected c <= combined selected best) ->
    greedy_selection K (selected ++ [best]) (pre ++ post) out ->
    greedy_selection K selected (pre ++ best :: post) out.

End Spec.

(** ** [backend/rag/services.py]: [process_document_utility] *)

Module DocumentUtility.
Import Py.

(** The tables read here: [Document.objects.get(id=..., status="READY")]
    ([None] for [DoesNotExist]), the chunks of a document ordered by
    index, and [str.upper]. *)
Record Tables := {
  get_ready_document : Z -> option Services.Document;
  chunks_by_index : Services.Document -> list Services.DocumentChunk;
  upper : pystr -> pystr
}.

Definition error_result (message : pystr) : Services.QueryResult :=
  {| Services.res_answer := []; Services.res_citations := [];
     Services.res_metadata := []; Services.res_error := message |}.

Definition UTILITY_ACTIONS : list pystr :=
  [py "SUMMARIZE"; py "TRANSLATE"; py "CHECKLIST"].

Definition process_document_utility (ext : Services.Externals)
    (tables : Tables) (document_id : Z) (action : pystr)
    : list Services.event -> Services.QueryResult * list Services.event :=
  fun tr =>
    match get_ready_document tables document_id with
    | None => (error_result (py "Document not found or not ready."), tr)
    | Some document =>
      match chunks_by_index tables document with
      | [] => (error_result (py "Document has no content chunks."), tr)
      | (_ :: _) as chunks =>
        let full_text :=
          join (Services.nl ++ Services.nl) (map Services.text chunks) in
        let intent := upper tables action in
        if negb (existsb (str_eqb intent) UTILITY_ACTIONS) then
          (error_result (py "Unknown action: " ++ action), tr)
        else
          let state :=
            {| Services.query := []; Services.chat_history := [];
               Services.intent := intent; Services.retrieved_chunks := [];
               Services.answer := []; Services.citations := [];
               Services.metadata :=
                 [ (py "intent", VStr intent);
                   (py "document_id", VInt document_id);
                   (py "document_title", VStr (Services.title document)) ];
               Services.error := [];
               Services.document_content := Some full_text |} in
          match Services._utility_agent ext state tr with
          | (Ok state, tr') =>
            ({| Services.res_answer := Services.answer state;
                Services.res_citations := Services.citations state;
                Services.res_metadata := Services.metadata state;
                Services.res_error := Services.error state |}, tr')
          | (Raise e, tr') => (error_result (Services.str_exn e), tr')
          end
      end
    end.

(** The text a utility request works on: the document content when
    there is one and it is not empty, the query otherwise. *)
Definition utility_text (state : Services.AgentState) : pystr :=
  match Services.document_content state with
  | Some (c :: d) => c :: d
  | _ => Services.query state
  end.

(** Calls recorded in a trace. *)
Definition is_llm_call (e : Services.event) : bool :=
  match e with Services.LlmCall _ => true | Services.EmbedCall _ => false end.

Definition is_embed_call (e : Services.event) : bool :=
  match e with Services.EmbedCall _ => true | Services.LlmCall _ => false end.

End DocumentUtility.

(** ** [backend/core/domain]: document status and document entity *)

Module DomainDocument.
Import Py.

(** [value_objects/document_status.py] *)
Inductive DocumentStatus : Type := UPLOADED | PROCESSING | READY | FAILED.

Definition status_eqb (a b : DocumentStatus) : bool :=
  match a, b with
  | UPLOADED, UPLOADED | PROCESSING, PROCESSING
  | READY, READY | FAILED, FAILED => true
  | _, _ => false
  end.

Definition valid_transitions (self : DocumentStatus) : list DocumentStatus :=
  match self with
  | UPLOADED => [PROCESSING; FAILED]
  | PROCESSING => [READY; FAILED]
  | READY => []
  | FAILED => [PROCESSING]
  end.

Definition can_transition_to (self new_status : DocumentStatus) : bool :=
  existsb (status_eqb new_status) (valid_transitions self).

(** [value_objects/file_type.py], the enumeration. *)
Inductive FileType : Type := PDF | DOCX | TXT | JPG | JPEG | PNG.

(** [exceptions.InvalidDocumentStateError]; the message names the two
    statuses. *)
Inductive outcome (A : Type) : Type :=
| Done (a : A)
| InvalidDocumentStateError (from to : DocumentStatus).
Arguments Done {A} a.
Arguments InvalidDocumentStateError {A} from to.

(** [entities/document.py]; times are seconds. *)
Record Document := {
  id : option Z;
  title : pystr;
  file_path : pystr;
  file_type : FileType;
  file_size : Z;
  status : DocumentStatus;
  language : option pystr;
  error_message : option pystr;
  num_chunks : Z;
  num_pages : Z;
  created_at : option Z;
  updated_at : option Z;
  processed_at : option Z
}.

Definition start_processing (self : Document) : outcome Document :=
  if negb (can_transition_to (status self) PROCESSING) then
    InvalidDocumentStateError (status self) PROCESSING
  else
    Done {| id := id self; title := title self; file_path := file_path self;
            file_type := file_type self; file_size := file_size self;
            status := PROCESSING; language := language self;
            error_message := None;
            num_chunks := num_chunks self; num_pages := num_pages self;
            created_at := created_at self; updated_at := updated_at self;
            processed_at := processed_at self |}.

(** [now] is the value of [datetime.now()] at the call. *)
Definition mark_as_ready (now : Z) (self : Document)
    (num_chunks num_pages : Z) : outcome Document :=
  if negb (can_transition_to (status self) READY) then
    InvalidDocumentStateError (status self) READY
  else
    Done {| id := id self; title := title self; file_path := file_path self;
            file_type := file_type self; file_size := file_size self;
            status := READY; language := language self;
            error_message := None;
            num_chunks := num_chunks; num_pages := num_pages;
            created_at := created_at self; updated_at := updated_at self;
            processed_at := Some now |}.

Definition mark_as_failed (self : Document) (error_message : pystr)
    : outcome Document :=
  if negb (can_transition_to (status self) FAILED) then
    InvalidDocumentStateError (status self) FAILED
  else
    Done {| id := id self; title := title self; file_path := file_path self;
            file_type := file_type self; file_size := file_size self;
            status := FAILED; language := language self;
            error_message := Some error_message;
            num_chunks := num_chunks self; num_pages := num_pages self;
            created_at := created_at self; updated_at := updated_at self;
            processed_at := processed_at self |}.

Definition is_ready (self : Document) : bool := status_eqb (status self) READY.
Definition is_processing (self : Document) : bool :=
  status_eqb (status self) PROCESSING.
Definition is_failed (self : Document) : bool :=
  status_eqb (status self) FAILED.

(** A call of one of the three state-changing methods, and a run of such
    calls that stops at the first exception. *)
Inductive call : Type :=
| StartProcessing
| MarkAsReady (now num_chunks num_pages : Z)
| MarkAsFailed (error_message : pystr).

Definition perform (c : call) (d : Document) : outcome Document :=
  match c with
  | StartProcessing => start_processing d
  | MarkAsReady now n p => mark_as_ready now d n p
  | MarkAsFailed m => mark_as_failed d m
  end.

Fixpoint run (calls : list call) (d : Document) : outcome Document :=
  match calls with
  | [] => Done d
  | c :: rest =>
    match perform c d with
    | Done d' => run rest d'
    | InvalidDocumentStateError a b => InvalidDocumentStateError a b
    end
  end.

(** A document as the dataclass defaults make it. *)
Definition new_document (title file_path : pystr) (file_type : FileType)
    (file_size : Z) : Document :=
  {| id := None; title := title; file_path := file_path;
     file_type := file_type; file_size := file_size; status := UPLOADED;
     language := None; error_message := None; num_chunks := 0;
     num_pages := 0; created_at := None; updated_at := None;
     processed_at := None |}.

End DomainDocument.

(** ** [v3/helpers.py] *)

Module Helpers.
Import Py.

(** [truncate_text(text, max_length=200, suffix="...")] *)
Definition truncate_text (text : pystr) (max_length : Z) (suffix : pystr)
    : pystr :=
  if (Z.of_nat (List.length text) <=? max_length)%Z then text
  else slice_to (max_length - Z.of_nat (List.length suffix)) text ++ suffix.

(** [estimate_tokens]: [len(text) // 4] *)
Definition estimate_tokens (text : pystr) : Z :=
  (Z.of_nat (List.length text) / 4)%Z.

(** [merge_metadata]: [base.copy()] then [update(additional)]. *)
Definition merge_metadata (base additional : pydict pystr pyval)
    : pydict pystr pyval :=
  fold_left (fun merged kv => dict_set str_eqb (fst kv) (snd kv) merged)
            additional base.

End Helpers.

(** ** Further concrete inputs *)

Module Scenarios.
Import Py.

(** One ready chunk; the model is down. *)
Definition model_down : Services.Externals :=
  Examples.externals_with
    (fun _ => Ok [1; 0])
    (fun _ => Raise (ServiceError (py "model unavailable")))
    [Examples.c1].

(** The summary request of the router examples, routed to the utility
    agent, and the same state with an intent the agent does not know. *)
Definition summary_request : Services.AgentState :=
  Services.set_intent (py "SUMMARIZE") Examples.mixed_query.

Definition odd_request : Services.AgentState :=
  Services.set_intent (py "EXPLAIN") Examples.mixed_query.

(** A chunk of thirteen characters. *)
Definition long_domain_chunk : Domain.DocumentChunk :=
  {| Domain.id := Some 2%Z; Domain.document_id := 1; Domain.index := 1;
     Domain.text := py "A longer text"; Domain.embedding := [];
     Domain.page_number := None; Domain.char_count := 13;
     Domain.token_count := 3 |}.

Definition base_metadata : pydict pystr pyval :=
  [(py "source", VStr (py "upload")); (py "page", VInt 1)].

Definition page_metadata : pydict pystr pyval :=
  [(py "page", VInt 2); (py "lang", VStr (py "fa"))].

(** Processing that fails once and succeeds at the second attempt. *)
Definition retried_processing : list DomainDocument.call :=
  [ DomainDocument.StartProcessing;
    DomainDocument.MarkAsFailed (py "parse error");
    DomainDocument.StartProcessing;
    DomainDocument.MarkAsReady 1700000000 7 2 ].

Definition uploaded_report : DomainDocument.Document :=
  DomainDocument.new_document (py "Report") (py "docs/report.pdf")
                              DomainDocument.PDF 2048.

Definition ready_report : DomainDocument.Document :=
  {| DomainDocument.id := Some 1%Z; DomainDocument.title := py "Report";
     DomainDocument.file_path := py "docs/report.pdf";
     DomainDocument.file_type := DomainDocument.PDF;
     DomainDocument.file_size := 2048;
     DomainDocument.status := DomainDocument.READY;
     DomainDocument.language := None;
     DomainDocument.error_message := None;
     DomainDocument.num_chunks := 7; DomainDocument.num_pages := 2;
     DomainDocument.created_at := None; DomainDocument.updated_at := None;
     DomainDocument.processed_at := Some 1700000000%Z |}.

End Scenarios.


(** ** Python's [float]: IEEE 754 arithmetic

    A float is a finite rational of the format, an infinity or NaN.  The
    four operations are those of IEEE 754: the exact result, rounded by
    the format's rounding function, an infinity where the rounded result
    exceeds the largest finite number, NaN for the invalid operations.
    Comparisons are exact, and false when an operand is NaN.  The sign of
    zero is not represented. *)

Module Float.
Import Py.

Inductive pyfloat : Type :=
| Fin (q : Q)
| PInf
| NInf
| NaN.

(** A format: its rounding to the nearest number of the format (with
    unbounded exponent range) and its largest finite number. *)
Record Format := {
  rnd : Q -> Q;
  fmax : Q
}.

(** *** Comparisons: [x < y], [x <= y], [x == y] *)

Definition fltb (x y : pyfloat) : bool :=
  match x, y with
  | NaN, _ | _, NaN => false
  | NInf, NInf => false
  | NInf, _ => true
  | _, NInf => false
  | PInf, _ => false
  | Fin _, PInf => true
  | Fin a, Fin b => Qltb a b
  end.

Definition fleb (x y : pyfloat) : bool :=
  match x, y with
  | NaN, _ | _, NaN => false
  | NInf, _ => true
  | _, NInf => false
  | _, PInf => true
  | PInf, _ => false
  | Fin a, Fin b => Qle_bool a b
  end.

Definition feqb (x y : pyfloat) : bool :=
  match x, y with
  | Fin a, Fin b => Qeq_bool a b
  | PInf, PInf | NInf, NInf => true
  | _, _ => false
  end.

(** The same float: the same number, the same infinity or both NaN. *)
Definition feq (x y : pyfloat) : Prop :=
  match x, y with
  | Fin a, Fin b => a == b
  | PInf, PInf | NInf, NInf | NaN, NaN => True
  | _, _ => False
  end.

Definition is_nan (x : pyfloat) : bool :=
  match x with NaN => true | _ => false end.

Definition is_finite (x : pyfloat) : bool :=
  match x with Fin _ => true | _ => false end.

(** *** Arithmetic *)

Section Arithmetic.
Variable F : Format.

(** The float nearest to the exact result [q]. *)
Definition round (q : Q) : pyfloat :=
  let r := rnd F q in
  if Qltb (fmax F) r then PInf
  else if Qltb r (- fmax F) then NInf
  else Fin r.

(** A decimal literal such as [0.7], and [float(n)] of an integer. *)
Definition literal (q : Q) : pyfloat := round q.
Definition of_int (n : Z) : pyfloat := round (inject_Z n).

Definition fneg (x : pyfloat) : pyfloat :=
  match x with
  | Fin a => Fin (- a)
  | PInf => NInf
  | NInf => PInf
  | NaN => NaN
  end.

Definition fadd (x y : pyfloat) : pyfloat :=
  match x, y with
  | NaN, _ | _, NaN => NaN
  | PInf, NInf | NInf, PInf => NaN
  | PInf, _ | _, PInf => PInf
  | NInf, _ | _, NInf => NInf
  | Fin a, Fin b => round (a + b)
  end.

Definition fsub (x y : pyfloat) : pyfloat :=
  match x, y with
  | NaN, _ | _, NaN => NaN
  | PInf, PInf | NInf, NInf => NaN
  | PInf, _ | _, NInf => PInf
  | NInf, _ | _, PInf => NInf
  | Fin a, Fin b => round (a - b)
  end.

(** The infinity of the sign of [a], for [a] not zero. *)
Definition inf_of_sign (a : Q) : pyfloat :=
  if Qltb 0 a then PInf else NInf.

Definition fmul (x y : pyfloat) : pyfloat :=
  match x, y with
  | NaN, _ | _, NaN => NaN
  | PInf, PInf | NInf, NInf => PInf
  | PInf, NInf | NInf, PInf => NInf
  | PInf, Fin a | Fin a, PInf =>
    if Qeq_bool a 0 then NaN else inf_of_sign a
  | NInf, Fin a | Fin a, NInf =>
    if Qeq_bool a 0 then NaN else inf_of_sign (- a)
  | Fin a, Fin b => round (a * b)
  end.

(** Division as numpy's [float64] has it: a zero divisor gives an
    infinity or NaN (with a warning), it does not raise.  A zero divisor
    is taken as [+0.0]. *)
Definition fdiv (x y : pyfloat) : pyfloat :=
  match x, y with
  | NaN, _ | _, NaN => NaN
  | PInf, PInf | PInf, NInf | NInf, PInf | NInf, NInf => NaN
  | PInf, Fin b => if Qltb b 0 then NInf else PInf
  | NInf, Fin b => if Qltb b 0 then PInf else NInf
  | Fin _, PInf | Fin _, NInf => Fin 0
  | Fin a, Fin b =>
    if Qeq_bool b 0 then
      if Qeq_bool a 0 then NaN else inf_of_sign a
    else round (a / b)
  end.

(** Division of Python's own [float]: a zero divisor raises. *)
Definition py_fdiv (x y : pyfloat) : res pyfloat :=
  if feqb y (Fin 0) then Raise ZeroDivisionError else Ok (fdiv x y).

(** [q] is a number of the format. *)
Definition in_format (q : Q) : Prop :=
  rnd F q == q /\ - fmax F <= q <= fmax F.

(** [x] is a value a float can have. *)
Definition is_float (x : pyfloat) : Prop :=
  match x with Fin q => in_format q | _ => True end.

End Arithmetic.

(** The facts about rounding that the proofs rest on: rounding is
    monotone and leaves the numbers of the format as they are, 0, 1/4 and
    1 are numbers of the format, and the difference of two distinct
    numbers of the format does not round to zero (gradual underflow). *)
Record Laws (F : Format) : Prop := {
  rnd_mono : forall a b, a <= b -> rnd F a <= rnd F b;
  rnd_idem : forall a, rnd F (rnd F a) == rnd F a;
  rnd_zero : rnd F 0 == 0;
  rnd_quarter : rnd F (1 # 4) == 1 # 4;
  rnd_one : rnd F 1 == 1;
  fmax_one : 1 <= fmax F;
  rnd_sub_zero : forall a b,
    rnd F a == a -> rnd F b == b -> rnd F (a - b) == 0 -> a == b
}.

(** *** [min], [max] and the stable descending sort on floats *)

(** [min(l)], [max(l)]: the running value is replaced by an item that
    compares smaller / greater. *)
Fixpoint min_from (cur : pyfloat) (l : list pyfloat) : pyfloat :=
  match l with
  | [] => cur
  | x :: r => min_from (if fltb x cur then x else cur) r
  end.

Fixpoint max_from (cur : pyfloat) (l : list pyfloat) : pyfloat :=
  match l with
  | [] => cur
  | x :: r => max_from (if fltb cur x then x else cur) r
  end.

Definition py_min (l : list pyfloat) : res pyfloat :=
  match l with
  | [] => Raise ValueError
  | x :: r => Ok (min_from x r)
  end.

Definition py_max (l : list pyfloat) : res pyfloat :=
  match l with
  | [] => Raise ValueError
  | x :: r => Ok (max_from x r)
  end.

(** [l.sort(key=key, reverse=True)] for keys that are not NaN: the
    stable descending sort.  (With a NaN among the keys the comparison is
    not an order and the result of Python's sort depends on its merge
    strategy; no result below concerns that case.) *)
Section Sort.
Variables (A : Type) (key : A -> pyfloat).

Fixpoint insert_desc (x : A) (l : list A) : list A :=
  match l with
  | [] => [x]
  | y :: r =>
    if fltb (key x) (key y) then y :: insert_desc x r
    else x :: y :: r
  end.

Fixpoint sort_desc (l : list A) : list A :=
  match l with
  | [] => []
  | x :: r => insert_desc x (sort_desc r)
  end.


End Sort.

(** The normalisation formula on floats: [(score - min) / (max - min)],
    and [1.0] when [max == min]. *)
Definition min_max_norm (F : Format) (mn mx s : pyfloat) : pyfloat :=
  if feqb mx mn then Fin 1 else fdiv F (fsub F s mn) (fsub F mx mn).

(** [v] is a finite float between 0 and 1. *)
Definition in_unit_interval (v : pyfloat) : Prop :=
  exists q, v = Fin q /\ 0 <= q <= 1.

(** A weight: a finite float that is not negative. *)
Definition weight (F : Format) (w : pyfloat) : Prop :=
  exists q, w = Fin q /\ in_format F q /\ 0 <= q.

(** Raw scores the normaliser handles without overflow: finite floats
    whose range [max - min] is finite. *)
Definition well_ranged (F : Format) (scores : list pyfloat) : Prop :=
  Forall (is_float F) scores
  /\ Forall (fun s => is_finite s = true) scores
  /\ forall mn mx,
       py_min scores = Ok mn -> py_max scores = Ok mx ->
       is_finite (fsub F mx mn) = true.

(** *** The format of Python's floats: binary64, rounding to nearest,
    ties to even *)

(** The integer nearest to [y], the even one of two equally near. *)
Definition rne (y : Q) : Z :=
  let f := Qfloor y in
  match Qcompare (y - inject_Z f) (1 # 2) with
  | Lt => f
  | Gt => (f + 1)%Z
  | Eq => if Z.even f then f else (f + 1)%Z
  end.

(** Numbers are counted in units of [2^-1074], the smallest positive
    binary64 number.  A number of [x >= 0] units with [2^e <= x < 2^(e+1)]
    is rounded to a multiple of [2^(e-52)] units (53 significant bits),
    and to a whole number of units when [x < 2^53] (subnormal numbers and
    the first binade of normal ones). *)
Definition units : Z := 2 ^ 1074.

(** The exponent of the unit in the last place of [x] units. *)
Definition ulp_exp (x : Q) : Z := Z.max 0 (Z.log2 (Qfloor x) - 52).

Definition rnd_units (x : Q) : Z :=
  let k := ulp_exp x in
  (rne (x / inject_Z (2 ^ k)) * 2 ^ k)%Z.

Definition rnd64 (q : Q) : Q :=
  let x := q * inject_Z units in
  Qred (if Qle_bool 0 x then inject_Z (rnd_units x) / inject_Z units
        else - (inject_Z (rnd_units (- x)) / inject_Z units)).

(** The largest finite binary64 number, [(2^53 - 1) * 2^971]. *)
Definition fmax64 : Q := inject_Z ((2 ^ 53 - 1) * 2 ^ 971).

Definition binary64 : Format := {| rnd := rnd64; fmax := fmax64 |}.

End Float.

(** ** [backend/rag/services.py] on floats: score fusion

    The scores are numpy [float64] values: results of [np.dot] and of
    [BM25Okapi.get_scores]. *)

Module FloatServices.
Import Py Float.

(** A retrieval result is a [(chunk, score)] tuple. *)
Definition scored := (Services.DocumentChunk * pyfloat)%type.

Section WithFormat.
Variable F : Format.

(** [normalize_scores], the closure of [_combine_and_rerank]. *)
Definition normalize_scores (results : list scored)
    : res (pydict Z pyfloat) :=
  match results with
  | [] => Ok []
  | _ :: _ =>
    let scores := map snd results in
    min_score <- Float.py_min scores ;;
    max_score <- Float.py_max scores ;;
    if feqb max_score min_score then
      Ok (dict_of_items Z.eqb
            (map (fun r => (Services.id (fst r), Fin 1)) results))
    else
      Ok (dict_of_items Z.eqb
            (map (fun r =>
                    (Services.id (fst r),
                     fdiv F (fsub F (snd r) min_score)
                            (fsub F max_score min_score))) results))
  end.

Definition combine_scores (alpha : pyfloat)
    (vector_scores bm25_scores : pydict Z pyfloat) (all_chunk_ids : list Z)
    : pydict Z pyfloat :=
  fold_left
    (fun combined chunk_id =>
       let vec_score := dict_get Z.eqb chunk_id (Fin 0) vector_scores in
       let bm25_score := dict_get Z.eqb chunk_id (Fin 0) bm25_scores in
       dict_set Z.eqb chunk_id
                (fadd F (fmul F alpha vec_score)
                        (fmul F (fsub F (Fin 1) alpha) bm25_score))
                combined)
    all_chunk_ids [].

Definition _combine_and_rerank `{Services.SetOrder}
    (vector_results bm25_results : list scored) (query : pystr)
    (alpha : pyfloat) : res (list scored) :=
  vector_scores <- normalize_scores vector_results ;;
  bm25_scores <- normalize_scores bm25_results ;;
  let all_chunk_ids :=
    Services.iter_union (dict_keys vector_scores) (dict_keys bm25_scores) in
  let combined :=
    combine_scores alpha vector_scores bm25_scores all_chunk_ids in
  let chunk_dict :=
    dict_of_items Z.eqb
      (map (fun r => (Services.id (fst r), fst r))
           (vector_results ++ bm25_results)) in
  final_results <-
    mapM (fun kv => c <- dict_index Z.eqb (fst kv) chunk_dict ;;
                    Ok (c, snd kv)) combined ;;
  Ok (Float.sort_desc snd final_results).

(** [alpha: float = 0.7] *)
Definition default_alpha : pyfloat := literal F (7 # 10).

End WithFormat.

End FloatServices.

(** ** [v3/document-qa-system] on floats: hybrid search and reranker

    The scores are Python floats: [RetrievalResult.score] is declared
    [float], the retrievers compute theirs in Python arithmetic. *)

Module FloatV3.
Import Py Float.

Record RetrievalResult := {
  chunk : V3.DocumentChunk;
  score : pyfloat;
  source : pystr
}.

(** Field-wise [==]. *)
Definition result_eqb (a b : RetrievalResult) : bool :=
  V3.chunk_eqb (chunk a) (chunk b)
  && feqb (score a) (score b)
  && str_eqb (source a) (source b).

(** The dictionaries the two retrievers return; [_normalize_scores]
    adds the key [normalized_score]. *)
Record RawResult := {
  r_chunk : V3.DocumentChunk;
  r_score : pyfloat;
  r_source : pystr;
  r_normalized_score : option pyfloat
}.

Definition set_normalized (v : pyfloat) (r : RawResult) : RawResult :=
  {| r_chunk := r_chunk r; r_score := r_score r; r_source := r_source r;
     r_normalized_score := Some v |}.

(** Entries of [result_map]. *)
Record Merged := {
  m_chunk : V3.DocumentChunk;
  m_vector_score : pyfloat;
  m_bm25_score : pyfloat
}.

(** [result.get("normalized_score", 0.0)] *)
Definition get_normalized (r : RawResult) : pyfloat :=
  match r_normalized_score r with Some v => v | None => Fin 0 end.

Definition add_vector (result_map : pydict pystr Merged) (result : RawResult)
    : pydict pystr Merged :=
  dict_set str_eqb (V3.chunk_id (r_chunk result))
           {| m_chunk := r_chunk result;
              m_vector_score := get_normalized result;
              m_bm25_score := Fin 0 |} result_map.

Definition add_bm25 (result_map : pydict pystr Merged) (result : RawResult)
    : pydict pystr Merged :=
  let chunk_id := V3.chunk_id (r_chunk result) in
  match dict_lookup str_eqb chunk_id result_map with
  | Some data =>
    dict_set str_eqb chunk_id
             {| m_chunk := m_chunk data;
                m_vector_score := m_vector_score data;
                m_bm25_score := get_normalized result |} result_map
  | None =>
    dict_set str_eqb chunk_id
             {| m_chunk := r_chunk result;
                m_vector_score := Fin 0;
                m_bm25_score := get_normalized result |} result_map
  end.

(** Every entry of [result_map] holds a chunk whose id is its key. *)
Definition keyed_by_chunk_id (d : pydict pystr Merged) : Prop :=
  Forall (fun kv => V3.chunk_id (m_chunk (snd kv)) = fst kv) d.

(** The items of [combined_results]: [{"chunk": ..., "score": ...}]. *)
Definition hybrid := (V3.DocumentChunk * pyfloat)%type.

Record HybridRetriever := {
  self_bm25_weight : pyfloat;
  self_vector_weight : pyfloat
}.

(** [sum(1 for s in selected if s.chunk.document_id == candidate_doc_id)] *)
Definition same_doc_count (candidate_doc_id : pystr)
    (selected : list RetrievalResult) : nat :=
  List.length
    (filter (fun s => str_eqb (V3.document_id (chunk s)) candidate_doc_id)
            selected).

(** [l.remove(x)]: drops the first element equal to [x]. *)
Fixpoint list_remove (x : RetrievalResult) (l : list RetrievalResult)
    : res (list RetrievalResult) :=
  match l with
  | [] => Raise ValueError
  | y :: r =>
    if result_eqb y x then Ok r
    else r' <- list_remove x r ;; Ok (y :: r')
  end.

Section WithFormat.
Variable F : Format.

(** *** [hybrid_search.HybridRetriever] *)

Definition _normalize_scores (results : list RawResult)
    : res (list RawResult) :=
  match results with
  | [] => Ok results
  | _ :: _ =>
    let scores := map r_score results in
    min_score <- Float.py_min scores ;;
    max_score <- Float.py_max scores ;;
    if feqb max_score min_score then
      Ok (map (set_normalized (Fin 1)) results)
    else
      mapM (fun result =>
              v <- py_fdiv F (fsub F (r_score result) min_score)
                             (fsub F max_score min_score) ;;
              Ok (set_normalized v result)) results
  end.

(** [helpers.calculate_similarity_score] *)
Definition calculate_similarity_score
    (bm25_score vector_score bm25_weight vector_weight : pyfloat)
    : pyfloat :=
  fadd F (fmul F bm25_score bm25_weight) (fmul F vector_score vector_weight).

Definition _combine_results (self : HybridRetriever)
    (vector_results bm25_results : list RawResult) : list hybrid :=
  let result_map := fold_left add_vector vector_results [] in
  let result_map := fold_left add_bm25 bm25_results result_map in
  map (fun item =>
         let data := snd item in
         (m_chunk data,
          calculate_similarity_score (m_bm25_score data) (m_vector_score data)
            (self_bm25_weight self) (self_vector_weight self)))
      result_map.

(** *** [reranker.Reranker] *)

Definition _calculate_diversity (candidate : RetrievalResult)
    (selected : list RetrievalResult) : res pyfloat :=
  match selected with
  | [] => Ok (Fin 1)
  | _ :: _ =>
    let candidate_doc_id := V3.document_id (chunk candidate) in
    let same_doc_count := same_doc_count candidate_doc_id selected in
    py_fdiv F (Fin 1) (fadd F (Fin 1) (of_int F (Z.of_nat same_doc_count)))
  end.

Definition combined_score (selected : list RetrievalResult)
    (candidate : RetrievalResult) : res pyfloat :=
  diversity_score <- _calculate_diversity candidate selected ;;
  Ok (fadd F (fmul F (literal F (7 # 10)) (score candidate))
             (fmul F (literal F (3 # 10)) diversity_score)).

(** One pass of the inner [for candidate in remaining] loop, started from
    [best_candidate = None], [best_score = -1]. *)
Definition scan_step (selected : list RetrievalResult)
    (best : res (option RetrievalResult * pyfloat))
    (candidate : RetrievalResult)
    : res (option RetrievalResult * pyfloat) :=
  best <- best ;;
  combined_score <- combined_score selected candidate ;;
  if fltb (snd best) combined_score then Ok (Some candidate, combined_score)
  else Ok best.

Definition best_candidate (selected remaining : list RetrievalResult)
    : res (option RetrievalResult) :=
  best <- fold_left (scan_step selected) remaining (Ok (None, Fin (- (1)))) ;;
  Ok (fst best).

(** The [while len(selected) < top_k and remaining] loop. *)
Equations? select_loop (top_k : Z) (selected remaining : list RetrievalResult)
    : res (list RetrievalResult) by wf (List.length remaining) lt :=
select_loop top_k selected remaining
  with ((Z.of_nat (List.length selected) <? top_k)%Z
        && negb (Nat.eqb (List.length remaining) 0)) := {
  | false => Ok selected
  | true with Equations.Prop.Logic.inspect (best_candidate selected remaining) := {
    | exist _ (Raise e) _ => Raise e
    | exist _ (Ok None) _ => Ok selected
    | exist _ (Ok (Some best)) _
        with Equations.Prop.Logic.inspect (list_remove best remaining) := {
      | exist _ (Raise e) _ => Raise e
      | exist _ (Ok remaining') Hrm =>
        select_loop top_k (selected ++ [best]) remaining' } } }.
Proof.
  clear - Hrm. revert remaining' Hrm.
  induction remaining as [|y r IH]; simpl; intros l' H; [discriminate|].
  destruct (result_eqb y best).
  - injection H as <-. lia.
  - destruct (list_remove best r) as [r'|] eqn:E; simpl in H; [|discriminate].
    injection H as <-. simpl. specialize (IH r' eq_refl). lia.
Defined.

Definition _diversity_rerank (results : list RetrievalResult) (top_k : Z)
    : res (list RetrievalResult) :=
  match results with
  | [] => Ok []
  | top :: remaining => select_loop top_k [top] remaining
  end.

Definition rerank (settings : V3.Settings) (query : pystr)
    (results : list RetrievalResult) (top_k : option Z)
    : res (list RetrievalResult) :=
  match results with
  | [] => Ok results
  | _ :: _ =>
    let top_k := V3.or_Z top_k (V3.rerank_top_k settings) in
    if (Z.of_nat (List.length results) <=? top_k)%Z then Ok results
    else _diversity_rerank results top_k
  end.

(** [rerank_results]: [Reranker()] builds a client of the language
    model from the settings, which can raise; [new_reranker] is the
    outcome of this construction. *)
Definition rerank_results (settings : V3.Settings) (new_reranker : res unit)
    (query : pystr) (results : list RetrievalResult) (top_k : option Z)
    : res (list RetrievalResult) :=
  _ <- new_reranker ;;
  rerank settings query results top_k.

(** *** [HybridRetriever.retrieve]

    The two retrievers are collaborators; their answers are arguments. *)
Definition fuse (self : HybridRetriever)
    (vector_results bm25_results : list RawResult) : res (list hybrid) :=
  vector_results <- _normalize_scores vector_results ;;
  bm25_results <- _normalize_scores bm25_results ;;
  let combined_results := _combine_results self vector_results bm25_results in
  Ok (Float.sort_desc snd combined_results).

Definition retrieve (settings : V3.Settings) (new_reranker : res unit)
    (self : HybridRetriever)
    (vector_retrieve bm25_retrieve : Z -> list RawResult)
    (query : pystr) (top_k : option Z) (use_reranking : bool)
    : res (list RetrievalResult) :=
  let top_k := V3.or_Z top_k (V3.top_k_retrieval settings) in
  let vector_results := vector_retrieve (top_k * 2)%Z in
  let bm25_results := bm25_retrieve (top_k * 2)%Z in
  combined_results <- fuse self vector_results bm25_results ;;
  let top_results := slice_to top_k combined_results in
  let retrieval_results :=
    map (fun result =>
           {| chunk := fst result; score := snd result;
              source := py "hybrid" |}) top_results in
  if use_reranking && (1 <? List.length retrieval_results)%nat then
    rerank_results settings new_reranker query retrieval_results None
  else Ok retrieval_results.

End WithFormat.

End FloatV3.

(** ** Concrete float inputs *)

Module FloatExamples.
Import Py Float.

(** The binary64 value of a decimal literal. *)
Definition f64 (q : Q) : pyfloat := literal binary64 q.

(** Scenario B with its scores as floats. *)
Definition semantic : list FloatServices.scored :=
  [ (Examples.c1, f64 (95 # 100)); (Examples.c2, f64 (9 # 10));
    (Examples.c3, f64 (4 # 10)); (Examples.c4, f64 (3 # 10)) ].

Definition lexical : list FloatServices.scored :=
  [ (Examples.c1, f64 2); (Examples.c2, f64 2);
    (Examples.c3, f64 2); (Examples.c4, f64 0) ].

(** Two finite scores whose difference exceeds the largest float:
    [1e308] and [-1e308]. *)
Definition e308 : pyfloat := f64 (inject_Z (10 ^ 308)).

Definition far_apart : list FloatServices.scored :=
  [ (Examples.c1, e308); (Examples.c2, fneg e308) ].

Definition raw (cid : string) (s : pyfloat) : FloatV3.RawResult :=
  {| FloatV3.r_chunk :=
       {| V3.chunk_id := py cid; V3.document_id := py "doc";
          V3.text := py "text"; V3.chunk_index := 0; V3.metadata := [] |};
     FloatV3.r_score := s; FloatV3.r_source := py "vector";
     FloatV3.r_normalized_score := None |}.

Definition raw_semantic : list FloatV3.RawResult :=
  [ raw "a" (f64 (95 # 100)); raw "b" (f64 (9 # 10));
    raw "c" (f64 (4 # 10)); raw "d" (f64 (3 # 10)) ].

Definition raw_far_apart : list FloatV3.RawResult :=
  [ raw "a" e308; raw "b" (fneg e308) ].

(** A retriever with the default weights of one half each, and answers
    of the two retrievers, whatever the number asked for. *)
Definition half_weights : FloatV3.HybridRetriever :=
  {| FloatV3.self_bm25_weight := f64 (1 # 2);
     FloatV3.self_vector_weight := f64 (1 # 2) |}.

Definition vector_hits (top_k : Z) : list FloatV3.RawResult := raw_semantic.

Definition bm25_hits (top_k : Z) : list FloatV3.RawResult :=
  [ raw "b" (f64 3); raw "e" (f64 (15 # 10)) ].

End FloatExamples.

(** ** The reranker on floats, in the words of the design *)

Module FloatSpec.
Import Py Float.

Section WithFormat.
Variable F : Format.

(** [diversity = 1 / (1 + number of selected results of the same
    document)] and [combined = 0.7 * relevance + 0.3 * diversity], each
    operation rounded as the code's arithmetic rounds it. *)
Definition same_document (a b : FloatV3.RetrievalResult) : bool :=
  str_eqb (V3.document_id (FloatV3.chunk a))
          (V3.document_id (FloatV3.chunk b)).

Definition diversity (selected : list FloatV3.RetrievalResult)
    (candidate : FloatV3.RetrievalResult) : pyfloat :=
  fdiv F (Fin 1)
       (fadd F (Fin 1)
             (of_int F (Z.of_nat
                (List.length (filter (fun s => same_document s candidate)
                                     selected))))).

Definition combined (selected : list FloatV3.RetrievalResult)
    (candidate : FloatV3.RetrievalResult) : pyfloat :=
  fadd F (fmul F (literal F (7 # 10)) (FloatV3.score candidate))
         (fmul F (literal F (3 # 10)) (diversity selected candidate)).

(** Greedy selection: stop when [K] results are selected or no candidate
    is left; otherwise move the first remaining candidate of greatest
    combined score to the end of the selection. *)
Inductive greedy_selection (K : Z)
    : list FloatV3.RetrievalResult -> list FloatV3.RetrievalResult ->
      list FloatV3.RetrievalResult -> Prop :=
| greedy_full selected remaining :
    (K <= Z.of_nat (List.length selected))%Z ->
    greedy_selection K selected remaining selected
| greedy_exhausted selected :
    greedy_selection K selected [] selected
| greedy_pick selected pre best post out :
    (Z.of_nat (List.length selected) < K)%Z ->
    (forall c, In c pre ->
               fltb (combined selected c) (combined selected best) = true) ->
    (forall c, In c post ->
               fleb (combined selected c) (combined selected best) = true) ->
    greedy_selection K (selected ++ [best]) (pre ++ post) out ->
    greedy_selection K selected (pre ++ best :: post) out.

(** What [rerank(fusedResults, K)] returns, after the design. *)
Definition rerank_spec (K : Z) (results out : list FloatV3.RetrievalResult)
    : Prop :=
  if (Z.of_nat (List.length results) <=? K)%Z then out = results
  else exists top rest,
         results = top :: rest
         /\ (forall r, In r results ->
               fleb (FloatV3.score r) (FloatV3.score top) = true)
         /\ greedy_selection K [top] rest out.

End WithFormat.

(** [a] may stand before [b] in descending order of score. *)
Definition score_ge (a b : FloatV3.RetrievalResult) : Prop :=
  fleb (FloatV3.score b) (FloatV3.score a) = true.

End FloatSpec.

Module FloatRerankExamples.
Import Py Float FloatExamples.

Definition fused (cid did : string) (s : pyfloat) : FloatV3.RetrievalResult :=
  {| FloatV3.chunk := {| V3.chunk_id := py cid; V3.document_id := py did;
                         V3.text := py "text"; V3.chunk_index := 0;
                         V3.metadata := [] |};
     FloatV3.score := s; FloatV3.source := py "hybrid" |}.

(** Four chunks of document A, then two of document B. *)
Definition six_results : list FloatV3.RetrievalResult :=
  [ fused "a1" "A" (f64 (9 # 10)); fused "a2" "A" (f64 (8 # 10));
    fused "a3" "A" (f64 (7 # 10)); fused "a4" "A" (f64 (6 # 10));
    fused "b1" "B" (f64 (5 # 10)); fused "b2" "B" (f64 (4 # 10)) ].

Definition two_results : list FloatV3.RetrievalResult :=
  [ fused "a1" "A" (f64 (9 # 10)); fused "b1" "B" (f64 (5 # 10)) ].

(** Two candidates whose combined scores differ as real numbers and are
    equal as floats: [0.7 * 0.7142857142857142 + 0.3 * 0.5] and
    [0.7 * 0.5 + 0.3 * 1.0] both come out as [0.6499999999999999]. *)
Definition tie_results : list FloatV3.RetrievalResult :=
  [ fused "t" "A" (f64 1);
    fused "x" "A" (f64 (7142857142857142 # 10000000000000000));
    fused "y" "B" (f64 (5 # 10)) ].

End FloatRerankExamples.

(** ** [backend/rag/services.py] on floats: [_retriever_agent] *)

Module FloatRetriever.
Import Py Float.

(** One entry of [state["retrieved_chunks"]]. *)
Record RetrievedChunk := {
  rc_chunk_id : Z;
  rc_document_id : Z;
  rc_document_title : pystr;
  rc_chunk_index : Z;
  rc_page_number : option Z;
  rc_text : pystr;
  rc_score : pyfloat
}.

Record AgentState := {
  query : pystr;
  chat_history : list Services.ChatMessage;
  intent : pystr;
  retrieved_chunks : list RetrievedChunk;
  answer : pystr;
  citations : list Services.Citation;
  metadata : pydict pystr pyval;
  error : pystr;
  (** present only in the state built by [process_document_utility] *)
  document_content : option pystr
}.

Definition set_retrieved_chunks (v : list RetrievedChunk) (s : AgentState)
    : AgentState :=
  {| query := query s; chat_history := chat_history s; intent := intent s;
     retrieved_chunks := v; answer := answer s;
     citations := citations s; metadata := metadata s; error := error s;
     document_content := document_content s |}.

Definition set_error (v : pystr) (s : AgentState) : AgentState :=
  {| query := query s; chat_history := chat_history s; intent := intent s;
     retrieved_chunks := retrieved_chunks s; answer := answer s;
     citations := citations s; metadata := metadata s; error := v;
     document_content := document_content s |}.

(** [state["metadata"][k] = v] *)
Definition set_meta (k : pystr) (v : pyval) (s : AgentState) : AgentState :=
  {| query := query s; chat_history := chat_history s; intent := intent s;
     retrieved_chunks := retrieved_chunks s; answer := answer s;
     citations := citations s;
     metadata := dict_set str_eqb k v (metadata s); error := error s;
     document_content := document_content s |}.

(** The collaborators of the retriever: the embedding client, the table
    of chunks of READY documents, [settings.TOP_K_RETRIEVAL], numpy and
    [rank_bm25], and the Unicode-table driven [str] methods.  Of numpy's
    [dot] and [linalg.norm] the value is left to the library (the order
    of its additions is not fixed); [not_aligned n m] is the message of
    the [ValueError] that [dot] raises for vectors of the lengths [n] and
    [m] that differ. *)
Record Externals := {
  embed_content : pystr -> res (list pyfloat);
  ready_chunks : list Services.DocumentChunk;
  TOP_K_RETRIEVAL : Z;
  dot_value : list pyfloat -> list pyfloat -> pyfloat;
  not_aligned : nat -> nat -> pystr;
  norm_value : list pyfloat -> pyfloat;
  bm25_get_scores : list (list pystr) -> list pystr -> res (list pyfloat);
  lower : pystr -> pystr;
  split : pystr -> list pystr
}.

Notation "x <~ m ;; k" := (Services.io_bind m (fun x => k))
  (at level 61, m at next level, right associativity).

Section Retriever.
Context (F : Format) {order : Services.SetOrder} (ext : Externals).

(** [np.array(l)] of a list of numbers: each is read as a float. *)
Definition np_array (l : list Q) : list pyfloat := map (literal F) l.

(** [np.dot(a, b)] of two vectors. *)
Definition np_dot (a b : list pyfloat) : res pyfloat :=
  if (List.length a =? List.length b)%nat then Ok (dot_value ext a b)
  else Raise (ServiceError
                (not_aligned ext (List.length a) (List.length b))).

Definition _generate_query_embedding (query : pystr)
    : Services.io (list pyfloat) :=
  fun tr => (embed_content ext query, tr ++ [Services.EmbedCall query]).

(** The cosine similarity is a numpy division: a zero norm gives NaN or
    an infinity, it does not raise. *)
Definition _vector_search (query_embedding : list pyfloat)
    (chunks : list Services.DocumentChunk)
    : res (list FloatServices.scored) :=
  let query_vec := query_embedding in
  results <-
    mapM (fun chunk =>
            let chunk_vec := np_array (Services.embedding chunk) in
            d <- np_dot query_vec chunk_vec ;;
            let similarity :=
              fdiv F d (fmul F (norm_value ext query_vec)
                               (norm_value ext chunk_vec)) in
            Ok (chunk, similarity)) chunks ;;
  Ok (Float.sort_desc snd results).

Definition _bm25_search (query : pystr)
    (chunks : list Services.DocumentChunk)
    : res (list FloatServices.scored) :=
  let corpus :=
    map (fun chunk => split ext (lower ext (Services.text chunk))) chunks in
  let query_tokens := split ext (lower ext query) in
  scores <- bm25_get_scores ext corpus query_tokens ;;
  let results := List.combine chunks scores in
  Ok (Float.sort_desc snd results).

Definition format_chunk (r : FloatServices.scored) : RetrievedChunk :=
  let (chunk, score) := r in
  {| rc_chunk_id := Services.id chunk;
     rc_document_id := Services.doc_pk (Services.document chunk);
     rc_document_title := Services.title (Services.document chunk);
     rc_chunk_index := Services.index chunk;
     rc_page_number := Services.page_number chunk;
     rc_text := Services.text chunk;
     rc_score := score |}.

Definition _retriever_agent (state : AgentState)
    : Services.io AgentState :=
  let query := query state in
  Services.try_except
    (query_embedding <~ _generate_query_embedding query ;;
     let all_chunks := ready_chunks ext in
     match all_chunks with
     | [] =>
       Services.io_ret
         (set_retrieved_chunks [] (set_error Services.NO_DOCUMENTS state))
     | _ :: _ =>
       vector_results <~
         Services.io_lift (_vector_search query_embedding all_chunks) ;;
       bm25_results <~ Services.io_lift (_bm25_search query all_chunks) ;;
       combined_results <~
         Services.io_lift
           (FloatServices._combine_and_rerank F vector_results bm25_results
              query (FloatServices.default_alpha F)) ;;
       let top_chunks := slice_to (TOP_K_RETRIEVAL ext) combined_results in
       let retrieved_chunks := map format_chunk top_chunks in
       Services.io_ret
         (set_meta (py "num_retrieved")
                   (VInt (Z.of_nat (List.length retrieved_chunks)))
                   (set_retrieved_chunks retrieved_chunks state))
     end)
    (fun e =>
       Services.io_ret
         (set_retrieved_chunks []
            (set_error (py "Retrieval error: " ++ Services.str_exn e)
                       state))).

(** The similarity [_vector_search] computes for a chunk of the
    dimension of the query. *)
Definition similarity (query_vec : list pyfloat)
    (chunk : Services.DocumentChunk) : pyfloat :=
  let chunk_vec := np_array (Services.embedding chunk) in
  fdiv F (dot_value ext query_vec chunk_vec)
       (fmul F (norm_value ext query_vec) (norm_value ext chunk_vec)).


End Retriever.

End FloatRetriever.

(** ** Concrete inputs of the retriever *)

Module FloatScenarios.
Import Py Float FloatExamples.

Definition unit_chunk (i : Z) (d : Services.Document) (idx : Z)
    (embedding : list Q) : Services.DocumentChunk :=
  {| Services.id := i; Services.document := d; Services.index := idx;
     Services.text := py "chunk"; Services.page_number := None;
     Services.embedding := embedding |}.

(** Three ready chunks whose embeddings are unit vectors of the plane. *)
Definition corpus : list Services.DocumentChunk :=
  [ unit_chunk 1 Examples.doc_A 0 [1; 0];
    unit_chunk 2 Examples.doc_A 1 [0; 1];
    unit_chunk 3 Examples.doc_B 0 [1; 0] ].




Definition question : FloatRetriever.AgentState :=
  {| FloatRetriever.query := py "What is AI?";
     FloatRetriever.chat_history := []; FloatRetriever.intent := [];
     FloatRetriever.retrieved_chunks := []; FloatRetriever.answer := [];
     FloatRetriever.citations := []; FloatRetriever.metadata := [];
     FloatRetriever.error := [];
     FloatRetriever.document_content := None |}.

End FloatScenarios.

(** ** The kernel's binary64 floats

    The arithmetic of [binary64] is compared below with the hardware
    arithmetic of the kernel's primitive floats on sample operations. *)

Module Hardware.
Import Py Float.

(** The value of one of the kernel's floats. *)
Definition of_hardware (x : PrimFloat.float) : pyfloat :=
  match FloatOps.Prim2SF x with
  | SpecFloat.S754_zero _ => Fin 0
  | SpecFloat.S754_infinity false => PInf
  | SpecFloat.S754_infinity true => NInf
  | SpecFloat.S754_nan => NaN
  | SpecFloat.S754_finite s m e =>
    Fin (Qred ((if s then - (1) else 1) * inject_Z (Zpos m)
               * Qpower (2 # 1) e))
  end.

(** The float [x] of the model and the hardware float [y] are the same
    number, the same infinity, or both NaN. *)
Definition same (x : pyfloat) (y : PrimFloat.float) : bool :=
  match x, of_hardware y with
  | Fin a, Fin b => Qeq_bool a b
  | PInf, PInf | NInf, NInf | NaN, NaN => true
  | _, _ => false
  end.

(** The hardware's [n / d] for whole numbers below [2 ^ 53], and
    [2 ^ e]. *)
Definition ratio (n d : Z) : PrimFloat.float :=
  PrimFloat.div (PrimFloat.of_uint63 (Uint63.of_Z n))
                (PrimFloat.of_uint63 (Uint63.of_Z d)).

Definition pow2 (e : Z) : PrimFloat.float :=
  FloatOps.Z.ldexp PrimFloat.one e.

Definition q2 (e : Z) : Q := Qpower (2 # 1) e.

(** Decimal literals, the four operations, the two combined scores of
    [FloatRerankExamples.tie_results], an overflow, an invalid operation,
    and roundings among the subnormal numbers. *)
Definition samples : list (pyfloat * PrimFloat.float) :=
  let f := literal binary64 in
  let x := 7142857142857142 # 10000000000000000 in
  let hx := ratio 7142857142857142 10000000000000000 in
  [ (f (1 # 10), ratio 1 10);
    (f (7 # 10), ratio 7 10);
    (f (3 # 10), ratio 3 10);
    (f x, hx);
    (fadd binary64 (f (1 # 10)) (f (2 # 10)),
     PrimFloat.add (ratio 1 10) (ratio 2 10));
    (fsub binary64 (Fin 1) (f (7 # 10)),
     PrimFloat.sub PrimFloat.one (ratio 7 10));
    (fmul binary64 (f (7 # 10)) (f x), PrimFloat.mul (ratio 7 10) hx);
    (fdiv binary64 (Fin 1) (Fin 3), ratio 1 3);
    (fadd binary64 (fmul binary64 (f (7 # 10)) (f x))
                   (fmul binary64 (f (3 # 10)) (f (1 # 2))),
     PrimFloat.add (PrimFloat.mul (ratio 7 10) hx)
                   (PrimFloat.mul (ratio 3 10) (ratio 1 2)));
    (fadd binary64 (fmul binary64 (f (7 # 10)) (f (1 # 2)))
                   (fmul binary64 (f (3 # 10)) (Fin 1)),
     PrimFloat.add (PrimFloat.mul (ratio 7 10) (ratio 1 2))
                   (PrimFloat.mul (ratio 3 10) PrimFloat.one));
    (fsub binary64 (f (q2 1023)) (fneg (f (q2 1023))),
     PrimFloat.sub (pow2 1023) (PrimFloat.opp (pow2 1023)));
    (fdiv binary64 PInf PInf,
     PrimFloat.div PrimFloat.infinity PrimFloat.infinity);
    (fdiv binary64 (Fin 1) (Fin 0),
     PrimFloat.div PrimFloat.one PrimFloat.zero);
    (fdiv binary64 (Fin 0) (Fin 0),
     PrimFloat.div PrimFloat.zero PrimFloat.zero);
    (fmul binary64 (f (q2 (-1074))) (f (1 # 2)),
     PrimFloat.mul (pow2 (-1074)) (ratio 1 2));
    (fmul binary64 (f (3 * q2 (-1074))) (f (1 # 2)),
     PrimFloat.mul (PrimFloat.mul (ratio 3 1) (pow2 (-1074))) (ratio 1 2));
    (fsub binary64 (f (q2 (-1022))) (f (q2 (-1022) - q2 (-1074))),
     PrimFloat.sub (pow2 (-1022))
                   (PrimFloat.sub (pow2 (-1022)) (pow2 (-1074))));
    (fdiv binary64 (f (q2 (-1022))) (Fin 3),
     PrimFloat.div (pow2 (-1022)) (ratio 3 1)) ].

End Hardware.


(** * Properties *)

(** ** Facts about the Python primitives *)

Module PyFacts.
Import Py.

Lemma Qltb_true (a b : Q) : Qltb a b = true <-> a < b.
Proof.
  unfold Qltb. rewrite negb_true_iff. split; intros H.
  - apply Qnot_le_lt. intros Hle. apply Qle_bool_iff in Hle. congruence.
  - destruct (Qle_bool b a) eqn:E; [|reflexivity].
    apply Qle_bool_iff in E. exfalso. exact (Qlt_not_le _ _ H E).
Qed.

Lemma Qltb_false (a b : Q) : Qltb a b = false <-> b <= a.
Proof.
  unfold Qltb. rewrite negb_false_iff. apply Qle_bool_iff.
Qed.

Lemma Qeq_bool_false (a b : Q) : Qeq_bool a b = false <-> ~ a == b.
Proof.
  split.
  - intros H E. apply Qeq_bool_iff in E. congruence.
  - intros H. destruct (Qeq_bool a b) eqn:E; [|reflexivity].
    apply Qeq_bool_iff in E. contradiction.
Qed.

(** [min] returns a lower bound that occurs in its argument. *)
Lemma min_from_spec (l : list Q) : forall cur,
  (min_from cur l = cur \/ In (min_from cur l) l)
  /\ min_from cur l <= cur
  /\ (forall x, In x l -> min_from cur l <= x).
Proof.
  induction l as [|y r IH]; intros cur; simpl.
  - repeat split; [now left | apply Qle_refl | tauto].
  - destruct (IH (if Qltb y cur then y else cur)) as (Hin & Hle & Hall).
    destruct (Qltb y cur) eqn:E.
    + apply Qltb_true in E. repeat split.
      * destruct Hin as [-> | Hin]; auto.
      * apply Qlt_le_weak in E. eapply Qle_trans; eauto.
      * intros x [<- | Hx]; auto.
    + apply Qltb_false in E. repeat split.
      * destruct Hin as [-> | Hin]; auto.
      * exact Hle.
      * intros x [<- | Hx]; [eapply Qle_trans; eauto | auto].
Qed.

Lemma max_from_spec (l : list Q) : forall cur,
  (max_from cur l = cur \/ In (max_from cur l) l)
  /\ cur <= max_from cur l
  /\ (forall x, In x l -> x <= max_from cur l).
Proof.
  induction l as [|y r IH]; intros cur; simpl.
  - repeat split; [now left | apply Qle_refl | tauto].
  - destruct (IH (if Qltb cur y then y else cur)) as (Hin & Hle & Hall).
    destruct (Qltb cur y) eqn:E.
    + apply Qltb_true in E. repeat split.
      * destruct Hin as [-> | Hin]; auto.
      * apply Qlt_le_weak in E. eapply Qle_trans; eauto.
      * intros x [<- | Hx]; auto.
    + apply Qltb_false in E. repeat split.
      * destruct Hin as [-> | Hin]; auto.
      * exact Hle.
      * intros x [<- | Hx]; [eapply Qle_trans; eauto | auto].
Qed.

Lemma py_min_spec (l : list Q) : l <> [] ->
  exists mn, py_min l = Ok mn /\ In mn l /\ forall x, In x l -> mn <= x.
Proof.
  destruct l as [|x r]; [congruence|]. intros _.
  destruct (min_from_spec r x) as (Hin & Hle & Hall).
  exists (min_from x r). repeat split.
  - destruct Hin as [-> | Hin]; [now left | now right].
  - intros y [<- | Hy]; auto.
Qed.

Lemma py_max_spec (l : list Q) : l <> [] ->
  exists mx, py_max l = Ok mx /\ In mx l /\ forall x, In x l -> x <= mx.
Proof.
  destruct l as [|x r]; [congruence|]. intros _.
  destruct (max_from_spec r x) as (Hin & Hle & Hall).
  exists (max_from x r). repeat split.
  - destruct Hin as [-> | Hin]; [now left | now right].
  - intros y [<- | Hy]; auto.
Qed.

(** Min-max scaling of a score between the bounds never divides by zero
    and lands in the unit interval. *)
Lemma min_max_scale (mn mx s : Q) :
  mn <= s -> s <= mx -> ~ mx == mn ->
  py_div (s - mn) (mx - mn) = Ok ((s - mn) / (mx - mn))
  /\ 0 <= (s - mn) / (mx - mn) <= 1.
Proof.
  intros H1 H2 Hne.
  assert (Hlt : 0 < mx - mn).
  { destruct (Qlt_le_dec mn mx) as [Hl | Hl]; [lra|].
    exfalso. apply Hne. lra. }
  split.
  - unfold py_div.
    destruct (Qeq_bool (mx - mn) 0) eqn:E; [|reflexivity].
    apply Qeq_bool_iff in E. lra.
  - split.
    + apply Qle_shift_div_l; [exact Hlt | lra].
    + apply Qle_shift_div_r; [exact Hlt | lra].
Qed.

(** *** Strings *)

Lemma str_eqb_eq (a b : pystr) : str_eqb a b = true <-> a = b.
Proof.
  revert b. induction a as [|x a IH]; intros [|y b]; simpl;
    try (split; [discriminate | congruence]); [tauto|].
  rewrite andb_true_iff, N.eqb_eq, IH. split.
  - intros [-> ->]. reflexivity.
  - intros [= -> ->]. tauto.
Qed.

(** *** The error monad *)

Lemma mapM_Ok {A B} (f : A -> res B) (g : A -> B) (l : list A) :
  (forall a, In a l -> f a = Ok (g a)) -> mapM f l = Ok (map g l).
Proof.
  induction l as [|a r IH]; intros H; simpl; [reflexivity|].
  rewrite (H a (or_introl eq_refl)). simpl.
  rewrite IH by (intros; apply H; now right). reflexivity.
Qed.

(** *** Dictionaries *)

Section DictFacts.
Variables (K V : Type) (eqb : K -> K -> bool).
Hypothesis eqb_eq : forall a b, eqb a b = true <-> a = b.

Lemma eqb_refl (a : K) : eqb a a = true.
Proof. now apply eqb_eq. Qed.

Lemma dict_lookup_set (k k' : K) (v : V) (d : pydict K V) :
  dict_lookup eqb k (dict_set eqb k' v d)
  = if eqb k k' then Some v else dict_lookup eqb k d.
Proof.
  induction d as [|[k0 v0] r IH]; simpl.
  - now destruct (eqb k k').
  - destruct (eqb k' k0) eqn:E0; simpl.
    + apply eqb_eq in E0. subst k0. now destruct (eqb k k').
    + rewrite IH. destruct (eqb k k0) eqn:E1; [|reflexivity].
      destruct (eqb k k') eqn:E2; [|reflexivity].
      apply eqb_eq in E1, E2. subst. rewrite eqb_refl in E0. discriminate.
Qed.

Lemma dict_lookup_keys (k : K) (d : pydict K V) :
  (exists v, dict_lookup eqb k d = Some v) <-> In k (dict_keys d).
Proof.
  induction d as [|[k0 v0] r IH]; simpl.
  - split; [intros [v H]; discriminate | tauto].
  - destruct (eqb k k0) eqn:E.
    + apply eqb_eq in E. subst. split; eauto.
    + rewrite IH. split; [tauto|]. intros [<- | H]; [|exact H].
      rewrite eqb_refl in E. discriminate.
Qed.

Lemma dict_lookup_In (k : K) (v : V) (d : pydict K V) :
  dict_lookup eqb k d = Some v -> In (k, v) d.
Proof.
  induction d as [|[k0 v0] r IH]; simpl; [discriminate|].
  destruct (eqb k k0) eqn:E.
  - apply eqb_eq in E. subst. intros [= <-]. now left.
  - intros H. right. now apply IH.
Qed.

Lemma dict_set_fresh (k : K) (v : V) (d : pydict K V) :
  ~ In k (dict_keys d) -> dict_set eqb k v d = d ++ [(k, v)].
Proof.
  induction d as [|[k0 v0] r IH]; simpl; intros H; [reflexivity|].
  destruct (eqb k k0) eqn:E.
  - apply eqb_eq in E. subst. tauto.
  - rewrite IH by tauto. reflexivity.
Qed.

Lemma dict_set_present (k : K) (v : V) (d : pydict K V) :
  In k (dict_keys d) -> dict_keys (dict_set eqb k v d) = dict_keys d.
Proof.
  induction d as [|[k0 v0] r IH]; simpl; intros H; [tauto|].
  destruct (eqb k k0) eqn:E; simpl; [reflexivity|].
  f_equal. apply IH. destruct H as [<- | H]; [|exact H].
  rewrite eqb_refl in E. discriminate.
Qed.

Lemma dict_keys_set (k : K) (v : V) (d : pydict K V) :
  dict_keys (dict_set eqb k v d) = add_unseen eqb (dict_keys d) k.
Proof.
  unfold add_unseen. destruct (existsb (eqb k) (dict_keys d)) eqn:E.
  - apply dict_set_present. apply existsb_exists in E.
    destruct E as (x & Hx & Hk). apply eqb_eq in Hk. now subst.
  - rewrite dict_set_fresh.
    + unfold dict_keys. now rewrite map_app.
    + intros Hin. assert (existsb (eqb k) (dict_keys d) = true); [|congruence].
      apply existsb_exists. exists k. split; [exact Hin | apply eqb_refl].
Qed.

(** An invariant of the entries survives an assignment that respects it. *)
Lemma dict_set_Forall (P : K * V -> Prop) (k : K) (v : V) (d : pydict K V) :
  Forall P d -> P (k, v) -> Forall P (dict_set eqb k v d).
Proof.
  intros Hd Hkv. induction d as [|[k0 v0] r IH]; simpl.
  - now constructor.
  - inversion Hd as [|? ? H0 Hr]; subst.
    destruct (eqb k k0) eqn:E.
    + apply eqb_eq in E. subst. now constructor.
    + constructor; [exact H0 | now apply IH].
Qed.

(** Keys after a run of assignments: old keys stay in place, new keys are
    appended in order of first assignment. *)
Lemma dict_keys_fold (items : list (K * V)) : forall d,
  dict_keys (fold_left (fun d kv => dict_set eqb (fst kv) (snd kv) d) items d)
  = fold_left (add_unseen eqb) (map fst items) (dict_keys d).
Proof.
  induction items as [|[k v] r IH]; intros d; simpl; [reflexivity|].
  now rewrite IH, dict_keys_set.
Qed.

Lemma dict_keys_of_items (items : list (K * V)) :
  dict_keys (dict_of_items eqb items) = first_seen eqb (map fst items).
Proof. unfold dict_of_items, first_seen. now rewrite dict_keys_fold. Qed.

Lemma add_unseen_fold_In (l : list K) : forall acc k,
  In k (fold_left (add_unseen eqb) l acc) <-> In k acc \/ In k l.
Proof.
  induction l as [|x r IH]; intros acc k; simpl; [tauto|].
  rewrite IH. unfold add_unseen.
  destruct (existsb (eqb x) acc) eqn:E.
  - apply existsb_exists in E. destruct E as (y & Hy & Hxy).
    apply eqb_eq in Hxy. subst y.
    split; [tauto|]. intros [H | [<- | H]]; auto.
  - rewrite in_app_iff. simpl. tauto.
Qed.

Lemma add_unseen_fold_NoDup (l : list K) : forall acc,
  NoDup acc -> NoDup (fold_left (add_unseen eqb) l acc).
Proof.
  induction l as [|x r IH]; intros acc H; simpl; [exact H|].
  apply IH. unfold add_unseen.
  destruct (existsb (eqb x) acc) eqn:E; [exact H|].
  apply NoDup_app; [exact H | repeat constructor; simpl; tauto |].
  intros y Hy [Hxy | []]. subst y.
  assert (existsb (eqb x) acc = true); [|congruence].
  apply existsb_exists. exists x. split; [exact Hy | apply eqb_refl].
Qed.

Lemma first_seen_In (l : list K) (k : K) : In k (first_seen eqb l) <-> In k l.
Proof. unfold first_seen. rewrite add_unseen_fold_In. simpl. tauto. Qed.

Lemma first_seen_NoDup (l : list K) : NoDup (first_seen eqb l).
Proof. apply add_unseen_fold_NoDup. constructor. Qed.

Lemma dict_lookup_app (k : K) (a b : pydict K V) :
  dict_lookup eqb k (a ++ b)
  = match dict_lookup eqb k a with
    | Some v => Some v
    | None => dict_lookup eqb k b
    end.
Proof.
  induction a as [|[k0 v0] r IH]; simpl; [reflexivity|].
  now destruct (eqb k k0).
Qed.

(** The value read after a run of assignments is the last one assigned. *)
Lemma dict_lookup_fold (k : K) (items : list (K * V)) : forall d,
  dict_lookup eqb k
    (fold_left (fun d kv => dict_set eqb (fst kv) (snd kv) d) items d)
  = match dict_lookup eqb k (rev items) with
    | Some v => Some v
    | None => dict_lookup eqb k d
    end.
Proof.
  induction items as [|[k0 v0] r IH]; intros d; simpl; [reflexivity|].
  rewrite IH, dict_lookup_app, dict_lookup_set. simpl.
  destruct (dict_lookup eqb k (rev r)); [reflexivity|].
  now destruct (eqb k k0).
Qed.

Lemma dict_of_items_lookup (k : K) (v : V) (items : list (K * V)) :
  dict_lookup eqb k (dict_of_items eqb items) = Some v -> In (k, v) items.
Proof.
  unfold dict_of_items. rewrite dict_lookup_fold. simpl.
  destruct (dict_lookup eqb k (rev items)) as [w|] eqn:E; [|discriminate].
  intros [= ->]. apply in_rev. now apply dict_lookup_In.
Qed.

(** With distinct keys, an entry is what is read at its key. *)
Lemma dict_In_lookup (k : K) (v : V) (d : pydict K V) :
  NoDup (dict_keys d) -> In (k, v) d -> dict_lookup eqb k d = Some v.
Proof.
  induction d as [|[k0 v0] r IH]; simpl; intros Hnd Hin; [tauto|].
  inversion Hnd as [|? ? Hk0 Hr]; subst.
  destruct Hin as [[= -> ->] | Hin].
  - now rewrite eqb_refl.
  - destruct (eqb k k0) eqn:E; [|now apply IH].
    apply eqb_eq in E. subst k0. exfalso. apply Hk0.
    apply (in_map fst) in Hin. exact Hin.
Qed.

(** Assigning distinct keys to an empty dictionary lists them in order. *)
Lemma fold_set_distinct (f : K -> V) (ks : list K) : forall d,
  NoDup ks -> (forall k, In k ks -> ~ In k (dict_keys d)) ->
  fold_left (fun d k => dict_set eqb k (f k) d) ks d
  = d ++ map (fun k => (k, f k)) ks.
Proof.
  induction ks as [|k r IH]; intros d Hnd Hfresh; simpl.
  - now rewrite app_nil_r.
  - inversion Hnd as [|? ? Hk Hr]; subst.
    rewrite dict_set_fresh by (apply Hfresh; now left).
    rewrite IH; [now rewrite <- app_assoc | exact Hr |].
    intros k' Hk'. unfold dict_keys. rewrite map_app, in_app_iff. simpl.
    intros [H | [<- | []]]; [|contradiction].
    apply (Hfresh k'); [now right | exact H].
Qed.

End DictFacts.

(** *** Stable descending sort *)

Section SortFacts.
Variables (A : Type) (key : A -> Q).


Lemma insert_desc_perm (x : A) (l : list A) :
  Permutation (insert_desc key x l) (x :: l).
Proof.
  induction l as [|y r IH]; simpl; [reflexivity|].
  destruct (Qltb (key x) (key y)); [|reflexivity].
  rewrite IH. apply perm_swap.
Qed.

Lemma sort_desc_perm (l : list A) : Permutation (sort_desc key l) l.
Proof.
  induction l as [|x r IH]; simpl; [constructor|].
  rewrite insert_desc_perm. now constructor.
Qed.

Lemma insert_desc_sorted (x : A) (l : list A) :
  StronglySorted (ge_key key) l -> StronglySorted (ge_key key) (insert_desc key x l).
Proof.
  induction l as [|y r IH]; simpl; intros H.
  - repeat constructor.
  - apply StronglySorted_inv in H. destruct H as [Hr Hy].
    destruct (Qltb (key x) (key y)) eqn:E.
    + apply Qltb_true in E. constructor; [now apply IH|].
      apply (Permutation_Forall (Permutation_sym (insert_desc_perm x r))).
      constructor; [apply Qlt_le_weak; exact E | exact Hy].
    + apply Qltb_false in E. constructor.
      * now constructor.
      * constructor; [exact E|].
        eapply Forall_impl; [|exact Hy]. intros z Hz. unfold Py.ge_key in *.
        eapply Qle_trans; eauto.
Qed.

Lemma sort_desc_sorted (l : list A) : StronglySorted (ge_key key) (sort_desc key l).
Proof.
  induction l as [|x r IH]; simpl; [constructor | now apply insert_desc_sorted].
Qed.



(** A list already in descending order is left as it is. *)
Lemma sort_desc_sorted_id (l : list A) :
  StronglySorted (ge_key key) l -> sort_desc key l = l.
Proof.
  induction l as [|x r IH]; intros H; [reflexivity|].
  apply StronglySorted_inv in H. destruct H as [Hr Hx].
  cbn [sort_desc]. rewrite IH by exact Hr.
  destruct r as [|y r']; [reflexivity|]. cbn [insert_desc].
  inversion Hx as [|? ? Hy _]; subst.
  apply Qltb_false in Hy. now rewrite Hy.
Qed.

(** With pairwise distinct keys the descending order is unique. *)
Lemma sorted_perm_unique (l1 : list A) : forall l2,
  Permutation l1 l2 -> StronglySorted (ge_key key) l1 -> StronglySorted (gt_key key) l2 ->
  l1 = l2.
Proof.
  induction l1 as [|a r1 IH]; intros l2 HP H1 H2.
  - apply Permutation_nil in HP. now subst.
  - destruct l2 as [|b r2].
    { apply Permutation_sym, Permutation_nil in HP. discriminate. }
    apply StronglySorted_inv in H1. destruct H1 as [H1 Ha].
    apply StronglySorted_inv in H2. destruct H2 as [H2 Hb].
    rewrite Forall_forall in Ha, Hb.
    assert (a = b) as ->.
    { assert (Hab : In a (b :: r2))
        by (apply (Permutation_in _ HP); now left).
      assert (Hba : In b (a :: r1))
        by (apply (Permutation_in _ (Permutation_sym HP)); now left).
      destruct Hab as [-> | Hab]; [reflexivity|].
      destruct Hba as [-> | Hba]; [reflexivity|].
      specialize (Ha _ Hba). specialize (Hb _ Hab).
      unfold Py.ge_key, Py.gt_key in *. exfalso.
      exact (Qlt_not_le _ _ Hb Ha). }
    f_equal. apply IH; [|exact H1|exact H2].
    eapply Permutation_cons_inv; exact HP.
Qed.

Lemma sort_desc_unique (l target : list A) :
  Permutation l target -> StronglySorted (gt_key key) target ->
  sort_desc key l = target.
Proof.
  intros HP HS. apply sorted_perm_unique; [|apply sort_desc_sorted|exact HS].
  rewrite sort_desc_perm. exact HP.
Qed.

End SortFacts.

End PyFacts.

(** ** Score normalisation and fusion *)

Module FusionSpec.
Import Py PyFacts.

Lemma py_bounds (scores : list Q) : scores <> [] ->
  exists mn mx, py_min scores = Ok mn /\ py_max scores = Ok mx
                /\ bounds_of scores mn mx.
Proof.
  intros H.
  destruct (py_min_spec H) as (mn & Emn & Imn & Hmn).
  destruct (py_max_spec H) as (mx & Emx & Imx & Hmx).
  exists mn, mx. repeat split; auto.
Qed.

(** [services.py]: the dictionary [normalize_scores] returns. *)
Lemma normalize_scores_eq (results : list Services.scored) :
  results <> [] ->
  exists mn mx,
    bounds_of (map snd results) mn mx /\
    Services.normalize_scores results
    = Ok (dict_of_items Z.eqb
            (map (fun r => (Services.id (fst r), min_max_norm mn mx (snd r)))
                 results)).
Proof.
  intros Hne.
  destruct (@py_bounds (map snd results)) as (mn & mx & Emn & Emx & Hb).
  { destruct results; [congruence | discriminate]. }
  exists mn, mx. split; [exact Hb|].
  destruct results as [|r0 rs]; [congruence|].
  unfold Services.normalize_scores. rewrite Emn, Emx. cbn [bind].
  unfold min_max_norm. destruct (Qeq_bool mx mn) eqn:E; [reflexivity|].
  apply Qeq_bool_false in E.
  rewrite (@mapM_Ok _ _ _
             (fun r => (Services.id (fst r), (snd r - mn) / (mx - mn)))).
  - reflexivity.
  - intros r Hr. destruct Hb as (_ & _ & Hb).
    destruct (Hb (snd r) (in_map snd _ _ Hr)) as [H1 H2].
    destruct (min_max_scale H1 H2 E) as [-> _]. reflexivity.
Qed.

Lemma normalize_scores_nil : Services.normalize_scores [] = Ok [].
Proof. reflexivity. Qed.

(** [hybrid_search.py]: the list [_normalize_scores] returns. *)
Lemma v3_normalize_scores_eq (results : list V3.RawResult) :
  results <> [] ->
  exists mn mx,
    bounds_of (map V3.r_score results) mn mx /\
    V3._normalize_scores results
    = Ok (map (fun r => V3.set_normalized
                          (min_max_norm mn mx (V3.r_score r)) r) results).
Proof.
  intros Hne.
  destruct (@py_bounds (map V3.r_score results))
    as (mn & mx & Emn & Emx & Hb).
  { destruct results; [congruence | discriminate]. }
  exists mn, mx. split; [exact Hb|].
  destruct results as [|r0 rs]; [congruence|].
  unfold V3._normalize_scores. rewrite Emn, Emx. cbn [bind].
  unfold min_max_norm. destruct (Qeq_bool mx mn) eqn:E; [reflexivity|].
  apply Qeq_bool_false in E.
  apply mapM_Ok. intros r Hr. destruct Hb as (_ & _ & Hb).
  destruct (Hb (V3.r_score r) (in_map V3.r_score _ _ Hr)) as [H1 H2].
  destruct (min_max_scale H1 H2 E) as [-> _]. reflexivity.
Qed.

(** *** Fusion in [services.py] *)

Lemma normalize_scores_total (results : list Services.scored) :
  exists d,
    Services.normalize_scores results = Ok d
    /\ forall k, In k (dict_keys d)
                 <-> In k (map (fun r => Services.id (fst r)) results).
Proof.
  destruct results as [|r0 rs].
  - exists []. split; [reflexivity | reflexivity].
  - destruct (@normalize_scores_eq (r0 :: rs)) as (mn & mx & _ & Heq);
      [discriminate|].
    eexists. split; [exact Heq|]. intros k.
    rewrite (dict_keys_of_items Z.eqb Z.eqb_eq).
    rewrite (first_seen_In Z.eqb Z.eqb_eq), map_map. reflexivity.
Qed.

Lemma dict_get_absent (k : Z) (d : pydict Z Q) :
  ~ In k (dict_keys d) -> dict_get Z.eqb k 0 d = 0.
Proof.
  intros H. unfold dict_get.
  destruct (dict_lookup Z.eqb k d) as [v|] eqn:E; [|reflexivity].
  exfalso. apply H. apply (dict_lookup_keys Z.eqb Z.eqb_eq). eauto.
Qed.

Lemma combine_scores_eq (alpha : Q) (vs bs : pydict Z Q) (ids : list Z) :
  NoDup ids ->
  Services.combine_scores alpha vs bs ids
  = map (fun k => (k, alpha * dict_get Z.eqb k 0 vs
                      + (1 - alpha) * dict_get Z.eqb k 0 bs)) ids.
Proof.
  intros H. unfold Services.combine_scores.
  rewrite (fold_set_distinct Z.eqb Z.eqb_eq
             (fun k => alpha * dict_get Z.eqb k 0 vs
                       + (1 - alpha) * dict_get Z.eqb k 0 bs)) by auto.
  reflexivity.
Qed.

(** [chunk_dict] knows every id of the two lists, and answers with a chunk
    of that id taken from them. *)
Lemma chunk_dict_lookup (rs : list Services.scored) (k : Z) :
  In k (map (fun r => Services.id (fst r)) rs) ->
  exists c,
    dict_lookup Z.eqb k
      (dict_of_items Z.eqb (map (fun r => (Services.id (fst r), fst r)) rs))
    = Some c
    /\ Services.id c = k /\ In c (map fst rs).
Proof.
  intros Hk.
  assert (Hkeys : In k (dict_keys (dict_of_items Z.eqb
            (map (fun r => (Services.id (fst r), fst r)) rs)))).
  { rewrite (dict_keys_of_items Z.eqb Z.eqb_eq).
    apply (first_seen_In Z.eqb Z.eqb_eq). now rewrite map_map. }
  apply (dict_lookup_keys Z.eqb Z.eqb_eq) in Hkeys. destruct Hkeys as [c Hc].
  exists c. split; [exact Hc|].
  apply (dict_of_items_lookup Z.eqb Z.eqb_eq) in Hc.
  apply in_map_iff in Hc. destruct Hc as (r & [= <- <-] & Hr).
  split; [reflexivity | now apply in_map].
Qed.

Lemma mapM_chunk_lookup (cd : pydict Z Services.DocumentChunk)
    (P : Services.DocumentChunk -> Prop) (f : Z -> Q) (ids : list Z) :
  (forall k, In k ids ->
     exists c, dict_lookup Z.eqb k cd = Some c /\ Services.id c = k /\ P c) ->
  exists l,
    mapM (fun kv => c <- dict_index Z.eqb (fst kv) cd ;; Ok (c, snd kv))
         (map (fun k => (k, f k)) ids) = Ok l
    /\ map (fun r => Services.id (fst r)) l = ids
    /\ Forall (fun r => P (fst r) /\ snd r = f (Services.id (fst r))) l.
Proof.
  induction ids as [|k r IH]; intros H.
  - exists []. repeat split; constructor.
  - destruct (H k (or_introl eq_refl)) as (c & Hc & Hid & HP).
    destruct IH as (l & Hl & Hids & Hall);
      [intros; apply H; now right|].
    exists ((c, f k) :: l). cbn [map mapM fst snd].
    unfold dict_index at 1. rewrite Hc. cbn [bind]. rewrite Hl. cbn [bind].
    repeat split.
    + cbn. now rewrite Hid, Hids.
    + constructor; [|exact Hall]. cbn. now rewrite Hid.
Qed.

(** The shape of the fused list: one entry per id of the union, in the
    iteration order of the id set, then sorted. *)
Lemma combine_and_rerank_eq `{Services.SetOrder}
    (vr br : list Services.scored) (query : pystr) (alpha : Q) :
  exists vs bs final_results,
    Services.normalize_scores vr = Ok vs
    /\ Services.normalize_scores br = Ok bs
    /\ (forall k, In k (dict_keys vs)
                  <-> In k (map (fun r => Services.id (fst r)) vr))
    /\ (forall k, In k (dict_keys bs)
                  <-> In k (map (fun r => Services.id (fst r)) br))
    /\ map (fun r => Services.id (fst r)) final_results
       = Services.iter_union (dict_keys vs) (dict_keys bs)
    /\ Forall (fun r =>
                 In (fst r) (map fst (vr ++ br))
                 /\ snd r = alpha * dict_get Z.eqb (Services.id (fst r)) 0 vs
                            + (1 - alpha)
                              * dict_get Z.eqb (Services.id (fst r)) 0 bs)
              final_results
    /\ Services._combine_and_rerank vr br query alpha
       = Ok (sort_desc snd final_results).
Proof.
  destruct (normalize_scores_total vr) as (vs & Evs & Kvs).
  destruct (normalize_scores_total br) as (bs & Ebs & Kbs).
  destruct (@mapM_chunk_lookup
              (dict_of_items Z.eqb
                 (map (fun r => (Services.id (fst r), fst r)) (vr ++ br)))
              (fun c => In c (map fst (vr ++ br)))
              (fun k => alpha * dict_get Z.eqb k 0 vs
                        + (1 - alpha) * dict_get Z.eqb k 0 bs)
              (Services.iter_union (dict_keys vs) (dict_keys bs)))
    as (l & Hl & Hids & Hall).
  { intros k Hk. apply chunk_dict_lookup.
    apply Services.iter_union_In in Hk.
    rewrite map_app, in_app_iff. rewrite <- Kvs, <- Kbs. exact Hk. }
  exists vs, bs, l. repeat (split; [assumption|]).
  unfold Services._combine_and_rerank. rewrite Evs, Ebs. cbn [bind].
  rewrite combine_scores_eq by apply Services.iter_union_NoDup.
  rewrite Hl. reflexivity.
Qed.

(** [services.py]: one fused result per chunk id of the union, scored by
    the weighted sum. *)
Lemma combine_and_rerank_union `{Services.SetOrder}
    (vr br : list Services.scored) (query : pystr) (alpha : Q) :
  exists vs bs fused,
    Services.normalize_scores vr = Ok vs
    /\ Services.normalize_scores br = Ok bs
    /\ Services._combine_and_rerank vr br query alpha = Ok fused
    /\ NoDup (map (fun r => Services.id (fst r)) fused)
    /\ (forall k, In k (map (fun r => Services.id (fst r)) fused)
                  <-> In k (map (fun r => Services.id (fst r)) vr)
                      \/ In k (map (fun r => Services.id (fst r)) br))
    /\ List.length fused
       = List.length
           (nodup Z.eq_dec (map (fun r => Services.id (fst r)) (vr ++ br)))
    /\ Forall (fun r =>
                 In (fst r) (map fst (vr ++ br))
                 /\ snd r = alpha * dict_get Z.eqb (Services.id (fst r)) 0 vs
                            + (1 - alpha)
                              * dict_get Z.eqb (Services.id (fst r)) 0 bs)
              fused
    /\ (forall k, ~ In k (map (fun r => Services.id (fst r)) vr) ->
                  dict_get Z.eqb k 0 vs = 0)
    /\ (forall k, ~ In k (map (fun r => Services.id (fst r)) br) ->
                  dict_get Z.eqb k 0 bs = 0).
Proof.
  destruct (combine_and_rerank_eq vr br query alpha)
    as (vs & bs & l & Evs & Ebs & Kvs & Kbs & Hids & Hall & Heq).
  exists vs, bs, (sort_desc snd l).
  pose proof (sort_desc_perm snd l) as HP.
  pose proof (Permutation_map (fun r => Services.id (fst r)) HP) as HPid.
  assert (Hnd : NoDup (map (fun r => Services.id (fst r)) (sort_desc snd l))).
  { apply (Permutation_NoDup (Permutation_sym HPid)).
    rewrite Hids. apply Services.iter_union_NoDup. }
  assert (Hin : forall k,
    In k (map (fun r => Services.id (fst r)) (sort_desc snd l))
    <-> In k (map (fun r => Services.id (fst r)) vr)
        \/ In k (map (fun r => Services.id (fst r)) br)).
  { intros k. rewrite <- Kvs, <- Kbs, <- Services.iter_union_In, <- Hids.
    split; apply Permutation_in; [exact HPid | now apply Permutation_sym]. }
  repeat (split; [assumption|]).
  split; [|split; [|split]].
  - transitivity
      (List.length (map (fun r => Services.id (fst r)) (sort_desc snd l))).
    { symmetry. apply length_map. }
    apply Permutation_length.
    apply NoDup_Permutation; [exact Hnd | apply NoDup_nodup|].
    intros k. rewrite Hin, nodup_In, map_app, in_app_iff. reflexivity.
  - apply (Permutation_Forall (Permutation_sym HP)). exact Hall.
  - intros k Hk. apply dict_get_absent. now rewrite Kvs.
  - intros k Hk. apply dict_get_absent. now rewrite Kbs.
Qed.

(** *** Fusion in [hybrid_search.py] *)

Lemma v3_normalize_scores_total (results : list V3.RawResult) :
  exists out,
    V3._normalize_scores results = Ok out
    /\ map V3.r_chunk out = map V3.r_chunk results.
Proof.
  destruct results as [|r0 rs].
  - exists []. split; reflexivity.
  - destruct (@v3_normalize_scores_eq (r0 :: rs)) as (mn & mx & _ & Heq);
      [discriminate|].
    eexists. split; [exact Heq|]. rewrite map_map. reflexivity.
Qed.

Lemma add_vector_keys (rs : list V3.RawResult) : forall d,
  dict_keys (fold_left V3.add_vector rs d)
  = fold_left (add_unseen str_eqb)
              (map (fun r => V3.chunk_id (V3.r_chunk r)) rs) (dict_keys d).
Proof.
  induction rs as [|r rs IH]; intros d; simpl; [reflexivity|].
  rewrite IH. unfold V3.add_vector.
  now rewrite (dict_keys_set str_eqb str_eqb_eq).
Qed.

Lemma add_bm25_keys (rs : list V3.RawResult) : forall d,
  dict_keys (fold_left V3.add_bm25 rs d)
  = fold_left (add_unseen str_eqb)
              (map (fun r => V3.chunk_id (V3.r_chunk r)) rs) (dict_keys d).
Proof.
  induction rs as [|r rs IH]; intros d; simpl; [reflexivity|].
  rewrite IH. unfold V3.add_bm25.
  destruct (dict_lookup str_eqb (V3.chunk_id (V3.r_chunk r)) d);
    now rewrite (dict_keys_set str_eqb str_eqb_eq).
Qed.

Lemma add_vector_keyed (rs : list V3.RawResult) : forall d,
  V3.keyed_by_chunk_id d -> V3.keyed_by_chunk_id (fold_left V3.add_vector rs d).
Proof.
  induction rs as [|r rs IH]; intros d H; simpl; [exact H|].
  apply IH. unfold V3.add_vector.
  apply (dict_set_Forall str_eqb str_eqb_eq); [exact H | reflexivity].
Qed.

Lemma add_bm25_keyed (rs : list V3.RawResult) : forall d,
  V3.keyed_by_chunk_id d -> V3.keyed_by_chunk_id (fold_left V3.add_bm25 rs d).
Proof.
  induction rs as [|r rs IH]; intros d H; simpl; [exact H|].
  apply IH. unfold V3.add_bm25.
  destruct (dict_lookup str_eqb (V3.chunk_id (V3.r_chunk r)) d) as [m|] eqn:E;
    apply (dict_set_Forall str_eqb str_eqb_eq); try exact H; cbn;
    [|reflexivity].
  apply (dict_lookup_In str_eqb str_eqb_eq) in E.
  unfold V3.keyed_by_chunk_id in H. rewrite Forall_forall in H.
  exact (H _ E).
Qed.

(** The combined list has one entry per chunk id, in order of first
    appearance: vector results first, then the BM25-only ones. *)
Lemma combine_results_ids (self : V3.HybridRetriever)
    (vector_results bm25_results : list V3.RawResult) :
  map (fun h => V3.chunk_id (fst h))
      (V3._combine_results self vector_results bm25_results)
  = first_seen str_eqb
      (map (fun r => V3.chunk_id (V3.r_chunk r))
           (vector_results ++ bm25_results)).
Proof.
  unfold V3._combine_results. rewrite map_map. cbn [fst].
  assert (Hk : V3.keyed_by_chunk_id
                 (fold_left V3.add_bm25 bm25_results
                            (fold_left V3.add_vector vector_results []))).
  { apply add_bm25_keyed, add_vector_keyed. constructor. }
  transitivity
    (dict_keys (fold_left V3.add_bm25 bm25_results
                          (fold_left V3.add_vector vector_results []))).
  - unfold dict_keys. apply map_ext_in. intros kv Hin.
    unfold V3.keyed_by_chunk_id in Hk. rewrite Forall_forall in Hk.
    exact (Hk _ Hin).
  - rewrite add_bm25_keys, add_vector_keys. unfold first_seen.
    now rewrite map_app, fold_left_app.
Qed.


(** *** Scores of the combined results *)

Lemma add_vector_vector_score (rs : list V3.RawResult) (k : pystr) :
  forall d,
    V3.vector_score_of (fold_left V3.add_vector rs d) k
    = fold_left (fun acc r =>
                   if str_eqb k (V3.chunk_id (V3.r_chunk r))
                   then V3.get_normalized r else acc)
                rs (V3.vector_score_of d k).
Proof.
  induction rs as [|r rs IH]; intros d; cbn [fold_left]; [reflexivity|].
  rewrite IH. f_equal. unfold V3.vector_score_of, V3.add_vector.
  rewrite (dict_lookup_set str_eqb str_eqb_eq).
  now destruct (str_eqb k (V3.chunk_id (V3.r_chunk r))).
Qed.

Lemma add_vector_bm25_score (rs : list V3.RawResult) (k : pystr) :
  forall d,
    V3.bm25_score_of d k = 0 ->
    V3.bm25_score_of (fold_left V3.add_vector rs d) k = 0.
Proof.
  induction rs as [|r rs IH]; intros d H; cbn [fold_left]; [exact H|].
  apply IH. unfold V3.bm25_score_of, V3.add_vector in *.
  rewrite (dict_lookup_set str_eqb str_eqb_eq).
  now destruct (str_eqb k (V3.chunk_id (V3.r_chunk r))).
Qed.

Lemma add_bm25_lookup (d : pydict pystr V3.Merged) (r : V3.RawResult)
    (k : pystr) :
  V3.vector_score_of (V3.add_bm25 d r) k = V3.vector_score_of d k
  /\ V3.bm25_score_of (V3.add_bm25 d r) k
     = if str_eqb k (V3.chunk_id (V3.r_chunk r)) then V3.get_normalized r
       else V3.bm25_score_of d k.
Proof.
  unfold V3.vector_score_of, V3.bm25_score_of, V3.add_bm25.
  destruct (dict_lookup str_eqb (V3.chunk_id (V3.r_chunk r)) d) as [m|] eqn:E;
    rewrite (dict_lookup_set str_eqb str_eqb_eq);
    destruct (str_eqb k (V3.chunk_id (V3.r_chunk r))) eqn:Ek;
    try (split; reflexivity);
    apply str_eqb_eq in Ek; subst k; rewrite E; split; reflexivity.
Qed.

Lemma add_bm25_scores (rs : list V3.RawResult) (k : pystr) :
  forall d,
    V3.vector_score_of (fold_left V3.add_bm25 rs d) k = V3.vector_score_of d k
    /\ V3.bm25_score_of (fold_left V3.add_bm25 rs d) k
       = fold_left (fun acc r =>
                      if str_eqb k (V3.chunk_id (V3.r_chunk r))
                      then V3.get_normalized r else acc)
                   rs (V3.bm25_score_of d k).
Proof.
  induction rs as [|r rs IH]; intros d; cbn [fold_left]; [now split|].
  destruct (IH (V3.add_bm25 d r)) as [IHv IHb].
  destruct (add_bm25_lookup d r k) as [Hv Hb].
  rewrite IHv, IHb, Hv, Hb. now split.
Qed.

(** Each combined result is scored by the weighted sum of the two
    normalised scores of its chunk id. *)
Lemma combine_results_scores (self : V3.HybridRetriever)
    (v b : list V3.RawResult) :
  Forall (fun h =>
            snd h
            = V3.calculate_similarity_score
                (V3.last_normalized b (V3.chunk_id (fst h)))
                (V3.last_normalized v (V3.chunk_id (fst h)))
                (V3.self_bm25_weight self) (V3.self_vector_weight self))
         (V3._combine_results self v b).
Proof.
  unfold V3._combine_results.
  set (d := fold_left V3.add_bm25 b (fold_left V3.add_vector v [])).
  assert (Hk : V3.keyed_by_chunk_id d).
  { apply add_bm25_keyed, add_vector_keyed. constructor. }
  assert (Hnd : NoDup (dict_keys d)).
  { unfold d. rewrite add_bm25_keys, add_vector_keys.
    rewrite <- fold_left_app, <- map_app.
    apply (first_seen_NoDup str_eqb str_eqb_eq). }
  apply Forall_forall. intros h Hh. apply in_map_iff in Hh.
  destruct Hh as ([k data] & <- & Hin). cbn [fst snd].
  unfold V3.keyed_by_chunk_id in Hk. rewrite Forall_forall in Hk.
  pose proof (Hk _ Hin) as Hkey. cbn [fst snd] in Hkey. rewrite Hkey.
  pose proof (dict_In_lookup str_eqb str_eqb_eq _ _ _ Hnd Hin) as Hl.
  destruct (add_bm25_scores b k (fold_left V3.add_vector v [])) as [Hv Hb].
  fold d in Hv, Hb.
  rewrite add_vector_vector_score in Hv.
  rewrite add_vector_bm25_score in Hb by reflexivity.
  assert (Hdv : V3.vector_score_of d k = V3.m_vector_score data)
    by (unfold V3.vector_score_of; now rewrite Hl).
  assert (Hdb : V3.bm25_score_of d k = V3.m_bm25_score data)
    by (unfold V3.bm25_score_of; now rewrite Hl).
  rewrite <- Hdv, <- Hdb, Hv, Hb. reflexivity.
Qed.

Lemma last_normalized_absent (rs : list V3.RawResult) (k : pystr) :
  ~ In k (map (fun r => V3.chunk_id (V3.r_chunk r)) rs) ->
  V3.last_normalized rs k = 0.
Proof.
  unfold V3.last_normalized. generalize 0 as acc.
  induction rs as [|r rs IH]; intros acc H; cbn [fold_left]; [reflexivity|].
  cbn [map In] in H.
  destruct (str_eqb k (V3.chunk_id (V3.r_chunk r))) eqn:E.
  - apply str_eqb_eq in E. subst k. tauto.
  - apply IH. tauto.
Qed.

(** [hybrid_search.py]: one combined result per chunk id of the union,
    scored by the two weights of the retriever. *)
Lemma combine_results_union (self : V3.HybridRetriever)
    (v b : list V3.RawResult) :
  let ids := map (fun r => V3.chunk_id (V3.r_chunk r)) in
  let combined := V3._combine_results self v b in
  NoDup (map (fun h => V3.chunk_id (fst h)) combined)
  /\ forall k, In k (map (fun h => V3.chunk_id (fst h)) combined)
               <-> In k (ids v) \/ In k (ids b).
Proof.
  intros ids combined. subst ids combined. rewrite combine_results_ids.
  split; [apply (first_seen_NoDup str_eqb str_eqb_eq)|].
  intros k. rewrite (first_seen_In str_eqb str_eqb_eq), map_app, in_app_iff.
  reflexivity.
Qed.

(** C2. Fusion yields exactly one result per chunk id of the union of the
    two candidate lists, none dropped (the list is as long as the number
    of distinct ids), and the score of each is
    [weight * semantic + (1 - weight) * lexical] over the normalised
    scores, where an id missing from a list counts [0] for it.  In
    [services.py] the weight is [alpha]; in [hybrid_search.py] the
    retriever holds two weights, and the formula is the stated one when
    the BM25 weight is one minus the vector weight. *)
Theorem fusion_one_result_per_chunk_id `{Services.SetOrder}
    (vr br : list Services.scored) (query : pystr) (alpha : Q)
    (self : V3.HybridRetriever) (v b : list V3.RawResult) :
  (exists vs bs fused,
     Services.normalize_scores vr = Ok vs
     /\ Services.normalize_scores br = Ok bs
     /\ Services._combine_and_rerank vr br query alpha = Ok fused
     /\ NoDup (map (fun r => Services.id (fst r)) fused)
     /\ (forall k, In k (map (fun r => Services.id (fst r)) fused)
                   <-> In k (map (fun r => Services.id (fst r)) vr)
                       \/ In k (map (fun r => Services.id (fst r)) br))
     /\ List.length fused
        = List.length
            (nodup Z.eq_dec (map (fun r => Services.id (fst r)) (vr ++ br)))
     /\ Forall (fun r =>
                  In (fst r) (map fst (vr ++ br))
                  /\ snd r
                     = alpha * dict_get Z.eqb (Services.id (fst r)) 0 vs
                       + (1 - alpha)
                         * dict_get Z.eqb (Services.id (fst r)) 0 bs)
               fused
     /\ (forall k, ~ In k (map (fun r => Services.id (fst r)) vr) ->
                   dict_get Z.eqb k 0 vs = 0)
     /\ (forall k, ~ In k (map (fun r => Services.id (fst r)) br) ->
                   dict_get Z.eqb k 0 bs = 0))
  /\
  (V3.self_bm25_weight self == 1 - V3.self_vector_weight self ->
   exists v' b',
     V3._normalize_scores v = Ok v'
     /\ V3._normalize_scores b = Ok b'
     /\ NoDup (map (fun h => V3.chunk_id (fst h))
                   (V3._combine_results self v' b'))
     /\ (forall k, In k (map (fun h => V3.chunk_id (fst h))
                             (V3._combine_results self v' b'))
                   <-> In k (map (fun r => V3.chunk_id (V3.r_chunk r)) v)
                       \/ In k (map (fun r => V3.chunk_id (V3.r_chunk r)) b))
     /\ Forall (fun h =>
                  snd h
                  == V3.self_vector_weight self
                     * V3.last_normalized v' (V3.chunk_id (fst h))
                     + (1 - V3.self_vector_weight self)
                       * V3.last_normalized b' (V3.chunk_id (fst h)))
               (V3._combine_results self v' b')
     /\ (forall k, ~ In k (map (fun r => V3.chunk_id (V3.r_chunk r)) v) ->
                   V3.last_normalized v' k = 0)
     /\ (forall k, ~ In k (map (fun r => V3.chunk_id (V3.r_chunk r)) b) ->
                   V3.last_normalized b' k = 0)).
Proof.
  split; [apply combine_and_rerank_union|].
  intros Hw.
  destruct (v3_normalize_scores_total v) as (v' & Ev & Cv).
  destruct (v3_normalize_scores_total b) as (b' & Eb & Cb).
  assert (Iv : map (fun r => V3.chunk_id (V3.r_chunk r)) v'
               = map (fun r => V3.chunk_id (V3.r_chunk r)) v).
  { rewrite <- (map_map V3.r_chunk V3.chunk_id v'), Cv. apply map_map. }
  assert (Ib : map (fun r => V3.chunk_id (V3.r_chunk r)) b'
               = map (fun r => V3.chunk_id (V3.r_chunk r)) b).
  { rewrite <- (map_map V3.r_chunk V3.chunk_id b'), Cb. apply map_map. }
  exists v', b'. split; [exact Ev|]. split; [exact Eb|].
  destruct (combine_results_union self v' b') as [Hnd Hin].
  split; [exact Hnd|]. split; [|split; [|split]].
  - intros k. rewrite Hin, Iv, Ib. reflexivity.
  - eapply Forall_impl; [|apply combine_results_scores].
    intros h ->. unfold V3.calculate_similarity_score. rewrite Hw. ring.
  - intros k Hk. apply last_normalized_absent. now rewrite Iv.
  - intros k Hk. apply last_normalized_absent. now rewrite Ib.
Qed.

Lemma fusion_one_result_per_chunk_id_witness :
  V3.self_bm25_weight Examples.default_retriever
  == 1 - V3.self_vector_weight Examples.default_retriever
  /\ exists v' b',
       V3._normalize_scores
         [Examples.raw (py "a") (1 # 2); Examples.raw (py "b") (1 # 4)]
       = Ok v'
       /\ V3._normalize_scores [Examples.raw (py "b") 3] = Ok b'
       /\ NoDup (map (fun h => V3.chunk_id (fst h))
                     (V3._combine_results Examples.default_retriever v' b')).
Proof.
  assert (Hw : V3.self_bm25_weight Examples.default_retriever
               == 1 - V3.self_vector_weight Examples.default_retriever)
    by reflexivity.
  split; [exact Hw|].
  destruct (proj2 (fusion_one_result_per_chunk_id
                     (H := Examples.union_order) [] [] (py "query") (7 # 10)
                     Examples.default_retriever
                     [Examples.raw (py "a") (1 # 2);
                      Examples.raw (py "b") (1 # 4)]
                     [Examples.raw (py "b") 3]) Hw)
    as (v' & b' & Ev & Eb & Hnd & _).
  exists v', b'. split; [exact Ev|]. split; [exact Eb | exact Hnd].
Defined.



(** *** Scenario B *)

Import Examples.

Lemma scenario_ids_perm (ids : list Z) :
  NoDup ids ->
  (forall k, In k ids <-> In k [1; 2; 3; 4]%Z) ->
  Permutation ids [1; 2; 3; 4]%Z.
Proof.
  intros Hnd Hin. apply NoDup_Permutation; [exact Hnd | | exact Hin].
  repeat constructor; simpl; intuition discriminate.
Qed.

(** C8 (as amended). Scenario B: semantic scores [0.95, 0.9, 0.4, 0.3]
    and lexical scores [2, 2, 2, 0] of four chunks, weight 0.7.  The
    semantic norms are [1, 12/13, 2/13, 0], to three decimals
    [1.000, 0.923, 0.154, 0.000]; the lexical norms are [1, 1, 1, 0]; the
    fused scores are [1, 123/130, 53/130, 0], to three decimals
    [1.000, 0.946, 0.408, 0.000]; the ranking keeps the given order.  This
    holds for every iteration order of the id set. *)
Theorem scenario_B_fusion `{Services.SetOrder} :
  exists vs bs fused,
    Services.normalize_scores scenario_semantic = Ok vs
    /\ Services.normalize_scores scenario_lexical = Ok bs
    /\ Services._combine_and_rerank scenario_semantic scenario_lexical
         (py "query") Services.default_alpha = Ok fused
    /\ dict_keys vs = [1; 2; 3; 4]%Z
    /\ Forall2 Qeq (map snd vs) [1; 12 # 13; 2 # 13; 0]
    /\ map thousandths (map snd vs) = [1000; 923; 154; 0]%Z
    /\ dict_keys bs = [1; 2; 3; 4]%Z
    /\ Forall2 Qeq (map snd bs) [1; 1; 1; 0]
    /\ map fst fused = [c1; c2; c3; c4]
    /\ Forall2 Qeq (map snd fused) [1; 123 # 130; 53 # 130; 0]
    /\ map thousandths (map snd fused) = [1000; 946; 408; 0]%Z.
Proof.
  destruct (combine_and_rerank_eq scenario_semantic scenario_lexical
              (py "query") Services.default_alpha)
    as (vs & bs & l & Evs & Ebs & Kvs & Kbs & Hids & Hall & Heq).
  exists vs, bs, (sort_desc snd l).
  assert (Hvs : dict_keys vs = [1; 2; 3; 4]%Z
                /\ Forall2 Qeq (map snd vs) [1; 12 # 13; 2 # 13; 0]
                /\ map thousandths (map snd vs) = [1000; 923; 154; 0]%Z).
  { vm_compute in Evs. injection Evs as <-.
    repeat split; repeat constructor. }
  assert (Hbs : dict_keys bs = [1; 2; 3; 4]%Z
                /\ Forall2 Qeq (map snd bs) [1; 1; 1; 0]).
  { vm_compute in Ebs. injection Ebs as <-.
    repeat split; repeat constructor. }
  destruct Hvs as (Hkv & Hvv & Htv). destruct Hbs as (Hkb & Hvb).
  assert (Hl : l = map (scenario_entry vs bs)
                       (Services.iter_union (dict_keys vs) (dict_keys bs))).
  { rewrite <- Hids, map_map. rewrite <- (map_id l) at 1.
    apply map_ext_in. intros [c sc] Hr.
    rewrite Forall_forall in Hall. destruct (Hall _ Hr) as [Hc Hs].
    cbn [fst snd] in *. unfold scenario_entry. rewrite Hs. f_equal.
    cbn in Hc.
    destruct Hc as [<-|[<-|[<-|[<-|[<-|[<-|[<-|[<-|[]]]]]]]]]; reflexivity. }
  assert (Hsorted : sort_desc snd l
                    = map (scenario_entry vs bs) [1; 2; 3; 4]%Z).
  { apply sort_desc_unique.
    - rewrite Hl. apply Permutation_map. apply scenario_ids_perm.
      + apply Services.iter_union_NoDup.
      + intros k. rewrite Services.iter_union_In, Hkv, Hkb. tauto.
    - vm_compute in Evs. injection Evs as <-.
      vm_compute in Ebs. injection Ebs as <-.
      repeat constructor. }
  repeat (split; [assumption|]).
  rewrite Hsorted.
  vm_compute in Evs. injection Evs as <-.
  vm_compute in Ebs. injection Ebs as <-.
  repeat split; repeat constructor.
Qed.

(** C8, the figures as stated fail: the second semantic norm is not
    0.846 and the second fused score is not 0.892. *)
Lemma scenario_B_stated_figures_fail :
  ~ exists vs fused,
      Services.normalize_scores scenario_semantic = Ok vs
      /\ map thousandths (map snd vs) = [1000; 846; 154; 0]%Z
      /\ Services._combine_and_rerank (H := union_order)
           scenario_semantic scenario_lexical (py "query")
           Services.default_alpha = Ok fused
      /\ map thousandths (map snd fused) = [1000; 892; 408; 0]%Z.
Proof.
  intros (vs & fused & Evs & Hvs & _).
  vm_compute in Evs. injection Evs as <-.
  vm_compute in Hvs. discriminate.
Qed.

End FusionSpec.

(** ** The intent router *)

Module RouterSpec.
Import Py PyFacts Spec.

Lemma starts_with_spec (needle hay : pystr) :
  starts_with needle hay = true <-> exists post, hay = needle ++ post.
Proof.
  revert hay. induction needle as [|a n IH]; intros hay; simpl.
  - split; [intros _; now exists hay | reflexivity].
  - destruct hay as [|b h].
    + split; [discriminate | intros [post H]; discriminate].
    + rewrite andb_true_iff, N.eqb_eq, IH. split.
      * intros [-> [post ->]]. now exists post.
      * intros [post [= -> ->]]. split; [reflexivity | now exists post].
Qed.

Lemma str_in_spec (needle hay : pystr) :
  str_in needle hay = true <-> contains needle hay.
Proof.
  induction hay as [|c h IH]; simpl.
  - rewrite orb_false_r, starts_with_spec. split.
    + intros [post H]. now exists [], post.
    + intros (pre & post & H). destruct pre; [now exists post | discriminate].
  - rewrite orb_true_iff, starts_with_spec, IH. split.
    + intros [[post H] | (pre & post & H)].
      * now exists [], post.
      * exists (c :: pre), post. simpl. now rewrite H.
    + intros (pre & post & H). destruct pre as [|c' pre].
      * left. now exists post.
      * right. injection H as _ H. now exists pre, post.
Qed.

Lemma any_matches (keywords : list pystr) (query : pystr) :
  any (fun keyword => str_in keyword query) keywords = true
  <-> matches keywords query.
Proof.
  unfold any, matches. rewrite existsb_exists.
  split; intros (k & Hk & H); exists k; (split; [exact Hk|]);
    now apply str_in_spec.
Qed.

Lemma any_no_match (keywords : list pystr) (query : pystr) :
  ~ matches keywords query ->
  any (fun keyword => str_in keyword query) keywords = false.
Proof.
  intros H. destruct (any _ keywords) eqn:E; [|reflexivity].
  apply any_matches in E. contradiction.
Qed.

(** The intent is not touched by the metadata update. *)
Lemma intent_set_meta (k : pystr) (v : pyval) (s : Services.AgentState) :
  Services.intent (Services.set_meta k v s) = Services.intent s.
Proof. reflexivity. Qed.

(** C3. The router tests the lower-cased query against the keyword sets
    in the order SUMMARIZE, TRANSLATE, CHECKLIST and the first set with a
    keyword occurring in the query decides; with no match the intent is
    the default one, which the code names RAG_QUERY.  In particular a
    query holding both "summarize" and "checklist" is SUMMARIZE.  The
    chosen intent is also recorded under [metadata["intent"]]. *)
Theorem router_priority (ext : Services.Externals)
    (state : Services.AgentState) :
  let query := Services.lower ext (Services.query state) in
  let routed := Services._router_agent ext state in
  (matches Services.SUMMARIZE_KEYWORDS query ->
     Services.intent routed = py "SUMMARIZE")
  /\ (~ matches Services.SUMMARIZE_KEYWORDS query ->
      matches Services.TRANSLATE_KEYWORDS query ->
        Services.intent routed = py "TRANSLATE")
  /\ (~ matches Services.SUMMARIZE_KEYWORDS query ->
      ~ matches Services.TRANSLATE_KEYWORDS query ->
      matches Services.CHECKLIST_KEYWORDS query ->
        Services.intent routed = py "CHECKLIST")
  /\ (~ matches Services.SUMMARIZE_KEYWORDS query ->
      ~ matches Services.TRANSLATE_KEYWORDS query ->
      ~ matches Services.CHECKLIST_KEYWORDS query ->
        Services.intent routed = py "RAG_QUERY")
  /\ (contains (py "summarize") query -> contains (py "checklist") query ->
        Services.intent routed = py "SUMMARIZE")
  /\ dict_lookup str_eqb (py "intent") (Services.metadata routed)
     = Some (VStr (Services.intent routed)).
Proof.
  intros query routed. subst routed. unfold Services._router_agent.
  fold query. rewrite intent_set_meta.
  assert (HS : matches Services.SUMMARIZE_KEYWORDS query ->
               Services.intent
                 (if any (fun k => str_in k query) Services.SUMMARIZE_KEYWORDS
                  then Services.set_intent (py "SUMMARIZE") state
                  else if any (fun k => str_in k query)
                              Services.TRANSLATE_KEYWORDS
                  then Services.set_intent (py "TRANSLATE") state
                  else if any (fun k => str_in k query)
                              Services.CHECKLIST_KEYWORDS
                  then Services.set_intent (py "CHECKLIST") state
                  else Services.set_intent (py "RAG_QUERY") state)
               = py "SUMMARIZE").
  { intros H. apply any_matches in H. now rewrite H. }
  split; [exact HS|]. split; [|split; [|split; [|split]]].
  - intros HnS HT. rewrite (any_no_match HnS).
    apply any_matches in HT. now rewrite HT.
  - intros HnS HnT HC. rewrite (any_no_match HnS), (any_no_match HnT).
    apply any_matches in HC. now rewrite HC.
  - intros HnS HnT HnC.
    now rewrite (any_no_match HnS), (any_no_match HnT), (any_no_match HnC).
  - intros Hs _. apply HS. exists (py "summarize"). split; [now left | exact Hs].
  - unfold Services.set_meta. cbn [Services.metadata Services.intent].
    rewrite (dict_lookup_set str_eqb str_eqb_eq).
    now rewrite (proj2 (str_eqb_eq _ _) eq_refl).
Qed.

Lemma router_priority_witness :
  let query :=
    Services.lower Examples.empty_corpus_ok
                   (Services.query Examples.mixed_query) in
  contains (py "summarize") query
  /\ contains (py "checklist") query
  /\ Services.intent
       (Services._router_agent Examples.empty_corpus_ok Examples.mixed_query)
     = py "SUMMARIZE".
Proof.
  intros query.
  assert (H1 : contains (py "summarize") query)
    by (exists (py "please "), (py " the checklist"); reflexivity).
  assert (H2 : contains (py "checklist") query)
    by (exists (py "please summarize the "), []; reflexivity).
  split; [exact H1|]. split; [exact H2|].
  exact (proj1 (proj2 (proj2 (proj2 (proj2
    (router_priority Examples.empty_corpus_ok Examples.mixed_query)))))
    H1 H2).
Defined.

End RouterSpec.

(** ** Retrieval on an empty corpus, answer synthesis, citations *)

Module OrchestratorSpec.
Import Py PyFacts Spec.

(** [_retriever_agent] with no chunk of a READY document: the embedding
    call is made first, then the state records why nothing was found. *)
Lemma retriever_empty_corpus `{Services.SetOrder} (ext : Services.Externals)
    (state : Services.AgentState) (tr : list Services.event) :
  Services.ready_chunks ext = [] ->
  exists s1,
    Services._retriever_agent ext state tr
    = (Ok s1, tr ++ [Services.EmbedCall (Services.query state)])
    /\ Services.retrieved_chunks s1 = []
    /\ Services.query s1 = Services.query state
    /\ (forall v, Services.embed_content ext (Services.query state) = Ok v ->
          Services.error s1 = Services.NO_DOCUMENTS)
    /\ (forall e,
          Services.embed_content ext (Services.query state) = Raise e ->
          Services.error s1 = py "Retrieval error: " ++ Services.str_exn e)
    /\ Services.error s1 <> [].
Proof.
  intros Hempty.
  unfold Services._retriever_agent, Services.try_except, Services.io_bind,
    Services._generate_query_embedding.
  destruct (Services.embed_content ext (Services.query state)) as [v|e] eqn:E.
  - rewrite Hempty. eexists. split; [reflexivity|].
    repeat split; try reflexivity; discriminate.
  - eexists. split; [reflexivity|].
    split; [reflexivity|]. split; [reflexivity|].
    split; [discriminate|]. split; [|discriminate].
    intros e' [= ->]. reflexivity.
Qed.

(** [_reasoning_agent] without chunks: the fixed answer, no citation, no
    call to the model, every other field as it was. *)
Lemma reasoning_no_chunks (ext : Services.Externals)
    (state : Services.AgentState) (tr : list Services.event) :
  Services.retrieved_chunks state = [] ->
  exists s2,
    Services._reasoning_agent ext state tr = (Ok s2, tr)
    /\ Services.answer s2 = Services.FALLBACK_ANSWER
    /\ Services.citations s2 = []
    /\ Services.error s2 = Services.error state.
Proof.
  intros H. unfold Services._reasoning_agent. rewrite H.
  eexists. split; [reflexivity|]. repeat split.
Qed.

(** C5 (as amended). With no chunk of a READY document, the retriever
    makes the embedding call and returns without raising, with no
    retrieved chunk and a non-empty error: "No documents available for
    search" when the embedding call succeeded, "Retrieval error: ..." when
    the embedding call itself failed.  The synthesizer, run on that state,
    gives the fixed fallback answer and no citation, keeps the error, and
    calls no model; the graph, on a query routed to retrieval, ends in
    that state having made the embedding call only. *)
Theorem empty_corpus_falls_back `{Services.SetOrder}
    (ext : Services.Externals) (state : Services.AgentState)
    (tr : list Services.event) :
  Services.ready_chunks ext = [] ->
  let tr1 := tr ++ [Services.EmbedCall (Services.query state)] in
  (exists s1 s2,
     Services._retriever_agent ext state tr = (Ok s1, tr1)
     /\ Services.retrieved_chunks s1 = []
     /\ (forall v,
           Services.embed_content ext (Services.query state) = Ok v ->
           Services.error s1 = Services.NO_DOCUMENTS)
     /\ (forall e,
           Services.embed_content ext (Services.query state) = Raise e ->
           Services.error s1 = py "Retrieval error: " ++ Services.str_exn e)
     /\ Services.error s1 <> []
     /\ Services._reasoning_agent ext s1 tr1 = (Ok s2, tr1)
     /\ Services.answer s2 = Services.FALLBACK_ANSWER
     /\ Services.citations s2 = []
     /\ Services.error s2 = Services.error s1)
  /\ (Services._route_decision (Services._router_agent ext state)
      = Services.Retriever ->
      exists s3,
        Services.graph_invoke ext state tr = (Ok s3, tr1)
        /\ Services.answer s3 = Services.FALLBACK_ANSWER
        /\ Services.citations s3 = []
        /\ Services.error s3 <> []
        /\ (forall v,
              Services.embed_content ext (Services.query state) = Ok v ->
              Services.error s3 = Services.NO_DOCUMENTS)).
Proof.
  intros Hempty tr1. split.
  - destruct (retriever_empty_corpus ext state tr Hempty)
      as (s1 & E1 & Hc & _ & Hok & Herr & Hne).
    destruct (reasoning_no_chunks ext s1 tr1 Hc) as (s2 & E2 & Ha & Hcit & He).
    exists s1, s2. repeat (split; [assumption|]). exact He.
  - intros Hroute. unfold Services.graph_invoke. rewrite Hroute.
    destruct (retriever_empty_corpus ext (Services._router_agent ext state)
                tr Hempty)
      as (s1 & E1 & Hc & Hq & Hok & _ & Hne).
    assert (Hquery : Services.query (Services._router_agent ext state)
                     = Services.query state).
    { unfold Services._router_agent.
      repeat match goal with |- context [if ?b then _ else _] =>
        destruct b end; reflexivity. }
    rewrite Hquery in *. fold tr1 in E1.
    destruct (reasoning_no_chunks ext s1 tr1 Hc) as (s3 & E3 & Ha & Hcit & He).
    exists s3. unfold Services.io_bind. rewrite E1, E3.
    repeat (split; [assumption || reflexivity|]).
    rewrite He. split; [exact Hne | exact Hok].
Qed.

Lemma empty_corpus_falls_back_witness :
  Services.ready_chunks Examples.empty_corpus_ok = []
  /\ exists s3,
       Services.graph_invoke (order := Examples.union_order)
         Examples.empty_corpus_ok Examples.question []
       = (Ok s3, [Services.EmbedCall (py "What is AI?")])
       /\ Services.answer s3 = Services.FALLBACK_ANSWER
       /\ Services.citations s3 = []
       /\ Services.error s3 = Services.NO_DOCUMENTS.
Proof.
  split; [reflexivity|].
  destruct (empty_corpus_falls_back (H := Examples.union_order)
              Examples.empty_corpus_ok Examples.question [] eq_refl)
    as [_ Hgraph].
  destruct (Hgraph eq_refl) as (s3 & E & Ha & Hc & _ & Herr).
  exists s3. repeat (split; [assumption|]).
  exact (Herr [1; 0] eq_refl).
Defined.

(** C5, the claim as stated fails: on an empty corpus the recorded error
    need not be the "no documents" one.  When the embedding service is
    down the state holds the embedding failure instead. *)
Lemma empty_corpus_error_may_differ :
  ~ forall (ext : Services.Externals) (state : Services.AgentState),
      Services.ready_chunks ext = [] ->
      exists s1 tr1,
        Services._retriever_agent (order := Examples.union_order) ext state []
        = (Ok s1, tr1)
        /\ Services.error s1 = Services.NO_DOCUMENTS.
Proof.
  intros H.
  destruct (H Examples.empty_corpus_embed_down Examples.question eq_refl)
    as (s1 & tr1 & E & Herr).
  vm_compute in E. injection E as <- _. vm_compute in Herr. discriminate.
Qed.

(** *** Citations *)

(** [_reasoning_agent] always returns a state; its citations are those of
    the chunks when the model answered, and none otherwise. *)
Lemma reasoning_agent_result (ext : Services.Externals)
    (state : Services.AgentState) (tr : list Services.event) :
  let chunks := Services.retrieved_chunks state in
  (chunks = []
   /\ exists s',
        Services._reasoning_agent ext state tr = (Ok s', tr)
        /\ Services.citations s' = [])
  \/ (chunks <> []
      /\ exists prompt,
           (exists answer s',
              Services.llm_invoke ext prompt = Ok answer
              /\ Services._reasoning_agent ext state tr
                 = (Ok s', tr ++ [Services.LlmCall prompt])
              /\ Services.answer s' = answer
              /\ Services.citations s' = map Services.make_citation chunks)
           \/ (exists e s',
                 Services.llm_invoke ext prompt = Raise e
                 /\ Services._reasoning_agent ext state tr
                    = (Ok s', tr ++ [Services.LlmCall prompt])
                 /\ Services.citations s' = [])).
Proof.
  intros chunks. subst chunks. unfold Services._reasoning_agent.
  destruct (Services.retrieved_chunks state) as [|c cs] eqn:E.
  - left. split; [reflexivity|]. eexists. split; reflexivity.
  - right. split; [discriminate|].
    unfold Services.try_except, Services.io_bind, Services.llm.
    match goal with |- context [Services.llm_invoke ext ?p] =>
      exists p; destruct (Services.llm_invoke ext p) as [a|e] eqn:El
    end.
    + left. eexists _, _. split; [reflexivity|].
      split; [reflexivity|]. split; reflexivity.
    + right. eexists _, _. split; [reflexivity|]. split; reflexivity.
Qed.

Lemma make_citation_cites (chunk : Services.RetrievedChunk) :
  cites chunk (Services.make_citation chunk).
Proof. repeat split. Qed.

Lemma citations_of_chunks (chunks : list Services.RetrievedChunk) :
  Forall2 cites chunks (map Services.make_citation chunks).
Proof.
  induction chunks as [|c r IH]; cbn [map]; constructor;
    [apply make_citation_cites | exact IH].
Qed.

(** C6. The synthesizer always returns a state, and every citation in it
    carries the document id, title, chunk index and page of a chunk of
    the list it was given.  When the model call succeeds, the citations
    correspond one to one, in order, to the chunks of that list, and the
    answer is the model's. *)
Theorem citations_grounded (ext : Services.Externals)
    (state : Services.AgentState) (tr : list Services.event) :
  exists s' tr',
    Services._reasoning_agent ext state tr = (Ok s', tr')
    /\ (forall c, In c (Services.citations s') ->
          exists chunk,
            In chunk (Services.retrieved_chunks state) /\ cites chunk c)
    /\ (forall prompt answer,
          tr' = tr ++ [Services.LlmCall prompt] ->
          Services.llm_invoke ext prompt = Ok answer ->
          Forall2 cites (Services.retrieved_chunks state)
                  (Services.citations s')
          /\ Services.answer s' = answer).
Proof.
  destruct (reasoning_agent_result ext state tr)
    as [[Hnil (s' & E & Hc)]
       | [Hne (prompt & [(a & s' & El & E & Ha & Hc)
                        | (e & s' & El & E & Hc)])]].
  - exists s', tr. split; [exact E|]. split.
    + rewrite Hc. intros c [].
    + intros p a Htr _. exfalso.
      apply (f_equal (@List.length _)) in Htr.
      rewrite length_app in Htr. cbn in Htr. lia.
  - exists s', (tr ++ [Services.LlmCall prompt]). split; [exact E|]. split.
    + rewrite Hc. intros c Hin. apply in_map_iff in Hin.
      destruct Hin as (chunk & <- & Hin). exists chunk.
      split; [exact Hin | apply make_citation_cites].
    + intros p a' Htr Hl. apply app_inv_head in Htr.
      injection Htr as <-. rewrite El in Hl. injection Hl as <-.
      split; [|exact Ha]. rewrite Hc. apply citations_of_chunks.
  - exists s', (tr ++ [Services.LlmCall prompt]). split; [exact E|]. split.
    + rewrite Hc. intros c [].
    + intros p a' Htr Hl. apply app_inv_head in Htr.
      injection Htr as <-. rewrite El in Hl. discriminate.
Qed.

Lemma citations_grounded_witness :
  exists s' tr',
    Services._reasoning_agent Examples.empty_corpus_ok Examples.short_state []
    = (Ok s', tr')
    /\ Forall2 cites [Examples.short_chunk] (Services.citations s')
    /\ Services.answer s' = py "An answer.".
Proof.
  destruct (citations_grounded Examples.empty_corpus_ok Examples.short_state [])
    as (s' & tr' & E & _ & H).
  exists s', tr'. split; [exact E|].
  pose proof E as E'. vm_compute in E'. injection E' as _ Htr.
  eapply H; [rewrite <- Htr; reflexivity | reflexivity].
Defined.

(** *** Snippets *)

(** [DocumentChunk.get_snippet] cuts and marks long texts only. *)
Lemma get_snippet_spec (chunk : Domain.DocumentChunk) :
  let text := Domain.text chunk in
  ((List.length text <= 200)%nat -> Domain.get_snippet chunk 200 = text)
  /\ ((200 < List.length text)%nat ->
      Domain.get_snippet chunk 200 = firstn 200 text ++ py "...").
Proof.
  intros text. subst text. unfold Domain.get_snippet. split; intros H.
  - destruct (Z.leb_spec (Z.of_nat (List.length (Domain.text chunk))) 200);
      [reflexivity | lia].
  - destruct (Z.leb_spec (Z.of_nat (List.length (Domain.text chunk))) 200);
      [lia | reflexivity].
Qed.

(** The citation snippet of [_reasoning_agent] is the first 200 characters
    followed by the marker, whatever the length of the text. *)
Lemma citation_snippet_always_marked (chunk : Services.RetrievedChunk) :
  Services.cit_snippet (Services.make_citation chunk)
  = firstn 200 (Services.rc_text chunk) ++ py "...".
Proof. reflexivity. Qed.

(** C9, at the failing input: a chunk whose text is "Short text" (10
    characters).  The citation built by [_reasoning_agent] has the snippet
    "Short text...", with the marker, where [get_snippet] of the domain
    entity returns the text as it is. *)
Theorem short_text_snippet_is_marked :
  (exists s' tr',
     Services._reasoning_agent Examples.empty_corpus_ok Examples.short_state []
     = (Ok s', tr')
     /\ map Services.cit_snippet (Services.citations s')
        = [py "Short text..."])
  /\ List.length (Services.rc_text Examples.short_chunk) = 10%nat
  /\ Domain.get_snippet Examples.short_domain_chunk 200 = py "Short text".
Proof.
  split; [|split; reflexivity].
  eexists _, _. split; [vm_compute; reflexivity | reflexivity].
Qed.

End OrchestratorSpec.

(** ** The reranker *)

Module RerankSpec.
Import Py PyFacts Spec.

(** The code's combined score is the design's. *)
Lemma combined_score_spec (selected : list V3.RetrievalResult)
    (c : V3.RetrievalResult) :
  V3.combined_score selected c = combined selected c.
Proof.
  unfold V3.combined_score, combined, V3._calculate_diversity, diversity.
  destruct selected; reflexivity.
Qed.



(** *** The inner scan keeps the first candidate of greatest score *)

Lemma scan_spec (selected : list V3.RetrievalResult)
    (l : list V3.RetrievalResult) :
  forall (bc : option V3.RetrievalResult) (bs : Q),
    (fold_left (V3.scan_step selected) l (bc, bs) = (bc, bs)
     /\ forall c, In c l -> V3.combined_score selected c <= bs)
    \/ exists pre best post,
         l = pre ++ best :: post
         /\ fold_left (V3.scan_step selected) l (bc, bs)
            = (Some best, V3.combined_score selected best)
         /\ bs < V3.combined_score selected best
         /\ (forall c, In c pre ->
               V3.combined_score selected c
               < V3.combined_score selected best)
         /\ (forall c, In c post ->
               V3.combined_score selected c
               <= V3.combined_score selected best).
Proof.
  induction l as [|x r IH]; intros bc bs; cbn [fold_left].
  - left. split; [reflexivity | intros c []].
  - change (V3.scan_step selected (bc, bs) x)
      with (if Qltb bs (V3.combined_score selected x)
            then (Some x, V3.combined_score selected x) else (bc, bs)).
    destruct (Qltb bs (V3.combined_score selected x)) eqn:E.
    + apply Qltb_true in E. right.
      destruct (IH (Some x) (V3.combined_score selected x))
        as [[Heq Hall] | (pre & best & post & Hl & Heq & Hlt & Hpre & Hpost)].
      * exists [], x, r. split; [reflexivity|]. split; [exact Heq|].
        split; [exact E|]. split; [intros c [] | exact Hall].
      * exists (x :: pre), best, post. subst r. split; [reflexivity|].
        split; [exact Heq|]. split; [eapply Qlt_trans; eauto|].
        split; [|exact Hpost]. intros c [<- | Hc]; auto.
    + apply Qltb_false in E.
      destruct (IH bc bs)
        as [[Heq Hall] | (pre & best & post & Hl & Heq & Hlt & Hpre & Hpost)].
      * left. split; [exact Heq|]. intros c [<- | Hc]; auto.
      * right. exists (x :: pre), best, post. subst r. split; [reflexivity|].
        split; [exact Heq|]. split; [exact Hlt|]. split; [|exact Hpost].
        intros c [<- | Hc]; auto. eapply Qle_lt_trans; eauto.
Qed.

Lemma best_candidate_some (selected remaining : list V3.RetrievalResult)
    (best : V3.RetrievalResult) :
  V3.best_candidate selected remaining = Some best ->
  exists pre post,
    remaining = pre ++ best :: post
    /\ (forall c, In c pre ->
          V3.combined_score selected c < V3.combined_score selected best)
    /\ (forall c, In c post ->
          V3.combined_score selected c <= V3.combined_score selected best).
Proof.
  unfold V3.best_candidate. intros H.
  destruct (scan_spec selected remaining None (- (1)))
    as [[Heq _] | (pre & b & post & Hl & Heq & _ & Hpre & Hpost)];
    rewrite Heq in H; cbn in H; [discriminate|].
  injection H as <-. now exists pre, post.
Qed.


(** *** Equality of results and [list.remove] *)

Lemma pyval_eqb_refl (v : pyval) : pyval_eqb v v = true.
Proof.
  destruct v; simpl; [now apply str_eqb_eq | apply Z.eqb_refl].
Qed.

Lemma dict_eqb_refl (d : pydict pystr pyval) :
  dict_eqb str_eqb pyval_eqb d d = true.
Proof.
  unfold dict_eqb. rewrite Nat.eqb_refl. cbn [andb].
  apply forallb_forall. intros k _.
  destruct (dict_lookup str_eqb k d); [apply pyval_eqb_refl | reflexivity].
Qed.

Lemma result_eqb_refl (r : V3.RetrievalResult) : V3.result_eqb r r = true.
Proof.
  unfold V3.result_eqb, V3.chunk_eqb.
  rewrite !(proj2 (str_eqb_eq _ _) eq_refl), Z.eqb_refl, dict_eqb_refl.
  cbn [andb]. rewrite andb_true_r. apply Qeq_bool_iff. reflexivity.
Qed.

Lemma result_eqb_combined (selected : list V3.RetrievalResult)
    (a b : V3.RetrievalResult) :
  V3.result_eqb a b = true ->
  V3.combined_score selected a == V3.combined_score selected b.
Proof.
  unfold V3.result_eqb, V3.chunk_eqb. rewrite !andb_true_iff.
  intros [[[[[[_ Hd] _] _] _] Hs] _].
  apply str_eqb_eq in Hd. apply Qeq_bool_iff in Hs.
  unfold V3.combined_score, V3._calculate_diversity. rewrite Hd, Hs.
  reflexivity.
Qed.

Lemma list_remove_spec (best : V3.RetrievalResult)
    (pre post : list V3.RetrievalResult) :
  (forall c, In c pre -> V3.result_eqb c best = false) ->
  V3.list_remove best (pre ++ best :: post) = Ok (pre ++ post).
Proof.
  induction pre as [|y pre IH]; intros H; cbn [app V3.list_remove].
  - now rewrite result_eqb_refl.
  - rewrite (H y (or_introl eq_refl)), IH by (intros; apply H; now right).
    reflexivity.
Qed.

(** After the scan, [remaining.remove(best_candidate)] takes out the very
    element the scan chose. *)
Lemma remove_best (selected remaining : list V3.RetrievalResult)
    (best : V3.RetrievalResult) :
  V3.best_candidate selected remaining = Some best ->
  exists pre post,
    remaining = pre ++ best :: post
    /\ V3.list_remove best remaining = Ok (pre ++ post)
    /\ forall c, In c remaining -> combined selected c <= combined selected best.
Proof.
  intros H. destruct (best_candidate_some _ _ H) as (pre & post & -> & Hpre & Hpost).
  exists pre, post. split; [reflexivity|]. split.
  - apply list_remove_spec. intros c Hc.
    destruct (V3.result_eqb c best) eqn:E; [|reflexivity].
    apply (result_eqb_combined selected) in E.
    specialize (Hpre c Hc). rewrite E in Hpre.
    exfalso. exact (Qlt_irrefl _ Hpre).
  - intros c Hc. rewrite <- !combined_score_spec.
    apply in_app_or in Hc. destruct Hc as [Hc | [<- | Hc]].
    + apply Qlt_le_weak. auto.
    + apply Qle_refl.
    + auto.
Qed.

(** *** The selection loop *)

Lemma loop_guard (K : Z) (selected remaining : list V3.RetrievalResult) :
  ((Z.of_nat (List.length selected) <? K)%Z
   && negb (Nat.eqb (List.length remaining) 0)) = true ->
  (Z.of_nat (List.length selected) < K)%Z /\ remaining <> [].
Proof.
  rewrite andb_true_iff, Z.ltb_lt, negb_true_iff, Nat.eqb_neq.
  intros [H1 H2]. split; [exact H1|]. intros ->. now apply H2.
Qed.




Lemma or_Z_positive (K d : Z) : (1 <= K)%Z -> V3.or_Z (Some K) d = K.
Proof. destruct K; [lia | reflexivity | lia]. Qed.





End RerankSpec.


Module FloatFacts.
Import Py PyFacts Float.

(** *** Rounding to the nearest integer *)

Ltac qcmp H :=
  match type of H with
  | Qcompare _ _ = Eq => apply (proj2 (Qeq_alt _ _)) in H
  | Qcompare _ _ = Lt => apply (proj2 (Qlt_alt _ _)) in H
  | Qcompare _ _ = Gt => apply (proj2 (Qgt_alt _ _)) in H
  end.

Lemma rne_cases (y : Q) :
  (rne y = Qfloor y /\ y - inject_Z (Qfloor y) <= 1 # 2)
  \/ (rne y = (Qfloor y + 1)%Z /\ 1 # 2 <= y - inject_Z (Qfloor y)).
Proof.
  unfold rne.
  destruct (Qcompare (y - inject_Z (Qfloor y)) (1 # 2)) eqn:E.
  - apply Qeq_alt in E.
    destruct (Z.even (Qfloor y)); [left | right]; split;
      try reflexivity; rewrite E; apply Qle_refl.
  - apply Qlt_alt in E. left. split; [reflexivity | now apply Qlt_le_weak].
  - apply Qgt_alt in E. right. split; [reflexivity | now apply Qlt_le_weak].
Qed.

Lemma rne_proper (y1 y2 : Q) : y1 == y2 -> rne y1 = rne y2.
Proof.
  intros H. unfold rne.
  assert (Hf : Qfloor y1 = Qfloor y2) by now apply Qfloor_comp.
  rewrite Hf.
  assert (Hc : Qcompare (y1 - inject_Z (Qfloor y2)) (1 # 2)
               = Qcompare (y2 - inject_Z (Qfloor y2)) (1 # 2)).
  { apply Qcompare_comp; [now rewrite H | reflexivity]. }
  now rewrite Hc.
Qed.

Lemma rne_int (z : Z) (y : Q) : y == inject_Z z -> rne y = z.
Proof.
  intros H. rewrite (rne_proper H). unfold rne. rewrite Qfloor_Z.
  assert (Hc : Qcompare (inject_Z z - inject_Z z) (1 # 2) = Lt).
  { apply Qlt_alt. setoid_replace (inject_Z z - inject_Z z) with 0 by ring.
    reflexivity. }
  now rewrite Hc.
Qed.

Lemma floor_frac (y : Q) :
  inject_Z (Qfloor y) <= y /\ y < inject_Z (Qfloor y) + 1.
Proof.
  split; [apply Qfloor_le|].
  pose proof (Qlt_floor y) as H. rewrite inject_Z_plus in H. exact H.
Qed.

Lemma rne_mono (y1 y2 : Q) : y1 <= y2 -> (rne y1 <= rne y2)%Z.
Proof.
  intros H.
  assert (Hf : (Qfloor y1 <= Qfloor y2)%Z) by now apply Qfloor_resp_le.
  destruct (Z.eq_dec (Qfloor y1) (Qfloor y2)) as [Heq | Hne].
  - unfold rne. rewrite <- Heq.
    destruct (Qcompare (y1 - inject_Z (Qfloor y1)) (1 # 2)) eqn:E1;
      destruct (Qcompare (y2 - inject_Z (Qfloor y1)) (1 # 2)) eqn:E2;
      try (destruct (Z.even (Qfloor y1))); try lia; exfalso;
      qcmp E1; qcmp E2; lra.
  - destruct (rne_cases y1) as [[-> _] | [-> _]];
      destruct (rne_cases y2) as [[-> _] | [-> _]]; lia.
Qed.

Lemma rne_ge (z : Z) (y : Q) : inject_Z z <= y -> (z <= rne y)%Z.
Proof.
  intros H. pose proof (rne_mono H) as Hm.
  rewrite (@rne_int z (inject_Z z)) in Hm by reflexivity. exact Hm.
Qed.

Lemma rne_le (z : Z) (y : Q) : y <= inject_Z z -> (rne y <= z)%Z.
Proof.
  intros H. pose proof (rne_mono H) as Hm.
  rewrite (@rne_int z (inject_Z z)) in Hm by reflexivity. exact Hm.
Qed.

(** *** Rounding to 53 significant bits *)

Lemma pow2_pos (k : Z) : (0 <= k)%Z -> (0 < 2 ^ k)%Z.
Proof. intros H. apply Z.pow_pos_nonneg; lia. Qed.

Lemma Qdiv_pos_le (a b : Q) (p : Z) :
  (0 < p)%Z -> a <= b -> a / inject_Z p <= b / inject_Z p.
Proof.
  intros Hp H. apply Qmult_le_compat_r; [exact H|].
  apply Qinv_le_0_compat. change 0 with (inject_Z 0).
  rewrite <- Zle_Qle. lia.
Qed.

Lemma Qdiv_inject (a p : Z) :
  (0 < p)%Z -> inject_Z (a * p) / inject_Z p == inject_Z a.
Proof.
  intros Hp. rewrite inject_Z_mult. field.
  change 0 with (inject_Z 0). rewrite inject_Z_injective. lia.
Qed.

Lemma rnd_units_eq (x : Q) :
  rnd_units x = (rne (x / inject_Z (2 ^ ulp_exp x)) * 2 ^ ulp_exp x)%Z.
Proof. reflexivity. Qed.

Lemma ulp_exp_nonneg (x : Q) : (0 <= ulp_exp x)%Z.
Proof. unfold ulp_exp. lia. Qed.

Lemma ulp_exp_mono (x1 x2 : Q) : x1 <= x2 -> (ulp_exp x1 <= ulp_exp x2)%Z.
Proof.
  intros H. unfold ulp_exp.
  pose proof (Z.log2_le_mono _ _ (Qfloor_resp_le _ _ H)). lia.
Qed.

Lemma rnd_units_proper (x1 x2 : Q) : x1 == x2 -> rnd_units x1 = rnd_units x2.
Proof.
  intros H. rewrite !rnd_units_eq. unfold ulp_exp.
  rewrite (Qfloor_comp _ _ H). f_equal. apply rne_proper. now rewrite H.
Qed.

Lemma rnd_units_nonneg (x : Q) : 0 <= x -> (0 <= rnd_units x)%Z.
Proof.
  intros H. rewrite rnd_units_eq.
  pose proof (pow2_pos (ulp_exp_nonneg x)) as Hp.
  apply Z.mul_nonneg_nonneg; [|lia].
  apply rne_ge. change (inject_Z 0) with 0.
  apply Qmult_le_0_compat; [exact H|].
  apply Qinv_le_0_compat. change 0 with (inject_Z 0).
  rewrite <- Zle_Qle. lia.
Qed.

Lemma below_next_binade (x : Q) :
  0 <= x -> x <= inject_Z (2 ^ (ulp_exp x + 53)).
Proof.
  intros H.
  assert (Hn : (0 <= Qfloor x)%Z).
  { change 0%Z with (Qfloor 0). now apply Qfloor_resp_le. }
  assert (Hlt : (Qfloor x < 2 ^ (ulp_exp x + 53))%Z).
  { destruct (Z.eq_dec (Qfloor x) 0) as [E | E].
    - rewrite E. apply pow2_pos. pose proof (ulp_exp_nonneg x). lia.
    - destruct (Z.log2_spec (Qfloor x)) as [_ Hup]; [lia|].
      eapply Z.lt_le_trans; [exact Hup|].
      apply Z.pow_le_mono_r; [lia|]. unfold ulp_exp. lia. }
  apply Qlt_le_weak. eapply Qlt_le_trans; [apply (proj2 (floor_frac x))|].
  change 1 with (inject_Z 1). rewrite <- inject_Z_plus, <- Zle_Qle. lia.
Qed.

Lemma rnd_units_upper (x : Q) :
  0 <= x -> (rnd_units x <= 2 ^ (ulp_exp x + 53))%Z.
Proof.
  intros H. rewrite rnd_units_eq.
  pose proof (ulp_exp_nonneg x) as Hk.
  pose proof (pow2_pos Hk) as Hp.
  rewrite Z.pow_add_r by lia. rewrite (Z.mul_comm (2 ^ ulp_exp x)).
  apply Z.mul_le_mono_nonneg_r; [lia|].
  apply rne_le.
  rewrite <- (@Qdiv_inject (2 ^ 53) (2 ^ ulp_exp x)) by exact Hp.
  apply Qdiv_pos_le; [exact Hp|].
  rewrite Z.mul_comm, <- Z.pow_add_r by lia.
  now apply below_next_binade.
Qed.

Lemma rnd_units_lower (x : Q) :
  (0 < ulp_exp x)%Z -> (2 ^ (ulp_exp x + 52) <= rnd_units x)%Z.
Proof.
  intros Hk. rewrite rnd_units_eq.
  pose proof (pow2_pos (ulp_exp_nonneg x)) as Hp.
  rewrite Z.pow_add_r by lia. rewrite (Z.mul_comm (2 ^ ulp_exp x)).
  apply Z.mul_le_mono_nonneg_r; [lia|].
  apply rne_ge.
  rewrite <- (@Qdiv_inject (2 ^ 52) (2 ^ ulp_exp x)) by exact Hp.
  apply Qdiv_pos_le; [exact Hp|].
  rewrite Z.mul_comm, <- Z.pow_add_r by lia.
  assert (Hn : (0 < Qfloor x)%Z).
  { unfold ulp_exp in Hk.
    destruct (Z.le_gt_cases (Qfloor x) 0) as [Hle | Hgt]; [|exact Hgt].
    rewrite (Z.log2_nonpos _ Hle) in Hk. lia. }
  destruct (Z.log2_spec _ Hn) as [Hlow _].
  eapply Qle_trans; [|apply Qfloor_le]. rewrite <- Zle_Qle.
  replace (ulp_exp x + 52)%Z with (Z.log2 (Qfloor x)); [exact Hlow|].
  unfold ulp_exp in *. lia.
Qed.

Lemma rnd_units_mono (x1 x2 : Q) :
  0 <= x1 -> x1 <= x2 -> (rnd_units x1 <= rnd_units x2)%Z.
Proof.
  intros H0 H.
  pose proof (ulp_exp_mono H) as Hk.
  destruct (Z.eq_dec (ulp_exp x1) (ulp_exp x2)) as [E | E].
  - rewrite !rnd_units_eq, E.
    pose proof (pow2_pos (ulp_exp_nonneg x2)) as Hp.
    apply Z.mul_le_mono_nonneg_r; [lia|].
    apply rne_mono. now apply Qdiv_pos_le.
  - pose proof (ulp_exp_nonneg x1) as Hk1.
    eapply Z.le_trans; [apply (rnd_units_upper H0)|].
    eapply Z.le_trans; [|apply rnd_units_lower; lia].
    apply Z.pow_le_mono_r; lia.
Qed.

Lemma rnd_units_int (z : Z) :
  (1 <= z)%Z -> (1 <= rnd_units (inject_Z z))%Z.
Proof.
  intros Hz.
  destruct (Z.eq_dec (ulp_exp (inject_Z z)) 0) as [E | E].
  - rewrite rnd_units_eq, E. change (2 ^ 0)%Z with 1%Z.
    rewrite Z.mul_1_r, (@rne_int z); [exact Hz|].
    change (inject_Z 1) with 1. field.
  - pose proof (ulp_exp_nonneg (inject_Z z)) as Hk.
    eapply Z.le_trans; [|apply rnd_units_lower; lia].
    pose proof (@pow2_pos (ulp_exp (inject_Z z) + 52)). lia.
Qed.

(** *** binary64 satisfies the laws of rounding *)

Lemma units_pos : 0 < inject_Z units.
Proof. change 0 with (inject_Z 0). rewrite <- Zlt_Qlt. reflexivity. Qed.

Lemma rnd64_nonneg (q : Q) :
  0 <= q -> rnd64 q == inject_Z (rnd_units (q * inject_Z units))
                       / inject_Z units.
Proof.
  intros H. unfold rnd64. rewrite Qred_correct.
  assert (Hx : 0 <= q * inject_Z units).
  { apply Qmult_le_0_compat; [exact H | apply Qlt_le_weak, units_pos]. }
  apply Qle_bool_iff in Hx. now rewrite Hx.
Qed.

Lemma rnd64_neg (q : Q) :
  q < 0 -> rnd64 q == - (inject_Z (rnd_units (- (q * inject_Z units)))
                         / inject_Z units).
Proof.
  intros H. unfold rnd64. rewrite Qred_correct.
  assert (Hx : Qle_bool 0 (q * inject_Z units) = false).
  { destruct (Qle_bool 0 (q * inject_Z units)) eqn:E; [|reflexivity].
    apply Qle_bool_iff in E. exfalso.
    pose proof units_pos as Hu.
    assert (q * inject_Z units < 0); [|lra].
    setoid_replace 0 with (0 * inject_Z units) by ring.
    now apply Qmult_lt_compat_r. }
  now rewrite Hx.
Qed.

Lemma div_units_le (a b : Z) :
  (a <= b)%Z -> inject_Z a / inject_Z units <= inject_Z b / inject_Z units.
Proof.
  intros H. apply Qdiv_pos_le; [reflexivity|]. now rewrite <- Zle_Qle.
Qed.

Lemma rnd64_sign_nonneg (q : Q) : 0 <= q -> 0 <= rnd64 q.
Proof.
  intros H. rewrite (rnd64_nonneg H).
  setoid_replace 0 with (inject_Z 0 / inject_Z units)
    by (unfold Qdiv; ring).
  apply div_units_le, rnd_units_nonneg.
  apply Qmult_le_0_compat; [exact H | apply Qlt_le_weak, units_pos].
Qed.

Lemma rnd64_sign_neg (q : Q) : q < 0 -> rnd64 q <= 0.
Proof.
  intros H. rewrite (rnd64_neg H).
  assert (Hx : 0 <= - (q * inject_Z units)).
  { pose proof units_pos as Hu.
    setoid_replace (- (q * inject_Z units)) with ((- q) * inject_Z units)
      by ring.
    apply Qmult_le_0_compat; lra. }
  pose proof (div_units_le (rnd_units_nonneg Hx)) as Hd.
  setoid_replace (inject_Z 0 / inject_Z units) with 0 in Hd
    by (unfold Qdiv; ring).
  lra.
Qed.

Lemma rnd64_mono (a b : Q) : a <= b -> rnd64 a <= rnd64 b.
Proof.
  intros H. pose proof units_pos as Hu.
  destruct (Qlt_le_dec a 0) as [Ha | Ha];
    destruct (Qlt_le_dec b 0) as [Hb | Hb].
  - rewrite (rnd64_neg Ha), (rnd64_neg Hb).
    apply Qopp_le_compat, div_units_le, rnd_units_mono.
    + setoid_replace (- (b * inject_Z units)) with ((- b) * inject_Z units)
        by ring.
      apply Qmult_le_0_compat; lra.
    + apply Qopp_le_compat. apply Qmult_le_compat_r; lra.
  - eapply Qle_trans; [apply (rnd64_sign_neg Ha) | apply (rnd64_sign_nonneg Hb)].
  - lra.
  - rewrite (rnd64_nonneg Ha), (rnd64_nonneg Hb).
    apply div_units_le, rnd_units_mono.
    + apply Qmult_le_0_compat; lra.
    + apply Qmult_le_compat_r; lra.
Qed.

Lemma rnd_proper_64 (a b : Q) : a == b -> rnd64 a == rnd64 b.
Proof.
  intros H. apply Qle_antisym; apply rnd64_mono; rewrite H; apply Qle_refl.
Qed.

(** A binary64 number is a whole number of units. *)
Lemma rnd64_whole (q : Q) :
  exists z, rnd64 q * inject_Z units == inject_Z z.
Proof.
  pose proof units_pos as Hu.
  destruct (Qlt_le_dec q 0) as [Hq | Hq].
  - exists (- rnd_units (- (q * inject_Z units)))%Z.
    rewrite (rnd64_neg Hq), inject_Z_opp. field. lra.
  - exists (rnd_units (q * inject_Z units)).
    rewrite (rnd64_nonneg Hq). field. lra.
Qed.

Lemma rnd64_zero_units (z : Z) (q : Q) :
  q * inject_Z units == inject_Z z -> rnd64 q == 0 -> z = 0%Z.
Proof.
  intros Hz H0. pose proof units_pos as Hu.
  assert (Hdiv : forall n : Z,
            inject_Z n / inject_Z units == 0 -> n = 0%Z).
  { intros n Hn.
    assert (Hn' : inject_Z n == 0).
    { setoid_replace (inject_Z n)
        with (inject_Z n / inject_Z units * inject_Z units) by (field; lra).
      rewrite Hn. ring. }
    unfold Qeq in Hn'. cbn [Qnum Qden inject_Z] in Hn'. lia. }
  destruct (Qlt_le_dec q 0) as [Hq | Hq].
  - rewrite (rnd64_neg Hq) in H0.
    assert (Hu0 : rnd_units (- (q * inject_Z units)) = 0%Z).
    { apply Hdiv. lra. }
    rewrite (@rnd_units_proper _ (inject_Z (- z))) in Hu0
      by (rewrite inject_Z_opp, Hz; reflexivity).
    destruct (Z.le_gt_cases 1 (- z)) as [H1 | H1].
    + pose proof (rnd_units_int H1). lia.
    + assert (Hneg : q * inject_Z units < 0).
      { setoid_replace 0 with (0 * inject_Z units) by ring.
        now apply Qmult_lt_compat_r. }
      rewrite Hz in Hneg. change 0 with (inject_Z 0) in Hneg.
      rewrite <- Zlt_Qlt in Hneg. lia.
  - rewrite (rnd64_nonneg Hq) in H0.
    assert (Hu0 : rnd_units (q * inject_Z units) = 0%Z) by now apply Hdiv.
    rewrite (rnd_units_proper Hz) in Hu0.
    destruct (Z.le_gt_cases 1 z) as [H1 | H1].
    + pose proof (rnd_units_int H1). lia.
    + assert (Hnn : 0 <= q * inject_Z units).
      { apply Qmult_le_0_compat; lra. }
      rewrite Hz in Hnn. change 0 with (inject_Z 0) in Hnn.
      rewrite <- Zle_Qle in Hnn. lia.
Qed.

Lemma rnd64_sub_zero (a b : Q) :
  rnd64 a == a -> rnd64 b == b -> rnd64 (a - b) == 0 -> a == b.
Proof.
  intros Ha Hb H0. pose proof units_pos as Hu.
  destruct (rnd64_whole a) as (za & Hza).
  destruct (rnd64_whole b) as (zb & Hzb).
  rewrite Ha in Hza. rewrite Hb in Hzb.
  assert (Hz : (a - b) * inject_Z units == inject_Z (za - zb)).
  { unfold Z.sub. rewrite inject_Z_plus, inject_Z_opp, <- Hza, <- Hzb. ring. }
  pose proof (rnd64_zero_units Hz H0) as Hd.
  assert (Heq : a * inject_Z units == b * inject_Z units).
  { rewrite Hza, Hzb. replace za with zb by lia. reflexivity. }
  apply Qmult_inj_r in Heq; [exact Heq | lra].
Qed.

(** Rounding a whole number of units that is the result of a rounding
    gives it back. *)
Lemma rnd_units_idem (x : Q) :
  0 <= x -> rnd_units (inject_Z (rnd_units x)) = rnd_units x.
Proof.
  intros Hx.
  pose proof (ulp_exp_nonneg x) as Hk.
  pose proof (pow2_pos Hk) as Hp.
  pose proof (rnd_units_nonneg Hx) as Hz0.
  pose proof (rnd_units_upper Hx) as Hup.
  set (z := rnd_units x) in *.
  set (k := ulp_exp x) in *.
  assert (Hz : z = (rne (x / inject_Z (2 ^ k)) * 2 ^ k)%Z) by reflexivity.
  set (m := rne (x / inject_Z (2 ^ k))) in *.
  assert (Hm0 : (0 <= m)%Z) by nia.
  assert (Hm53 : (m <= 2 ^ 53)%Z).
  { rewrite Z.pow_add_r, Hz in Hup by lia. nia. }
  assert (Hfloor : Qfloor (inject_Z z) = z) by apply Qfloor_Z.
  assert (Hgoal : forall k', ulp_exp (inject_Z z) = k' ->
            (exists m', z = (m' * 2 ^ k')%Z) -> rnd_units (inject_Z z) = z).
  { intros k' Ek (m' & Em'). rewrite rnd_units_eq, Ek.
    assert (Hk' : (0 <= k')%Z) by (rewrite <- Ek; apply ulp_exp_nonneg).
    pose proof (pow2_pos Hk') as Hp'.
    rewrite (@rne_int m'); [now rewrite <- Em'|].
    rewrite Em'. now apply Qdiv_inject. }
  destruct (Z.eq_dec m (2 ^ 53)) as [E53 | N53].
  - apply (Hgoal (k + 1)%Z).
    + unfold ulp_exp. rewrite Hfloor.
      assert (Hlog : Z.log2 z = (k + 53)%Z).
      { rewrite Hz, E53, <- Z.pow_add_r by lia.
        rewrite (Z.add_comm 53 k). apply Z.log2_pow2. lia. }
      rewrite Hlog. lia.
    + exists (2 ^ 52)%Z. rewrite Hz, E53, <- !Z.pow_add_r by lia.
      f_equal. lia.
  - apply (Hgoal k); [|now exists m].
    unfold ulp_exp. rewrite Hfloor.
    destruct (Z.eq_dec k 0) as [Ek0 | Nk0].
    + assert (Hzm : z = m) by (rewrite Hz, Ek0; change (2 ^ 0)%Z with 1%Z; lia).
      destruct (Z.eq_dec z 0) as [Ez | Nz]; [rewrite Ez; cbn; lia|].
      assert (Hlog : (Z.log2 z < 53)%Z).
      { apply Z.log2_lt_pow2; lia. }
      lia.
    + assert (Hlow : (2 ^ (k + 52) <= z)%Z)
        by (apply rnd_units_lower; fold k; lia).
      assert (Hhigh : (z < 2 ^ (k + 52 + 1))%Z).
      { rewrite Hz. replace (k + 52 + 1)%Z with (53 + k)%Z by lia.
        rewrite Z.pow_add_r by lia. nia. }
      rewrite (Z.log2_unique z (k + 52)) by lia. lia.
Qed.

Lemma rnd64_idem (q : Q) : rnd64 (rnd64 q) == rnd64 q.
Proof.
  pose proof units_pos as Hu.
  destruct (Qlt_le_dec q 0) as [Hq | Hq].
  - assert (Hx : 0 <= - (q * inject_Z units)).
    { setoid_replace (- (q * inject_Z units)) with ((- q) * inject_Z units)
        by ring.
      apply Qmult_le_0_compat; lra. }
    pose proof (rnd_units_nonneg Hx) as Hz.
    set (z := rnd_units (- (q * inject_Z units))) in *.
    assert (Er : rnd64 q == - (inject_Z z / inject_Z units))
      by apply (rnd64_neg Hq).
    destruct (Z.eq_dec z 0) as [E0 | N0].
    + assert (Er0 : rnd64 q == 0).
      { apply (Qeq_trans _ _ _ Er). rewrite E0. unfold Qdiv. ring. }
      apply Qeq_trans with (rnd64 0); [exact (rnd_proper_64 Er0)|].
      apply Qeq_trans with 0; [vm_compute; reflexivity|].
      apply Qeq_sym. exact Er0.
    + assert (Hneg : - (inject_Z z / inject_Z units) < 0).
      { assert (0 < inject_Z z / inject_Z units); [|lra].
        apply Qlt_shift_div_l; [exact Hu|].
        rewrite Qmult_0_l. change 0 with (inject_Z 0).
        rewrite <- Zlt_Qlt. lia. }
      apply Qeq_trans with (rnd64 (- (inject_Z z / inject_Z units)));
        [exact (rnd_proper_64 Er)|].
      apply Qeq_trans with (- (inject_Z z / inject_Z units));
        [|apply Qeq_sym; exact Er].
      apply (Qeq_trans _ _ _ (rnd64_neg Hneg)).
      apply Qopp_comp. apply Qdiv_comp; [|reflexivity].
      rewrite (@rnd_units_proper _ (inject_Z z)) by (field; lra).
      unfold z. now rewrite (rnd_units_idem Hx).
  - assert (Hx : 0 <= q * inject_Z units)
      by (apply Qmult_le_0_compat; lra).
    pose proof (rnd_units_nonneg Hx) as Hz.
    set (z := rnd_units (q * inject_Z units)) in *.
    assert (Er : rnd64 q == inject_Z z / inject_Z units)
      by apply (rnd64_nonneg Hq).
    assert (Hnn : 0 <= inject_Z z / inject_Z units).
    { apply Qle_shift_div_l; [exact Hu|].
      rewrite Qmult_0_l. change 0 with (inject_Z 0).
      rewrite <- Zle_Qle. lia. }
    apply Qeq_trans with (rnd64 (inject_Z z / inject_Z units));
      [exact (rnd_proper_64 Er)|].
    apply Qeq_trans with (inject_Z z / inject_Z units);
      [|apply Qeq_sym; exact Er].
    apply (Qeq_trans _ _ _ (rnd64_nonneg Hnn)).
    apply Qdiv_comp; [|reflexivity].
    rewrite (@rnd_units_proper _ (inject_Z z)) by (field; lra).
    unfold z. now rewrite (rnd_units_idem Hx).
Qed.

Lemma binary64_laws : Laws binary64.
Proof.
  constructor; cbn [rnd fmax binary64].
  - exact rnd64_mono.
  - exact rnd64_idem.
  - vm_compute. reflexivity.
  - vm_compute. reflexivity.
  - vm_compute. reflexivity.
  - vm_compute. discriminate.
  - exact rnd64_sub_zero.
Qed.

(** *** The order of floats *)

Ltac float_cases :=
  repeat match goal with x : pyfloat |- _ => destruct x end;
  cbn [fltb fleb feqb is_nan is_finite] in *;
  try discriminate; try reflexivity; try tauto.

Lemma fleb_Fin (a b : Q) : fleb (Fin a) (Fin b) = true <-> a <= b.
Proof. cbn. apply Qle_bool_iff. Qed.

Lemma feqb_Fin_false (a b : Q) : feqb (Fin a) (Fin b) = false <-> ~ a == b.
Proof. cbn. apply Qeq_bool_false. Qed.

Lemma fleb_not_nan (x y : pyfloat) :
  fleb x y = true -> is_nan x = false /\ is_nan y = false.
Proof. intros H. float_cases. Qed.

Lemma fleb_refl (x : pyfloat) : is_nan x = false -> fleb x x = true.
Proof. intros H. float_cases. apply Qle_bool_iff, Qle_refl. Qed.

Lemma fltb_fleb (x y : pyfloat) : fltb x y = true -> fleb x y = true.
Proof.
  intros H. float_cases. apply Qltb_true in H.
  apply Qle_bool_iff. now apply Qlt_le_weak.
Qed.

Lemma fltb_false_fleb (x y : pyfloat) :
  is_nan x = false -> is_nan y = false ->
  fltb x y = false -> fleb y x = true.
Proof.
  intros Hx Hy H. float_cases. apply Qltb_false in H.
  now apply Qle_bool_iff.
Qed.

Lemma fltb_fleb_false (x y : pyfloat) : fltb x y = true -> fleb y x = false.
Proof.
  intros H. float_cases. apply Qltb_true in H.
  match goal with
  | |- Qle_bool ?a ?b = false =>
    destruct (Qle_bool a b) eqn:E; [|reflexivity]; apply Qle_bool_iff in E
  end.
  exfalso. lra.
Qed.

Lemma fleb_trans (x y z : pyfloat) :
  fleb x y = true -> fleb y z = true -> fleb x z = true.
Proof.
  intros H1 H2. float_cases.
  apply Qle_bool_iff in H1, H2. apply Qle_bool_iff.
  eapply Qle_trans; eauto.
Qed.

Lemma fltb_fleb_trans (x y z : pyfloat) :
  fltb x y = true -> fleb y z = true -> fltb x z = true.
Proof.
  intros H1 H2. float_cases.
  apply Qltb_true in H1. apply Qle_bool_iff in H2. apply Qltb_true.
  eapply Qlt_le_trans; eauto.
Qed.

Lemma fleb_fltb_trans (x y z : pyfloat) :
  fleb x y = true -> fltb y z = true -> fltb x z = true.
Proof.
  intros H1 H2. float_cases.
  apply Qle_bool_iff in H1. apply Qltb_true in H2. apply Qltb_true.
  eapply Qle_lt_trans; eauto.
Qed.

Lemma feqb_fleb (x y : pyfloat) :
  feqb x y = true <-> fleb x y = true /\ fleb y x = true.
Proof.
  split.
  - intros H. float_cases. apply Qeq_bool_iff in H.
    split; apply Qle_bool_iff; rewrite H; apply Qle_refl.
  - intros [H1 H2]. float_cases.
    apply Qle_bool_iff in H1, H2. apply Qeq_bool_iff.
    now apply Qle_antisym.
Qed.

(** *** [min] and [max] *)

Lemma fmin_from_in (l : list pyfloat) : forall cur,
  Float.min_from cur l = cur \/ In (Float.min_from cur l) l.
Proof.
  induction l as [|y r IH]; intros cur; cbn [Float.min_from]; [now left|].
  destruct (IH (if fltb y cur then y else cur)) as [H | H];
    [|right; now right].
  rewrite H. destruct (fltb y cur); [right; now left | now left].
Qed.

Lemma fmax_from_in (l : list pyfloat) : forall cur,
  Float.max_from cur l = cur \/ In (Float.max_from cur l) l.
Proof.
  induction l as [|y r IH]; intros cur; cbn [Float.max_from]; [now left|].
  destruct (IH (if fltb cur y then y else cur)) as [H | H];
    [|right; now right].
  rewrite H. destruct (fltb cur y); [right; now left | now left].
Qed.

Lemma fmin_from_le (l : list pyfloat) : forall cur,
  is_nan cur = false -> Forall (fun x => is_nan x = false) l ->
  fleb (Float.min_from cur l) cur = true
  /\ forall x, In x l -> fleb (Float.min_from cur l) x = true.
Proof.
  induction l as [|y r IH]; intros cur Hc Hl; cbn [Float.min_from].
  - split; [now apply fleb_refl | intros x []].
  - inversion Hl as [|? ? Hy Hr]; subst.
    destruct (fltb y cur) eqn:E.
    + destruct (IH y Hy Hr) as [H1 H2]. split.
      * eapply fleb_trans; [exact H1 | now apply fltb_fleb].
      * intros x [<- | Hx]; [exact H1 | now apply H2].
    + destruct (IH cur Hc Hr) as [H1 H2]. split; [exact H1|].
      intros x [<- | Hx]; [|now apply H2].
      eapply fleb_trans; [exact H1 | now apply fltb_false_fleb].
Qed.

Lemma fmax_from_ge (l : list pyfloat) : forall cur,
  is_nan cur = false -> Forall (fun x => is_nan x = false) l ->
  fleb cur (Float.max_from cur l) = true
  /\ forall x, In x l -> fleb x (Float.max_from cur l) = true.
Proof.
  induction l as [|y r IH]; intros cur Hc Hl; cbn [Float.max_from].
  - split; [now apply fleb_refl | intros x []].
  - inversion Hl as [|? ? Hy Hr]; subst.
    destruct (fltb cur y) eqn:E.
    + destruct (IH y Hy Hr) as [H1 H2]. split.
      * apply fleb_trans with y; [exact (fltb_fleb _ _ E) | exact H1].
      * intros x [<- | Hx]; [exact H1 | now apply H2].
    + destruct (IH cur Hc Hr) as [H1 H2]. split; [exact H1|].
      intros x [<- | Hx]; [|now apply H2].
      apply fleb_trans with cur; [exact (fltb_false_fleb _ _ Hc Hy E) | exact H1].
Qed.

(** [min] and [max] of a non-empty list return one of its elements;
    without NaN in the list these are its least and greatest. *)
Lemma float_bounds (scores : list pyfloat) :
  scores <> [] ->
  exists mn mx,
    Float.py_min scores = Ok mn /\ Float.py_max scores = Ok mx
    /\ In mn scores /\ In mx scores
    /\ (Forall (fun x => is_nan x = false) scores ->
        forall s, In s scores -> fleb mn s = true /\ fleb s mx = true).
Proof.
  destruct scores as [|x r]; [congruence|]. intros _.
  exists (Float.min_from x r), (Float.max_from x r).
  split; [reflexivity|]. split; [reflexivity|].
  split; [|split].
  - destruct (fmin_from_in r x) as [-> | H]; [now left | now right].
  - destruct (fmax_from_in r x) as [-> | H]; [now left | now right].
  - intros Hall s Hs. inversion Hall as [|? ? Hx Hr]; subst.
    destruct (@fmin_from_le r x Hx Hr) as [M1 M2].
    destruct (@fmax_from_ge r x Hx Hr) as [X1 X2].
    destruct Hs as [<- | Hs]; split; auto.
Qed.

(** *** Rounding *)

Section Rounding.
Variable F : Format.
Hypothesis L : Laws F.

Lemma rnd_proper (a b : Q) : a == b -> rnd F a == rnd F b.
Proof.
  intros H. apply Qle_antisym; apply (rnd_mono L); rewrite H; apply Qle_refl.
Qed.

Lemma rnd_nonneg (q : Q) : 0 <= q -> 0 <= rnd F q.
Proof. intros H. rewrite <- (rnd_zero L). now apply (rnd_mono L). Qed.

Lemma rnd_le_one (q : Q) : q <= 1 -> rnd F q <= 1.
Proof. intros H. rewrite <- (rnd_one L). now apply (rnd_mono L). Qed.

Lemma fmax_pos : 0 < fmax F.
Proof. pose proof (fmax_one L). lra. Qed.

Lemma round_finite (q : Q) :
  - fmax F <= rnd F q <= fmax F -> round F q = Fin (rnd F q).
Proof.
  intros [H1 H2]. unfold round.
  destruct (Qltb (fmax F) (rnd F q)) eqn:E1.
  { apply Qltb_true in E1. lra. }
  destruct (Qltb (rnd F q) (- fmax F)) eqn:E2; [|reflexivity].
  apply Qltb_true in E2. lra.
Qed.

Lemma round_cases (q : Q) :
  (round F q = Fin (rnd F q) /\ - fmax F <= rnd F q <= fmax F)
  \/ (round F q = PInf /\ fmax F < rnd F q)
  \/ (round F q = NInf /\ rnd F q < - fmax F).
Proof.
  unfold round.
  destruct (Qltb (fmax F) (rnd F q)) eqn:E1.
  { apply Qltb_true in E1. right. left. now split. }
  destruct (Qltb (rnd F q) (- fmax F)) eqn:E2.
  { apply Qltb_true in E2. right. right. now split. }
  apply Qltb_false in E1, E2. left. split; [reflexivity | now split].
Qed.

Lemma round_unit (q : Q) :
  0 <= q <= 1 -> round F q = Fin (rnd F q) /\ 0 <= rnd F q <= 1.
Proof.
  intros [H0 H1].
  pose proof (rnd_nonneg H0) as R0. pose proof (rnd_le_one H1) as R1.
  pose proof (fmax_one L) as Hm.
  split; [apply round_finite; lra | now split].
Qed.

Lemma round_nonneg (q : Q) : 0 <= q -> fleb (Fin 0) (round F q) = true.
Proof.
  intros H. pose proof (rnd_nonneg H) as R. pose proof fmax_pos as Hm.
  destruct (round_cases q) as [[-> _] | [[-> _] | [_ Hlt]]].
  - now apply fleb_Fin.
  - reflexivity.
  - lra.
Qed.

Lemma round_mono (a b : Q) :
  a <= b -> fleb (round F a) (round F b) = true.
Proof.
  intros H. pose proof (rnd_mono L H) as R. pose proof fmax_pos as Hm.
  destruct (round_cases a) as [[-> Ha] | [[-> Ha] | [-> Ha]]];
    destruct (round_cases b) as [[-> Hb] | [[-> Hb] | [-> Hb]]];
    try reflexivity; try (apply fleb_Fin; exact R); exfalso; lra.
Qed.

Lemma feq_refl (x : pyfloat) : feq x x.
Proof. destruct x; cbn; try exact I. reflexivity. Qed.

Lemma Qeq_bool_proper_l (c a b : Q) :
  a == b -> Qeq_bool a c = Qeq_bool b c.
Proof.
  intros H. destruct (Qeq_bool b c) eqn:E.
  - apply Qeq_bool_iff. apply Qeq_bool_iff in E. now rewrite H.
  - apply Qeq_bool_false. apply Qeq_bool_false in E. now rewrite H.
Qed.

Lemma Qltb_proper_r (c a b : Q) : a == b -> Qltb c a = Qltb c b.
Proof.
  intros H. destruct (Qltb c b) eqn:E.
  - apply Qltb_true. apply Qltb_true in E. now rewrite <- H in E.
  - apply Qltb_false. apply Qltb_false in E. now rewrite <- H in E.
Qed.

(** Equal exact results round to the same float. *)
Lemma round_feq (a b : Q) : a == b -> feq (round F a) (round F b).
Proof.
  intros H. pose proof (rnd_proper H) as R. pose proof fmax_pos as Hm.
  destruct (round_cases a) as [[-> Ha] | [[-> Ha] | [-> Ha]]];
    destruct (round_cases b) as [[-> Hb] | [[-> Hb] | [-> Hb]]];
    cbn [feq]; try exact R; try exact I; lra.
Qed.

Lemma fmul_feq_r (x y y' : pyfloat) :
  feq y y' -> feq (fmul F x y) (fmul F x y').
Proof.
  intros H. destruct x as [a| | |], y as [b| | |], y' as [b'| | |];
    cbn [feq fmul] in *; try tauto; try apply feq_refl.
  - apply round_feq. now rewrite H.
  - rewrite (Qeq_bool_proper_l 0 H). destruct (Qeq_bool b' 0); [exact I|].
    unfold inf_of_sign. rewrite (Qltb_proper_r 0 H). apply feq_refl.
  - rewrite (Qeq_bool_proper_l 0 H). destruct (Qeq_bool b' 0); [exact I|].
    unfold inf_of_sign.
    assert (H' : - b == - b') by now rewrite H.
    rewrite (Qltb_proper_r 0 H'). apply feq_refl.
Qed.

Lemma fadd_feq_l (x x' y : pyfloat) :
  feq x x' -> feq (fadd F x y) (fadd F x' y).
Proof.
  intros H. destruct x as [a| | |], x' as [a'| | |], y as [b| | |];
    cbn [feq fadd] in *; try tauto; try apply feq_refl.
  apply round_feq. now rewrite H.
Qed.

End Rounding.

Lemma feqb_feq (x y : pyfloat) : feqb x y = true -> feq x y.
Proof.
  destruct x, y; cbn; try discriminate; try tauto. apply Qeq_bool_iff.
Qed.

Lemma fltb_feq_l (x x' y : pyfloat) : feq x x' -> fltb x y = fltb x' y.
Proof.
  intros H. destruct x as [a| | |], x' as [a'| | |], y as [b| | |];
    cbn [feq fltb] in *; try tauto.
  destruct (Qltb a' b) eqn:E.
  - apply Qltb_true. apply Qltb_true in E. now rewrite H.
  - apply Qltb_false. apply Qltb_false in E. now rewrite H.
Qed.

Lemma fltb_irrefl (x : pyfloat) : fltb x x = false.
Proof.
  destruct x; cbn; try reflexivity. apply Qltb_false, Qle_refl.
Qed.

End FloatFacts.

(** ** [binary64] and the hardware *)

Module HardwareSpec.
Import Py Float.

(** On the samples the arithmetic of [binary64] gives what the hardware
    gives. *)
Lemma binary64_as_hardware :
  forallb (fun p => Hardware.same (fst p) (snd p)) Hardware.samples = true.
Proof. vm_compute. reflexivity. Qed.

End HardwareSpec.

Module FloatFusionSpec.
Import Py PyFacts Float FloatFacts.

Section Fusion.
Variable F : Format.
Hypothesis L : Laws F.

(** *** Normalisation *)

(** The range [max - min] of two distinct floats is not zero: the
    division of the normaliser never has a zero divisor. *)
Lemma range_not_zero (mx mn : pyfloat) :
  is_float F mx -> is_float F mn -> feqb mx mn = false ->
  feqb (fsub F mx mn) (Fin 0) = false.
Proof.
  intros Hx Hn Hne.
  destruct mx as [a| | |], mn as [b| | |]; cbn [fsub feqb] in *;
    try reflexivity; try discriminate.
  destruct (round_cases F (a - b)) as [[-> _] | [[-> _] | [-> _]]];
    try reflexivity.
  cbn [feqb]. apply Qeq_bool_false. intros H0.
  apply Qeq_bool_false in Hne. apply Hne.
  destruct Hx as [Ha _], Hn as [Hb _].
  exact (rnd_sub_zero L Ha Hb H0).
Qed.

(** Between finite bounds whose difference does not overflow, the
    normalised value of a finite score is a finite float in [0,1]. *)
Lemma norm_in_unit (mn mx s : Q) :
  mn <= s <= mx -> ~ mx == mn ->
  rnd F mx == mx -> rnd F mn == mn ->
  is_finite (fsub F (Fin mx) (Fin mn)) = true ->
  in_unit_interval (fdiv F (fsub F (Fin s) (Fin mn))
                           (fsub F (Fin mx) (Fin mn))).
Proof.
  intros [H1 H2] Hne Hx Hn Hfin. cbn [fsub] in *.
  destruct (round_cases F (mx - mn)) as [[Ed [Hd1 Hd2]] | [[Ed _] | [Ed _]]];
    rewrite Ed in Hfin; try discriminate. rewrite Ed.
  assert (Hs0 : 0 <= rnd F (s - mn)) by (apply (rnd_nonneg L); lra).
  assert (Hsd : rnd F (s - mn) <= rnd F (mx - mn))
    by (apply (rnd_mono L); lra).
  assert (Es : round F (s - mn) = Fin (rnd F (s - mn))).
  { apply round_finite. pose proof (fmax_pos L). lra. }
  rewrite Es. cbn [fdiv].
  assert (Hd0 : ~ rnd F (mx - mn) == 0).
  { intros H0. apply Hne. exact (rnd_sub_zero L Hx Hn H0). }
  assert (Hdpos : 0 < rnd F (mx - mn)).
  { pose proof (@rnd_nonneg F L (mx - mn)) as Hnn.
    destruct (Qlt_le_dec 0 (rnd F (mx - mn))) as [Hlt | Hle]; [exact Hlt|].
    exfalso. apply Hd0. apply Qle_antisym; [exact Hle | apply Hnn; lra]. }
  apply Qeq_bool_false in Hd0. rewrite Hd0.
  destruct (@round_unit F L (rnd F (s - mn) / rnd F (mx - mn)))
    as [Er Hr].
  - split.
    + apply Qle_shift_div_l; [exact Hdpos | lra].
    + apply Qle_shift_div_r; [exact Hdpos | lra].
  - rewrite Er. eexists. split; [reflexivity | exact Hr].
Qed.

Lemma float_min_max_norm_equal (mn mx s : pyfloat) :
  feqb mx mn = true -> min_max_norm F mn mx s = Fin 1.
Proof. intros H. unfold min_max_norm. now rewrite H. Qed.

Lemma all_finite_not_nan (l : list pyfloat) :
  Forall (fun s => is_finite s = true) l ->
  Forall (fun s => is_nan s = false) l.
Proof.
  apply Forall_impl. intros [q| | |]; cbn; congruence.
Qed.

(** The value of every score of a list of finite floats whose range does
    not overflow. *)
Lemma min_max_norm_unit (scores : list pyfloat) (mn mx s : pyfloat) :
  Forall (is_float F) scores ->
  Forall (fun s => is_finite s = true) scores ->
  In mn scores -> In mx scores -> In s scores ->
  fleb mn s = true -> fleb s mx = true ->
  is_finite (fsub F mx mn) = true ->
  in_unit_interval (min_max_norm F mn mx s).
Proof.
  intros Hfl Hfin Imn Imx Is H1 H2 Hd.
  rewrite Forall_forall in Hfl, Hfin.
  pose proof (Hfl _ Imn) as Fn. pose proof (Hfl _ Imx) as Fx.
  pose proof (Hfin _ Imn) as En. pose proof (Hfin _ Imx) as Ex.
  pose proof (Hfin _ Is) as Es.
  destruct mn as [m| | |], mx as [M| | |], s as [q| | |]; try discriminate.
  unfold min_max_norm. destruct (feqb (Fin M) (Fin m)) eqn:E.
  - exists 1. split; [reflexivity | lra].
  - apply feqb_Fin_false in E. apply fleb_Fin in H1, H2.
    destruct Fn as [Fn _], Fx as [Fx _].
    now apply norm_in_unit.
Qed.

(** [services.py]: the dictionary [normalize_scores] returns. *)
Lemma float_normalize_scores_eq (results : list FloatServices.scored) :
  results <> [] ->
  exists mn mx,
    Float.py_min (map snd results) = Ok mn
    /\ Float.py_max (map snd results) = Ok mx
    /\ FloatServices.normalize_scores F results
       = Ok (dict_of_items Z.eqb
               (map (fun r => (Services.id (fst r),
                               min_max_norm F mn mx (snd r))) results)).
Proof.
  intros Hne.
  destruct (@float_bounds (map snd results))
    as (mn & mx & Emn & Emx & _).
  { destruct results; [congruence | discriminate]. }
  exists mn, mx. split; [exact Emn|]. split; [exact Emx|].
  destruct results as [|r0 rs]; [congruence|].
  unfold FloatServices.normalize_scores. rewrite Emn, Emx. cbn [bind].
  unfold min_max_norm. now destruct (feqb mx mn).
Qed.

(** [hybrid_search.py]: the list [_normalize_scores] returns; the
    division never raises. *)
Lemma float_v3_normalize_scores_eq (raw : list FloatV3.RawResult) :
  raw <> [] ->
  Forall (is_float F) (map FloatV3.r_score raw) ->
  exists mn mx,
    Float.py_min (map FloatV3.r_score raw) = Ok mn
    /\ Float.py_max (map FloatV3.r_score raw) = Ok mx
    /\ FloatV3._normalize_scores F raw
       = Ok (map (fun r => FloatV3.set_normalized
                             (min_max_norm F mn mx (FloatV3.r_score r)) r)
                 raw).
Proof.
  intros Hne Hfl.
  destruct (@float_bounds (map FloatV3.r_score raw))
    as (mn & mx & Emn & Emx & Imn & Imx & _).
  { destruct raw; [congruence | discriminate]. }
  exists mn, mx. split; [exact Emn|]. split; [exact Emx|].
  destruct raw as [|r0 rs]; [congruence|].
  unfold FloatV3._normalize_scores. rewrite Emn, Emx. cbn [bind].
  unfold min_max_norm. destruct (feqb mx mn) eqn:E; [reflexivity|].
  rewrite Forall_forall in Hfl.
  pose proof (range_not_zero _ _ (Hfl _ Imx) (Hfl _ Imn) E) as Hnz.
  apply mapM_Ok. intros r _. unfold py_fdiv. now rewrite Hnz.
Qed.

End Fusion.

(** C1 (as amended). For every non-empty candidate list of floats, min-max
    normalisation succeeds: it never divides by zero.  Every candidate
    gets [(score - min) / (max - min)] in float arithmetic, and exactly
    [1.0] when [max == min], in particular when all raw scores are equal.
    When the scores are finite and [max - min] does not overflow, every
    normalised score is a finite float in [0,1].  Stated for both
    implementations: the dictionary built in [services.py] and the list
    annotated in [hybrid_search.py]; for every format that satisfies the
    laws of rounding, binary64 among them. *)
Theorem normalization_of_floats (F : Format) (L : Laws F)
    (results : list FloatServices.scored) (raw : list FloatV3.RawResult) :
  results <> [] -> raw <> [] ->
  Forall (is_float F) (map snd results) ->
  Forall (is_float F) (map FloatV3.r_score raw) ->
  (exists d mn mx,
     FloatServices.normalize_scores F results = Ok d
     /\ Float.py_min (map snd results) = Ok mn
     /\ Float.py_max (map snd results) = Ok mx
     /\ (forall c s, In (c, s) results ->
           dict_mem Z.eqb (Services.id c) d = true)
     /\ (forall k v, dict_lookup Z.eqb k d = Some v ->
           exists c s, In (c, s) results /\ Services.id c = k
                       /\ v = min_max_norm F mn mx s)
     /\ (feqb mx mn = false -> feqb (fsub F mx mn) (Fin 0) = false)
     /\ ((feqb mx mn = true
          \/ forall s s', In s (map snd results) ->
               In s' (map snd results) -> feqb s s' = true) ->
         forall k v, dict_lookup Z.eqb k d = Some v -> v = Fin 1)
     /\ (Forall (fun s => is_finite s = true) (map snd results) ->
         is_finite (fsub F mx mn) = true ->
         forall k v, dict_lookup Z.eqb k d = Some v -> in_unit_interval v))
  /\
  (exists out mn mx,
     FloatV3._normalize_scores F raw = Ok out
     /\ Float.py_min (map FloatV3.r_score raw) = Ok mn
     /\ Float.py_max (map FloatV3.r_score raw) = Ok mx
     /\ Forall2 (fun r r' =>
                   FloatV3.r_chunk r' = FloatV3.r_chunk r
                   /\ FloatV3.r_score r' = FloatV3.r_score r
                   /\ FloatV3.r_normalized_score r'
                      = Some (min_max_norm F mn mx (FloatV3.r_score r)))
                raw out
     /\ (feqb mx mn = false -> feqb (fsub F mx mn) (Fin 0) = false)
     /\ ((feqb mx mn = true
          \/ forall s s', In s (map FloatV3.r_score raw) ->
               In s' (map FloatV3.r_score raw) -> feqb s s' = true) ->
         Forall (fun r' => FloatV3.r_normalized_score r' = Some (Fin 1)) out)
     /\ (Forall (fun s => is_finite s = true) (map FloatV3.r_score raw) ->
         is_finite (fsub F mx mn) = true ->
         Forall (fun r' => exists v, FloatV3.r_normalized_score r' = Some v
                                     /\ in_unit_interval v) out)).
Proof.
  intros Hres Hraw Hfl Hflr. split.
  - destruct (float_normalize_scores_eq F Hres) as (mn & mx & Emn & Emx & Heq).
    destruct (@float_bounds (map snd results))
      as (mn' & mx' & Emn' & Emx' & Imn & Imx & Hb).
    { destruct results; [congruence | discriminate]. }
    assert (mn' = mn) by congruence. assert (mx' = mx) by congruence.
    subst mn' mx'.
    eexists _, mn, mx. split; [exact Heq|].
    split; [exact Emn|]. split; [exact Emx|].
    assert (Hlook : forall k v,
      dict_lookup Z.eqb k
        (dict_of_items Z.eqb
           (map (fun r => (Services.id (fst r),
                           min_max_norm F mn mx (snd r))) results)) = Some v ->
      exists c s, In (c, s) results /\ Services.id c = k
                  /\ v = min_max_norm F mn mx s).
    { intros k v H. apply (dict_of_items_lookup Z.eqb Z.eqb_eq) in H.
      apply in_map_iff in H. destruct H as ([c s] & [= <- <-] & Hin).
      now exists c, s. }
    assert (Heqmx : (feqb mx mn = true
              \/ forall s s', In s (map snd results) ->
                   In s' (map snd results) -> feqb s s' = true) ->
            feqb mx mn = true).
    { intros [H | H]; [exact H | now apply H]. }
    split; [|split; [exact Hlook|split; [|split]]].
    + intros c s Hin. unfold dict_mem.
      destruct (dict_lookup Z.eqb (Services.id c) _) eqn:E; [reflexivity|].
      exfalso.
      assert (Hk : In (Services.id c)
                (dict_keys (dict_of_items Z.eqb
                   (map (fun r => (Services.id (fst r),
                                   min_max_norm F mn mx (snd r))) results)))).
      { rewrite (dict_keys_of_items Z.eqb Z.eqb_eq).
        apply (first_seen_In Z.eqb Z.eqb_eq). rewrite map_map.
        apply in_map_iff. now exists (c, s). }
      apply (dict_lookup_keys Z.eqb Z.eqb_eq) in Hk. destruct Hk as [v Hv].
      congruence.
    + rewrite Forall_forall in Hfl.
      exact (range_not_zero L _ _ (Hfl _ Imx) (Hfl _ Imn)).
    + intros Hall k v H. destruct (Hlook k v H) as (c & s & _ & _ & ->).
      apply float_min_max_norm_equal. now apply Heqmx.
    + intros Hfin Hd k v H. destruct (Hlook k v H) as (c & s & Hin & _ & ->).
      assert (Is : In s (map snd results)).
      { apply in_map_iff. now exists (c, s). }
      destruct (Hb (all_finite_not_nan Hfin) s Is) as [H1 H2].
      apply (@min_max_norm_unit F L (map snd results)); assumption.
  - destruct (float_v3_normalize_scores_eq L Hraw Hflr)
      as (mn & mx & Emn & Emx & Heq).
    destruct (@float_bounds (map FloatV3.r_score raw))
      as (mn' & mx' & Emn' & Emx' & Imn & Imx & Hb).
    { destruct raw; [congruence | discriminate]. }
    assert (mn' = mn) by congruence. assert (mx' = mx) by congruence.
    subst mn' mx'.
    eexists _, mn, mx. split; [exact Heq|].
    split; [exact Emn|]. split; [exact Emx|].
    split; [|split; [|split]].
    + clear. induction raw as [|r rs IH]; cbn [map]; constructor; auto.
    + rewrite Forall_forall in Hflr.
      exact (range_not_zero L _ _ (Hflr _ Imx) (Hflr _ Imn)).
    + intros Hall. apply Forall_forall. intros r' Hr'.
      apply in_map_iff in Hr'. destruct Hr' as (r & <- & _). cbn.
      f_equal. apply float_min_max_norm_equal.
      destruct Hall as [H | H]; [exact H | now apply H].
    + intros Hfin Hd. apply Forall_forall. intros r' Hr'.
      apply in_map_iff in Hr'. destruct Hr' as (r & <- & Hr). cbn.
      eexists. split; [reflexivity|].
      assert (Is : In (FloatV3.r_score r) (map FloatV3.r_score raw))
        by now apply in_map.
      destruct (Hb (all_finite_not_nan Hfin) _ Is) as [H1 H2].
      apply (@min_max_norm_unit F L (map FloatV3.r_score raw)); assumption.
Qed.

Ltac float_value :=
  vm_compute; repeat split; try reflexivity; discriminate.

Ltac float_values :=
  cbv [FloatExamples.semantic FloatExamples.raw_semantic
       FloatExamples.far_apart FloatExamples.raw_far_apart
       FloatExamples.raw map snd FloatV3.r_score];
  repeat (apply Forall_cons; [float_value|]); apply Forall_nil.

Lemma semantic_floats :
  Forall (is_float binary64) (map snd FloatExamples.semantic).
Proof. float_values. Qed.

Lemma raw_semantic_floats :
  Forall (is_float binary64)
         (map FloatV3.r_score FloatExamples.raw_semantic).
Proof. float_values. Qed.

Lemma far_apart_floats :
  Forall (is_float binary64) (map snd FloatExamples.far_apart)
  /\ Forall (fun s => is_finite s = true)
            (map snd FloatExamples.far_apart).
Proof. split; float_values. Qed.

Lemma raw_far_apart_floats :
  Forall (is_float binary64)
         (map FloatV3.r_score FloatExamples.raw_far_apart)
  /\ Forall (fun s => is_finite s = true)
            (map FloatV3.r_score FloatExamples.raw_far_apart).
Proof. split; float_values. Qed.

Lemma normalization_of_floats_witness :
  (exists d,
     FloatServices.normalize_scores binary64 FloatExamples.semantic = Ok d
     /\ forall k v, dict_lookup Z.eqb k d = Some v -> in_unit_interval v)
  /\ (exists out,
        FloatV3._normalize_scores binary64 FloatExamples.raw_semantic = Ok out
        /\ Forall (fun r' =>
                     exists v, FloatV3.r_normalized_score r' = Some v
                               /\ in_unit_interval v) out).
Proof.
  assert (H1 : FloatExamples.semantic <> []) by discriminate.
  assert (H2 : FloatExamples.raw_semantic <> []) by discriminate.
  destruct (@normalization_of_floats binary64 binary64_laws
              FloatExamples.semantic FloatExamples.raw_semantic H1 H2
              semantic_floats raw_semantic_floats)
    as [(d & mn & mx & Ed & Emn & Emx & _ & _ & _ & _ & Hunit)
        (out & mn' & mx' & Eout & Emn' & Emx' & _ & _ & _ & Hunit')].
  split.
  - exists d. split; [exact Ed|]. apply Hunit.
    + repeat constructor.
    + vm_compute in Emn, Emx. injection Emn as <-. injection Emx as <-.
      reflexivity.
  - exists out. split; [exact Eout|]. apply Hunit'.
    + repeat constructor.
    + vm_compute in Emn', Emx'. injection Emn' as <-. injection Emx' as <-.
      reflexivity.
Defined.

(** C1, the claim as stated fails on floats: for the finite scores
    [1e308] and [-1e308] the difference [max - min] overflows to
    infinity, and both normalisers give the first candidate
    [inf / inf], which is NaN. *)
Lemma normalization_overflows :
  (~ forall results : list FloatServices.scored,
       results <> [] ->
       Forall (is_float binary64) (map snd results) ->
       Forall (fun s => is_finite s = true) (map snd results) ->
       exists d,
         FloatServices.normalize_scores binary64 results = Ok d
         /\ forall k v, dict_lookup Z.eqb k d = Some v ->
                        in_unit_interval v)
  /\ (~ forall raw : list FloatV3.RawResult,
          raw <> [] ->
          Forall (is_float binary64) (map FloatV3.r_score raw) ->
          Forall (fun s => is_finite s = true) (map FloatV3.r_score raw) ->
          exists out,
            FloatV3._normalize_scores binary64 raw = Ok out
            /\ Forall (fun r' =>
                         exists v, FloatV3.r_normalized_score r' = Some v
                                   /\ in_unit_interval v) out).
Proof.
  split; intros H.
  - destruct (H FloatExamples.far_apart) as (d & Ed & Hd).
    + discriminate.
    + exact (proj1 far_apart_floats).
    + exact (proj2 far_apart_floats).
    + vm_compute in Ed. injection Ed as <-.
      destruct (Hd 1%Z NaN eq_refl) as (q & Hq & _). discriminate.
  - destruct (H FloatExamples.raw_far_apart) as (out & Eout & Hout).
    + discriminate.
    + exact (proj1 raw_far_apart_floats).
    + exact (proj2 raw_far_apart_floats).
    + vm_compute in Eout. injection Eout as <-.
      inversion Hout as [|? ? (v & Hv & q & Hq & _) _]; subst.
      cbn in Hv. discriminate.
Qed.

End FloatFusionSpec.

Module FloatRerankSpec.
Import Py PyFacts Float FloatFacts FloatSpec.

Section Rerank.
Variable F : Format.
Hypothesis L : Laws F.

(** *** Diversity and the combined score *)

Lemma of_int_nonneg (n : nat) :
  fleb (Fin 0) (of_int F (Z.of_nat n)) = true.
Proof.
  unfold of_int. apply (round_nonneg L).
  change 0 with (inject_Z 0). rewrite <- Zle_Qle. lia.
Qed.

(** The divisor [1.0 + same_doc_count] is at least one. *)
Lemma divisor_cases (n : nat) :
  (exists d, fadd F (Fin 1) (of_int F (Z.of_nat n)) = Fin d /\ 1 <= d)
  \/ fadd F (Fin 1) (of_int F (Z.of_nat n)) = PInf.
Proof.
  pose proof (of_int_nonneg n) as H0.
  destruct (of_int F (Z.of_nat n)) as [r| | |]; cbn [fleb fadd] in *;
    try discriminate; [|now right].
  apply Qle_bool_iff in H0.
  assert (R : 1 <= rnd F (1 + r)).
  { rewrite <- (rnd_one L) at 1. apply (rnd_mono L). lra. }
  pose proof (fmax_pos L) as Hm.
  destruct (round_cases F (1 + r)) as [[-> _] | [[-> _] | [_ Hlt]]].
  - left. eexists. split; [reflexivity | exact R].
  - now right.
  - lra.
Qed.

Lemma diversity_unit (selected : list FloatV3.RetrievalResult)
    (c : FloatV3.RetrievalResult) :
  in_unit_interval (diversity F selected c).
Proof.
  unfold diversity.
  destruct (divisor_cases
              (List.length (filter (fun s => same_document s c) selected)))
    as [(d & -> & Hd) | ->]; cbn [fdiv].
  - assert (Hd0 : Qeq_bool d 0 = false) by (apply Qeq_bool_false; lra).
    rewrite Hd0.
    destruct (@round_unit F L (1 / d)) as [-> Hr].
    + split.
      * apply Qle_shift_div_l; lra.
      * apply Qle_shift_div_r; lra.
    + eexists. split; [reflexivity | exact Hr].
  - exists 0. split; [reflexivity | lra].
Qed.

Lemma calculate_diversity_spec (selected : list FloatV3.RetrievalResult)
    (c : FloatV3.RetrievalResult) :
  selected <> [] ->
  FloatV3._calculate_diversity F c selected = Ok (diversity F selected c).
Proof.
  intros Hne. destruct selected as [|s0 sel]; [congruence|].
  unfold FloatV3._calculate_diversity, diversity, py_fdiv,
    FloatV3.same_doc_count.
  change (fun s => str_eqb (V3.document_id (FloatV3.chunk s))
                           (V3.document_id (FloatV3.chunk c)))
    with (fun s => same_document s c).
  destruct (divisor_cases
              (List.length (filter (fun s => same_document s c) (s0 :: sel))))
    as [(d & -> & Hd) | ->]; cbn [feqb]; [|reflexivity].
  assert (Hd0 : Qeq_bool d 0 = false) by (apply Qeq_bool_false; lra).
  now rewrite Hd0.
Qed.

(** The code's combined score is the design's, computed in the code's
    arithmetic. *)
Lemma float_combined_score_spec (selected : list FloatV3.RetrievalResult)
    (c : FloatV3.RetrievalResult) :
  selected <> [] ->
  FloatV3.combined_score F selected c = Ok (combined F selected c).
Proof.
  intros Hne. unfold FloatV3.combined_score.
  rewrite (calculate_diversity_spec c Hne). reflexivity.
Qed.

(** A weight between a quarter and one, as a float. *)
Lemma weight_cases (w : Q) :
  1 # 4 <= w <= 1 ->
  exists a, literal F w = Fin a /\ 1 # 4 <= a <= 1.
Proof.
  intros [H1 H2]. unfold literal.
  assert (R1 : 1 # 4 <= rnd F w).
  { rewrite <- (rnd_quarter L). now apply (rnd_mono L). }
  assert (R2 : rnd F w <= 1) by now apply (rnd_le_one L).
  pose proof (fmax_one L) as Hm.
  exists (rnd F w). split; [apply round_finite; lra | now split].
Qed.

(** The combined score of a candidate without negative score is not
    negative, and so above the initial best score of [-1]. *)
Lemma combined_nonneg (selected : list FloatV3.RetrievalResult)
    (c : FloatV3.RetrievalResult) :
  fleb (Fin 0) (FloatV3.score c) = true ->
  fleb (Fin 0) (combined F selected c) = true.
Proof.
  intros Hs. unfold combined.
  destruct (@weight_cases (7 # 10)) as (a & -> & Ha); [lra|].
  destruct (@weight_cases (3 # 10)) as (b & -> & Hb); [lra|].
  destruct (diversity_unit selected c) as (v & -> & Hv).
  assert (Hy : exists y, fmul F (Fin b) (Fin v) = Fin y /\ 0 <= y).
  { cbn [fmul].
    destruct (@round_unit F L (b * v)) as [-> Hr].
    - split; [apply Qmult_le_0_compat; lra|].
      setoid_replace 1 with (1 * 1) by ring.
      apply Qmult_le_compat_nonneg; lra.
    - eexists. split; [reflexivity | lra]. }
  destruct Hy as (y & -> & Hy).
  assert (Hx : (exists x, fmul F (Fin a) (FloatV3.score c) = Fin x /\ 0 <= x)
               \/ fmul F (Fin a) (FloatV3.score c) = PInf).
  { destruct (FloatV3.score c) as [q| | |]; cbn [fleb fmul] in *;
      try discriminate.
    - apply Qle_bool_iff in Hs.
      assert (R : 0 <= rnd F (a * q)).
      { apply (rnd_nonneg L). apply Qmult_le_0_compat; lra. }
      pose proof (fmax_pos L) as Hm.
      destruct (round_cases F (a * q)) as [[-> _] | [[-> _] | [_ Hlt]]].
      + left. eexists. split; [reflexivity | exact R].
      + now right.
      + lra.
    - right. assert (E : Qeq_bool a 0 = false)
        by (apply Qeq_bool_false; lra).
      rewrite E. unfold inf_of_sign.
      assert (E2 : Qltb 0 a = true) by (apply Qltb_true; lra).
      now rewrite E2. }
  destruct Hx as [(x & -> & Hx) | ->]; cbn [fadd]; [|reflexivity].
  apply (round_nonneg L). lra.
Qed.

Lemma float_combined_above_floor (selected : list FloatV3.RetrievalResult)
    (c : FloatV3.RetrievalResult) :
  fleb (Fin 0) (FloatV3.score c) = true ->
  fltb (Fin (- (1))) (combined F selected c) = true.
Proof.
  intros H. apply fleb_fltb_trans with (Fin (- (1)));
    [reflexivity|].
  apply fltb_fleb_trans with (Fin 0); [reflexivity|].
  now apply combined_nonneg.
Qed.

(** Results that compare equal have the same combined score. *)
Lemma float_result_eqb_combined (selected : list FloatV3.RetrievalResult)
    (a b : FloatV3.RetrievalResult) :
  FloatV3.result_eqb a b = true ->
  feq (combined F selected a) (combined F selected b).
Proof.
  unfold FloatV3.result_eqb, V3.chunk_eqb. rewrite !andb_true_iff.
  intros [[[[[[_ Hd] _] _] _] Hs] _].
  apply str_eqb_eq in Hd. apply feqb_feq in Hs.
  unfold combined, diversity, same_document. rewrite Hd.
  apply fadd_feq_l; [exact L|]. apply fmul_feq_r; [exact L | exact Hs].
Qed.

(** *** The inner scan keeps the first candidate of greatest score *)

Lemma float_scan_spec (selected : list FloatV3.RetrievalResult)
    (l : list FloatV3.RetrievalResult) :
  selected <> [] ->
  (forall c, In c l -> is_nan (combined F selected c) = false) ->
  forall (bc : option FloatV3.RetrievalResult) (bs : pyfloat),
    is_nan bs = false ->
    (fold_left (FloatV3.scan_step F selected) l (Ok (bc, bs)) = Ok (bc, bs)
     /\ forall c, In c l -> fleb (combined F selected c) bs = true)
    \/ exists pre best post,
         l = pre ++ best :: post
         /\ fold_left (FloatV3.scan_step F selected) l (Ok (bc, bs))
            = Ok (Some best, combined F selected best)
         /\ fltb bs (combined F selected best) = true
         /\ (forall c, In c pre ->
               fltb (combined F selected c) (combined F selected best)
               = true)
         /\ (forall c, In c post ->
               fleb (combined F selected c) (combined F selected best)
               = true).
Proof.
  intros Hne. induction l as [|x r IH]; intros Hnan bc bs Hbs;
    cbn [fold_left].
  - left. split; [reflexivity | intros c []].
  - assert (Hx : is_nan (combined F selected x) = false)
      by (apply Hnan; now left).
    assert (Hr : forall c, In c r -> is_nan (combined F selected c) = false)
      by (intros; apply Hnan; now right).
    assert (Estep : FloatV3.scan_step F selected (Ok (bc, bs)) x
                    = if fltb bs (combined F selected x)
                      then Ok (Some x, combined F selected x)
                      else Ok (bc, bs)).
    { unfold FloatV3.scan_step. cbn [bind].
      rewrite (float_combined_score_spec x Hne). reflexivity. }
    rewrite Estep.
    destruct (fltb bs (combined F selected x)) eqn:E.
    + right.
      destruct (IH Hr (Some x) (combined F selected x) Hx)
        as [[Heq Hall] | (pre & best & post & Hl & Heq & Hlt & Hpre & Hpost)].
      * exists [], x, r. split; [reflexivity|]. split; [exact Heq|].
        split; [exact E|]. split; [intros c [] | exact Hall].
      * exists (x :: pre), best, post. subst r. split; [reflexivity|].
        split; [exact Heq|].
        split; [eapply fltb_fleb_trans; [exact E | now apply fltb_fleb]|].
        split; [|exact Hpost]. intros c [<- | Hc]; auto.
    + pose proof (fltb_false_fleb _ _ Hbs Hx E) as Hle.
      destruct (IH Hr bc bs Hbs)
        as [[Heq Hall] | (pre & best & post & Hl & Heq & Hlt & Hpre & Hpost)].
      * left. split; [exact Heq|]. intros c [<- | Hc]; auto.
      * right. exists (x :: pre), best, post. subst r. split; [reflexivity|].
        split; [exact Heq|]. split; [exact Hlt|]. split; [|exact Hpost].
        intros c [<- | Hc]; auto. eapply fleb_fltb_trans; eauto.
Qed.

Lemma nonneg_not_nan (selected l : list FloatV3.RetrievalResult) :
  (forall r, In r l -> fleb (Fin 0) (FloatV3.score r) = true) ->
  forall c, In c l -> is_nan (combined F selected c) = false.
Proof.
  intros H c Hc.
  exact (proj2 (fleb_not_nan _ _ (combined_nonneg selected c (H c Hc)))).
Qed.

(** With no negative score among the candidates the scan finds one: the
    first of those whose combined score is greatest. *)
Lemma float_best_candidate (selected remaining : list FloatV3.RetrievalResult) :
  selected <> [] -> remaining <> [] ->
  (forall r, In r remaining -> fleb (Fin 0) (FloatV3.score r) = true) ->
  exists pre best post,
    remaining = pre ++ best :: post
    /\ FloatV3.best_candidate F selected remaining = Ok (Some best)
    /\ (forall c, In c pre ->
          fltb (combined F selected c) (combined F selected best) = true)
    /\ (forall c, In c post ->
          fleb (combined F selected c) (combined F selected best) = true).
Proof.
  intros Hne Hrem Hpos. unfold FloatV3.best_candidate.
  destruct (@float_scan_spec selected remaining Hne
              (nonneg_not_nan selected remaining Hpos) None (Fin (- (1)))
              eq_refl)
    as [[_ Hall] | (pre & best & post & Hl & Heq & _ & Hpre & Hpost)].
  - exfalso. destruct remaining as [|c r]; [congruence|].
    pose proof (Hall c (or_introl eq_refl)) as Hle.
    pose proof (float_combined_above_floor selected c (Hpos c (or_introl eq_refl)))
      as Hgt.
    apply fltb_fleb_false in Hgt. congruence.
  - exists pre, best, post. rewrite Heq. cbn [bind fst]. auto.
Qed.

(** *** Equality of results and [list.remove] *)

Lemma float_result_eqb_refl (r : FloatV3.RetrievalResult) :
  is_nan (FloatV3.score r) = false -> FloatV3.result_eqb r r = true.
Proof.
  intros Hn. unfold FloatV3.result_eqb, V3.chunk_eqb.
  rewrite !(proj2 (str_eqb_eq _ _) eq_refl), Z.eqb_refl,
    RerankSpec.dict_eqb_refl.
  cbn [andb]. rewrite andb_true_r.
  apply feqb_fleb. split; now apply fleb_refl.
Qed.

Lemma float_list_remove_spec (best : FloatV3.RetrievalResult)
    (pre post : list FloatV3.RetrievalResult) :
  is_nan (FloatV3.score best) = false ->
  (forall c, In c pre -> FloatV3.result_eqb c best = false) ->
  FloatV3.list_remove best (pre ++ best :: post) = Ok (pre ++ post).
Proof.
  intros Hn. induction pre as [|y pre IH]; intros H;
    cbn [app FloatV3.list_remove].
  - now rewrite float_result_eqb_refl.
  - rewrite (H y (or_introl eq_refl)), IH by (intros; apply H; now right).
    reflexivity.
Qed.

(** After the scan, [remaining.remove(best_candidate)] takes out the very
    element the scan chose. *)
Lemma float_remove_best (selected : list FloatV3.RetrievalResult)
    (pre post : list FloatV3.RetrievalResult) (best : FloatV3.RetrievalResult) :
  fleb (Fin 0) (FloatV3.score best) = true ->
  (forall c, In c pre ->
     fltb (combined F selected c) (combined F selected best) = true) ->
  FloatV3.list_remove best (pre ++ best :: post) = Ok (pre ++ post).
Proof.
  intros Hs Hpre. apply float_list_remove_spec.
  - exact (proj2 (fleb_not_nan _ _ Hs)).
  - intros c Hc.
    destruct (FloatV3.result_eqb c best) eqn:E; [|reflexivity].
    apply (float_result_eqb_combined selected) in E.
    specialize (Hpre c Hc). rewrite (fltb_feq_l _ _ _ E), fltb_irrefl in Hpre.
    discriminate.
Qed.

(** *** The selection loop *)

Lemma float_loop_guard (K : Z)
    (selected remaining : list FloatV3.RetrievalResult) :
  ((Z.of_nat (List.length selected) <? K)%Z
   && negb (Nat.eqb (List.length remaining) 0)) = true ->
  (Z.of_nat (List.length selected) < K)%Z /\ remaining <> [].
Proof.
  rewrite andb_true_iff, Z.ltb_lt, negb_true_iff, Nat.eqb_neq.
  intros [H1 H2]. split; [exact H1|]. intros ->. now apply H2.
Qed.

(** The selection loop returns, and what it returns is a greedy selection
    in the sense of the design, as long as no score is negative. *)
Lemma float_select_loop_greedy (K : Z)
    (selected remaining : list FloatV3.RetrievalResult) :
  selected <> [] ->
  (forall r, In r remaining -> fleb (Fin 0) (FloatV3.score r) = true) ->
  exists out,
    FloatV3.select_loop F K selected remaining = Ok out
    /\ greedy_selection F K selected remaining out.
Proof.
  funelim (FloatV3.select_loop F K selected remaining); intros Hsel Hpos.
  - exists selected. split; [reflexivity|].
    apply andb_false_iff in Heq. destruct Heq as [Heq | Heq].
    + apply greedy_full. apply Z.ltb_ge in Heq. exact Heq.
    + apply negb_false_iff, Nat.eqb_eq in Heq.
      destruct remaining; [apply greedy_exhausted | discriminate].
  - exfalso. apply float_loop_guard in Heq. destruct Heq as [_ Hne].
    destruct (float_best_candidate Hsel Hne Hpos)
      as (pre & best & post & _ & Hb & _).
    congruence.
  - exfalso. apply float_loop_guard in Heq. destruct Heq as [_ Hne].
    destruct (float_best_candidate Hsel Hne Hpos)
      as (pre & best & post & _ & Hb & _).
    congruence.
  - apply float_loop_guard in Heq. destruct Heq as [Hlt Hne].
    destruct (float_best_candidate Hsel Hne Hpos)
      as (pre & b & post & Hsplit & Hb & Hpre & Hpost).
    assert (b = best) by congruence. subst b.
    assert (Hbest : fleb (Fin 0) (FloatV3.score best) = true).
    { apply Hpos. rewrite Hsplit. apply in_or_app. right. now left. }
    pose proof (@float_remove_best selected pre post best Hbest Hpre) as Hrem.
    rewrite <- Hsplit in Hrem.
    assert (Hrem' : remaining' = pre ++ post) by congruence.
    clear Heqcall.
    repeat match goal with
             Hs : @eq (sigma _) _ _ |- _ => clear Hs
           end.
    subst remaining' remaining.
    match goal with
      IH : _ -> _ -> exists _, _ |- _ =>
      destruct IH as (out & Hout & Hg)
    end.
    { destruct selected; discriminate. }
    { intros r Hr. apply Hpos. apply in_app_or in Hr. apply in_or_app.
      destruct Hr; [left | right; right]; assumption. }
    exists out. split; [exact Hout|].
    apply greedy_pick; assumption.
  - exfalso. apply float_loop_guard in Heq. destruct Heq as [_ Hne].
    destruct (float_best_candidate Hsel Hne Hpos)
      as (pre & b & post & Hsplit & Hb & Hpre & Hpost).
    assert (b = best) by congruence. subst b.
    assert (Hbest : fleb (Fin 0) (FloatV3.score best) = true).
    { apply Hpos. rewrite Hsplit. apply in_or_app. right. now left. }
    pose proof (@float_remove_best selected pre post best Hbest Hpre) as Hrem.
    rewrite <- Hsplit in Hrem. congruence.
Qed.

Lemma greedy_selection_at_limit (K : Z)
    (selected remaining out : list FloatV3.RetrievalResult) :
  (K <= Z.of_nat (List.length selected))%Z ->
  greedy_selection F K selected remaining out -> out = selected.
Proof.
  intros HK Hg. destruct Hg as [sel rem _ | sel | sel pre best post out Hlt];
    [reflexivity | reflexivity | lia].
Qed.

Lemma float_sorted_head_max (top : FloatV3.RetrievalResult)
    (rest : list FloatV3.RetrievalResult) :
  is_nan (FloatV3.score top) = false ->
  StronglySorted score_ge (top :: rest) ->
  forall r, In r (top :: rest) ->
    fleb (FloatV3.score r) (FloatV3.score top) = true.
Proof.
  intros Hn H r [<- | Hr]; [now apply fleb_refl|].
  apply StronglySorted_inv in H. destruct H as [_ H].
  rewrite Forall_forall in H. exact (H r Hr).
Qed.

End Rerank.

(** C4 (as amended). For every list of fused results (in descending
    order of score, no score negative) and every K of at least one: a list
    of at most K results is returned unchanged; otherwise the first
    result, which has the highest fused score, is selected, and then, as
    long as fewer than K are selected and candidates remain, the first
    remaining candidate of greatest [0.7 * relevance + 0.3 * diversity]
    is selected, where [diversity = 1 / (1 + selected results of the same
    document)] and the scores are compared as the floats the code
    computes.  For every format that satisfies the laws of rounding,
    binary64 among them. *)
Theorem rerank_greedy_on_floats (F : Format) (L : Laws F)
    (settings : V3.Settings) (query : pystr)
    (results : list FloatV3.RetrievalResult) (K : Z) :
  (1 <= K)%Z ->
  StronglySorted score_ge results ->
  (forall r, In r results -> fleb (Fin 0) (FloatV3.score r) = true) ->
  exists out,
    FloatV3.rerank F settings query results (Some K) = Ok out
    /\ rerank_spec F K results out.
Proof.
  intros HK Hsorted Hpos. unfold FloatV3.rerank, rerank_spec.
  destruct results as [|top rest].
  - exists []. split; [reflexivity|].
    cbn [List.length]. destruct (Z.leb_spec (Z.of_nat 0) K); [reflexivity|lia].
  - rewrite (RerankSpec.or_Z_positive _ HK).
    destruct (Z.of_nat (List.length (top :: rest)) <=? K)%Z.
    + now exists (top :: rest).
    + destruct (@float_select_loop_greedy F L K [top] rest)
        as (out & Hout & Hg).
      { discriminate. }
      { intros r Hr. apply Hpos. now right. }
      exists out. split; [exact Hout|].
      exists top, rest. split; [reflexivity|]. split; [|exact Hg].
      apply float_sorted_head_max; [|exact Hsorted].
      exact (proj2 (fleb_not_nan _ _ (Hpos top (or_introl eq_refl)))).
Qed.

Ltac float_sorted :=
  cbv [FloatRerankExamples.six_results FloatRerankExamples.two_results
       FloatRerankExamples.tie_results];
  repeat first [ apply SSorted_nil | apply SSorted_cons
               | apply Forall_nil | apply Forall_cons
               | (vm_compute; reflexivity) ].

Lemma float_six_results_sorted :
  StronglySorted score_ge FloatRerankExamples.six_results.
Proof. float_sorted. Qed.

Lemma float_six_results_nonnegative :
  forall r, In r FloatRerankExamples.six_results ->
    fleb (Fin 0) (FloatV3.score r) = true.
Proof.
  intros r Hr.
  repeat (destruct Hr as [<- | Hr]; [vm_compute; reflexivity|]).
  destruct Hr.
Qed.

Lemma rerank_greedy_on_floats_witness :
  exists out,
    FloatV3.rerank binary64 V3.default_settings (py "query")
                   FloatRerankExamples.six_results (Some 4%Z) = Ok out
    /\ rerank_spec binary64 4 FloatRerankExamples.six_results out.
Proof.
  apply (@rerank_greedy_on_floats binary64 binary64_laws).
  - lia.
  - exact float_six_results_sorted.
  - exact float_six_results_nonnegative.
Defined.

(** C4, the claim as stated fails for K = 0: zero counts as "not given"
    in [top_k or settings.rerank_top_k], so two results are returned
    unchanged under the default of three, where the stated rule selects
    at most the first. *)
Lemma rerank_of_floats_zero_K :
  ~ forall (settings : V3.Settings) (query : pystr)
           (results : list FloatV3.RetrievalResult) (K : Z),
      StronglySorted score_ge results ->
      (forall r, In r results -> fleb (Fin 0) (FloatV3.score r) = true) ->
      exists out,
        FloatV3.rerank binary64 settings query results (Some K) = Ok out
        /\ rerank_spec binary64 K results out.
Proof.
  intros H.
  destruct (H V3.default_settings (py "query")
              FloatRerankExamples.two_results 0%Z)
    as (out & Hout & Hspec).
  - float_sorted.
  - intros r Hr.
    repeat (destruct Hr as [<- | Hr]; [vm_compute; reflexivity|]).
    destruct Hr.
  - unfold FloatV3.rerank in Hout.
    cbn [FloatRerankExamples.two_results V3.or_Z V3.rerank_top_k
         V3.default_settings List.length] in Hout.
    change (Z.of_nat 2 <=? 3)%Z with true in Hout. cbv iota in Hout.
    injection Hout as <-.
    unfold rerank_spec in Hspec.
    cbn [List.length FloatRerankExamples.two_results] in Hspec.
    change (Z.of_nat 2 <=? 0)%Z with false in Hspec.
    destruct Hspec as (top & rest & _ & _ & Hg).
    apply greedy_selection_at_limit in Hg; [|cbn; lia].
    apply (f_equal (@List.length _)) in Hg. discriminate.
Qed.

(** Where two combined scores differ as real numbers and are equal as
    floats, the code keeps the earlier candidate: after [t] (document A)
    the scores of [x] (0.7142857142857142, document A) and of [y] (0.5,
    document B) are the same float, and [x] is selected. *)
Lemma rounding_tie_keeps_first :
  FloatV3.rerank binary64 V3.default_settings (py "query")
                 FloatRerankExamples.tie_results (Some 2%Z)
  = Ok (firstn 2 FloatRerankExamples.tie_results)
  /\ (forall t x y,
        FloatRerankExamples.tie_results = [t; x; y] ->
        feqb (combined binary64 [t] x) (combined binary64 [t] y) = true).
Proof.
  split; [vm_compute; reflexivity|].
  intros t x y [= <- <- <-]. vm_compute. reflexivity.
Qed.

End FloatRerankSpec.


(** * Further properties of the code *)

(** ** Prefixes of lists *)

Module ListFacts.
Import Py.

Lemma firstn_incl {A} (n : nat) (l : list A) (x : A) :
  In x (firstn n l) -> In x l.
Proof.
  revert l. induction n as [|n IH]; intros [|y l]; simpl; try tauto.
  intros [-> | H]; auto.
Qed.




Lemma slice_to_nonneg {A} (k : Z) (l : list A) :
  (0 <= k)%Z -> slice_to k l = firstn (Z.to_nat k) l.
Proof.
  intros H. unfold slice_to.
  destruct (Z.ltb_spec k 0); [lia | reflexivity].
Qed.

End ListFacts.

Module PipelineSpec.
Import Py PyFacts Spec RouterSpec OrchestratorSpec ListFacts.

(** The four outcomes of the router, by the keyword tests. *)
Lemma router_intent_cases (ext : Services.Externals)
    (state : Services.AgentState) :
  let query := Services.lower ext (Services.query state) in
  let intent := Services.intent (Services._router_agent ext state) in
  (matches Services.SUMMARIZE_KEYWORDS query /\ intent = py "SUMMARIZE")
  \/ (~ matches Services.SUMMARIZE_KEYWORDS query
      /\ matches Services.TRANSLATE_KEYWORDS query
      /\ intent = py "TRANSLATE")
  \/ (~ matches Services.SUMMARIZE_KEYWORDS query
      /\ ~ matches Services.TRANSLATE_KEYWORDS query
      /\ matches Services.CHECKLIST_KEYWORDS query
      /\ intent = py "CHECKLIST")
  \/ (~ matches Services.SUMMARIZE_KEYWORDS query
      /\ ~ matches Services.TRANSLATE_KEYWORDS query
      /\ ~ matches Services.CHECKLIST_KEYWORDS query
      /\ intent = py "RAG_QUERY").
Proof.
  intros query intent. subst intent. unfold Services._router_agent.
  fold query. rewrite intent_set_meta.
  destruct (any (fun k => str_in k query) Services.SUMMARIZE_KEYWORDS) eqn:ES.
  { left. split; [now apply any_matches | reflexivity]. }
  assert (HnS : ~ matches Services.SUMMARIZE_KEYWORDS query).
  { intros H. apply any_matches in H. congruence. }
  destruct (any (fun k => str_in k query) Services.TRANSLATE_KEYWORDS) eqn:ET.
  { right. left. repeat split; [exact HnS | now apply any_matches]. }
  assert (HnT : ~ matches Services.TRANSLATE_KEYWORDS query).
  { intros H. apply any_matches in H. congruence. }
  destruct (any (fun k => str_in k query) Services.CHECKLIST_KEYWORDS) eqn:EC.
  { right. right. left. repeat split; auto. now apply any_matches. }
  right. right. right. repeat split; auto.
  intros H. apply any_matches in H. congruence.
Qed.

Lemma route_of_intent (s : Services.AgentState) :
  (Services.intent s = py "RAG_QUERY" ->
     Services._route_decision s = Services.Retriever)
  /\ (Services.intent s = py "SUMMARIZE" \/ Services.intent s = py "TRANSLATE"
      \/ Services.intent s = py "CHECKLIST" ->
     Services._route_decision s = Services.Utility).
Proof.
  unfold Services._route_decision. split.
  - intros ->. reflexivity.
  - intros [-> | [-> | ->]]; reflexivity.
Qed.

Lemma route_not_end (ext : Services.Externals)
    (state : Services.AgentState) :
  Services._route_decision (Services._router_agent ext state)
  <> Services.GraphEnd.
Proof.
  destruct (route_of_intent (Services._router_agent ext state)) as [HR HU].
  destruct (router_intent_cases ext state)
    as [[_ Hi] | [(_ & _ & Hi) | [(_ & _ & _ & Hi) | (_ & _ & _ & Hi)]]].
  - rewrite (HU (or_introl Hi)). discriminate.
  - rewrite (HU (or_intror (or_introl Hi))). discriminate.
  - rewrite (HU (or_intror (or_intror Hi))). discriminate.
  - rewrite (HR Hi). discriminate.
Qed.

(** X1. The route taken after the router is never the end of the graph: it
    is the utility agent exactly when the lower-cased query contains a
    keyword of one of the three lists, and the retriever exactly when it
    contains none. *)
Theorem router_never_ends (ext : Services.Externals)
    (state : Services.AgentState) :
  let query := Services.lower ext (Services.query state) in
  let route := Services._route_decision (Services._router_agent ext state) in
  route <> Services.GraphEnd
  /\ (route = Services.Utility
      <-> matches Services.SUMMARIZE_KEYWORDS query
          \/ matches Services.TRANSLATE_KEYWORDS query
          \/ matches Services.CHECKLIST_KEYWORDS query)
  /\ (route = Services.Retriever
      <-> ~ matches Services.SUMMARIZE_KEYWORDS query
          /\ ~ matches Services.TRANSLATE_KEYWORDS query
          /\ ~ matches Services.CHECKLIST_KEYWORDS query).
Proof.
  intros query route. subst route.
  destruct (route_of_intent (Services._router_agent ext state)) as [HR HU].
  destruct (router_intent_cases ext state)
    as [[HS Hi] | [(HnS & HT & Hi) | [(HnS & HnT & HC & Hi)
                                      | (HnS & HnT & HnC & Hi)]]];
    fold query in HS || fold query in HnS.
  - rewrite (HU (or_introl Hi)).
    split; [discriminate|]. split; split; try tauto; try discriminate.
  - rewrite (HU (or_intror (or_introl Hi))).
    split; [discriminate|]. split; split; try tauto; try discriminate.
  - rewrite (HU (or_intror (or_intror Hi))).
    split; [discriminate|]. split; split; try tauto; try discriminate.
  - rewrite (HR Hi).
    split; [discriminate|]. split; split; try tauto; try discriminate.
Qed.

(** *** Calls made by the agents *)

Lemma retriever_returns `{Services.SetOrder} (ext : Services.Externals)
    (state : Services.AgentState) (tr : list Services.event) :
  exists s1,
    Services._retriever_agent ext state tr
    = (Ok s1, tr ++ [Services.EmbedCall (Services.query state)])
    /\ Services.answer s1 = Services.answer state
    /\ Services.citations s1 = Services.citations state.
Proof.
  unfold Services._retriever_agent, Services.try_except, Services.io_bind,
    Services._generate_query_embedding, Services.io_lift.
  destruct (Services.embed_content ext (Services.query state)) as [v|e].
  - destruct (Services.ready_chunks ext) as [|c cs].
    + eexists. repeat split.
    + destruct (Services._combine_and_rerank _ _ _ _) as [fused|e];
        eexists; repeat split.
  - eexists. repeat split.
Qed.

Lemma reasoning_returns (ext : Services.Externals)
    (state : Services.AgentState) (tr : list Services.event) :
  exists s',
    (Services.retrieved_chunks state = []
     /\ Services._reasoning_agent ext state tr = (Ok s', tr))
    \/ (Services.retrieved_chunks state <> []
        /\ exists prompt,
             Services._reasoning_agent ext state tr
             = (Ok s', tr ++ [Services.LlmCall prompt])).
Proof.
  destruct (reasoning_agent_result ext state tr)
    as [[Hnil (s' & E & _)]
       | [Hne (prompt & [(a & s' & _ & E & _) | (e & s' & _ & E & _)])]].
  - exists s'. left. now split.
  - exists s'. right. split; [exact Hne | now exists prompt].
  - exists s'. right. split; [exact Hne | now exists prompt].
Qed.

Lemma utility_prompt_known (intent text : pystr) :
  In intent DocumentUtility.UTILITY_ACTIONS ->
  exists prompt,
    Services.utility_prompt intent text = Some prompt
    /\ contains text prompt.
Proof.
  intros [<- | [<- | [<- | []]]]; eexists; (split; [reflexivity|]).
  - exists (py "Summarize the following document text concisely:"
            ++ Services.nl ++ Services.nl),
           (Services.nl ++ Services.nl
            ++ py "Provide a clear, concise summary.").
    now rewrite <- !app_assoc.
  - exists (py "Translate the following text to English if it's Persian, "
            ++ py "or Persian if it's English:" ++ Services.nl ++ Services.nl),
           [].
    now rewrite <- !app_assoc, app_nil_r.
  - exists (py "Create a structured checklist or task list based on "
            ++ py "the following document text:" ++ Services.nl ++ Services.nl),
           [].
    now rewrite <- !app_assoc, app_nil_r.
Qed.

Lemma route_utility_intent (s : Services.AgentState) :
  Services._route_decision s = Services.Utility ->
  In (Services.intent s) DocumentUtility.UTILITY_ACTIONS.
Proof.
  unfold Services._route_decision.
  destruct (str_eqb (Services.intent s) (py "RAG_QUERY")); [discriminate|].
  destruct (existsb _ _) eqn:E; [|discriminate]. intros _.
  apply existsb_exists in E. destruct E as (x & Hx & Heq).
  apply str_eqb_eq in Heq. now subst x.
Qed.

(** [_utility_agent] on one of the three intents: one model call, on the
    text of the request; the answer is the model's, with no citation, or
    the fixed apology with the failure recorded. *)
Lemma utility_agent_outcome (ext : Services.Externals)
    (state : Services.AgentState) (tr : list Services.event) :
  In (Services.intent state) DocumentUtility.UTILITY_ACTIONS ->
  exists prompt s',
    Services._utility_agent ext state tr
    = (Ok s', tr ++ [Services.LlmCall prompt])
    /\ contains (DocumentUtility.utility_text state) prompt
    /\ ((exists a,
           Services.llm_invoke ext prompt = Ok a
           /\ Services.answer s' = a
           /\ Services.citations s' = []
           /\ Services.error s' = Services.error state)
        \/ (exists e,
              Services.llm_invoke ext prompt = Raise e
              /\ Services.answer s'
                 = py "I encountered an error processing your request."
              /\ Services.citations s' = Services.citations state
              /\ Services.error s'
                 = py "Utility agent error: " ++ Services.str_exn e)).
Proof.
  intros Hin.
  assert (Htext : (match
                     match Services.document_content state with
                     | Some d => d
                     | None => []
                     end
                   with
                   | [] => Services.query state
                   | _ :: _ =>
                     match Services.document_content state with
                     | Some d => d
                     | None => []
                     end
                   end) = DocumentUtility.utility_text state).
  { unfold DocumentUtility.utility_text. destruct (Services.document_content state) as [[|c d]|];
      reflexivity. }
  destruct (utility_prompt_known (DocumentUtility.utility_text state) Hin)
    as (p & Hp & Hc).
  exists p. unfold Services._utility_agent. cbv zeta.
  rewrite Htext, Hp.
  unfold Services.try_except, Services.io_bind, Services.llm.
  destruct (Services.llm_invoke ext p) as [a|e] eqn:El.
  - eexists. split; [reflexivity|]. split; [exact Hc|].
    left. exists a. repeat split.
  - eexists. split; [reflexivity|]. split; [exact Hc|].
    right. exists e. repeat split.
Qed.

(** What [_reasoning_agent] returns, case by case. *)
Lemma reasoning_agent_outcome (ext : Services.Externals)
    (state : Services.AgentState) (tr : list Services.event) :
  (Services.retrieved_chunks state = []
   /\ Services._reasoning_agent ext state tr
      = (Ok (Services.set_citations []
               (Services.set_answer Services.FALLBACK_ANSWER state)), tr))
  \/ (Services.retrieved_chunks state <> []
      /\ exists prompt,
           (exists a,
              Services.llm_invoke ext prompt = Ok a
              /\ Services._reasoning_agent ext state tr
                 = (Ok (Services.set_meta (py "agent_type")
                          (VStr (py "reasoning"))
                          (Services.set_citations
                             (map Services.make_citation
                                  (Services.retrieved_chunks state))
                             (Services.set_answer a state))),
                    tr ++ [Services.LlmCall prompt]))
           \/ (exists e,
                 Services.llm_invoke ext prompt = Raise e
                 /\ Services._reasoning_agent ext state tr
                    = (Ok (Services.set_citations []
                             (Services.set_answer
                                (py "I encountered an error while generating the answer.")
                                (Services.set_error
                                   (py "Reasoning error: "
                                    ++ Services.str_exn e) state))),
                       tr ++ [Services.LlmCall prompt]))).
Proof.
  unfold Services._reasoning_agent.
  destruct (Services.retrieved_chunks state) as [|c cs] eqn:E.
  - left. split; reflexivity.
  - right. split; [discriminate|].
    unfold Services.try_except, Services.io_bind, Services.llm.
    match goal with |- context [Services.llm_invoke ext ?p] =>
      exists p; destruct (Services.llm_invoke ext p) as [a|e] eqn:El
    end.
    + left. exists a. split; reflexivity.
    + right. exists e. split; reflexivity.
Qed.

Lemma router_keeps_query (ext : Services.Externals)
    (state : Services.AgentState) :
  Services.query (Services._router_agent ext state) = Services.query state.
Proof.
  unfold Services._router_agent.
  repeat match goal with |- context [if ?b then _ else _] =>
    destruct b end; reflexivity.
Qed.

(* The calls of one run of the graph, by the route taken. *)
Lemma graph_invoke_outcome `{Services.SetOrder} (ext : Services.Externals)
    (state : Services.AgentState) (tr : list Services.event) :
  let route := Services._route_decision (Services._router_agent ext state) in
  let embed := Services.EmbedCall (Services.query state) in
  exists final new,
    Services.graph_invoke ext state tr = (Ok final, tr ++ new)
    /\ ((route = Services.Utility
         /\ exists prompt, new = [Services.LlmCall prompt])
        \/ (route = Services.Retriever
            /\ Services.retrieved_chunks final = [] /\ new = [embed])
        \/ (route = Services.Retriever
            /\ Services.retrieved_chunks final <> []
            /\ exists prompt, new = [embed; Services.LlmCall prompt])).
Proof.
  intros route embed. subst route.
  pose proof (router_keeps_query ext state) as Hquery.
  pose proof (route_not_end ext state) as Hend.
  unfold Services.graph_invoke.
  destruct (Services._route_decision (Services._router_agent ext state))
    eqn:Er; [| |contradiction].
  - destruct (retriever_returns ext (Services._router_agent ext state) tr)
      as (s1 & E1 & _). rewrite Hquery in E1. fold embed in E1.
    unfold Services.io_bind. rewrite E1.
    destruct (reasoning_agent_outcome ext s1 (tr ++ [embed]))
      as [[Hnil E] | [Hne (prompt & [(a & _ & E) | (e & _ & E)])]];
      rewrite E.
    + eexists _, [embed]. split; [reflexivity|]. right. left.
      split; [reflexivity|]. split; [exact Hnil | reflexivity].
    + eexists _, [embed; Services.LlmCall prompt].
      split; [now rewrite <- app_assoc|]. right. right.
      split; [reflexivity|]. split; [exact Hne | now exists prompt].
    + eexists _, [embed; Services.LlmCall prompt].
      split; [now rewrite <- app_assoc|]. right. right.
      split; [reflexivity|]. split; [exact Hne | now exists prompt].
  - destruct (utility_agent_outcome ext (Services._router_agent ext state) tr
                (route_utility_intent _ Er))
      as (prompt & s' & E & _).
    rewrite E. exists s', [Services.LlmCall prompt].
    split; [reflexivity|]. left. split; [reflexivity | now exists prompt].
Qed.

(** *** Prefixes of lists *)

(** *** [process_query] *)

(** X4. [process_query] always returns the four fields of the final state
    of the graph.  Per query it calls the embedding service at most once
    and the model at most once, the embedding first: one model call on
    the utility route; on the retrieval route the embedding call, followed
    by a model call exactly when chunks were retrieved. *)
Theorem process_query_calls `{Services.SetOrder} (ext : Services.Externals)
    (query : pystr) (chat_history : list Services.ChatMessage)
    (tr : list Services.event) :
  let initial := Services.initial_state_of query chat_history in
  let route :=
    Services._route_decision (Services._router_agent ext initial) in
  let embed := Services.EmbedCall query in
  exists final new,
    Services.graph_invoke ext initial tr = (Ok final, tr ++ new)
    /\ Services.process_query ext query chat_history tr
       = ({| Services.res_answer := Services.answer final;
             Services.res_citations := Services.citations final;
             Services.res_metadata := Services.metadata final;
             Services.res_error := Services.error final |}, tr ++ new)
    /\ ((route = Services.Utility
         /\ exists prompt, new = [Services.LlmCall prompt])
        \/ (route = Services.Retriever
            /\ Services.retrieved_chunks final = [] /\ new = [embed])
        \/ (route = Services.Retriever
            /\ Services.retrieved_chunks final <> []
            /\ exists prompt, new = [embed; Services.LlmCall prompt]))
    /\ (List.length (filter DocumentUtility.is_llm_call new) <= 1)%nat
    /\ (List.length (filter DocumentUtility.is_embed_call new) <= 1)%nat.
Proof.
  intros initial route embed. subst route embed.
  destruct (graph_invoke_outcome ext initial tr)
    as (final & new & E & Hcalls).
  exists final, new. split; [exact E|]. split.
  - unfold Services.process_query. fold initial. now rewrite E.
  - cbn [Services.query Services.initial_state_of initial] in Hcalls.
    split; [exact Hcalls|].
    destruct Hcalls as [(_ & p & ->) | [(_ & _ & ->) | (_ & _ & p & ->)]];
      cbn; split; lia.
Qed.

(** *** Failure of the model in [_reasoning_agent] *)

(** X5. With chunks retrieved, [_reasoning_agent] calls the model once and
    returns a state with the same retrieved chunks; when the model raises,
    the answer is the fixed apology, there is no citation, the error is
    "Reasoning error: " followed by the text of the exception and the
    metadata are as they were. *)
Theorem reasoning_failure_is_recorded (ext : Services.Externals)
    (state : Services.AgentState) (tr : list Services.event) :
  Services.retrieved_chunks state <> [] ->
  exists prompt s',
    Services._reasoning_agent ext state tr
    = (Ok s', tr ++ [Services.LlmCall prompt])
    /\ Services.retrieved_chunks s' = Services.retrieved_chunks state
    /\ forall e,
         Services.llm_invoke ext prompt = Raise e ->
         Services.answer s'
         = py "I encountered an error while generating the answer."
         /\ Services.citations s' = []
         /\ Services.error s' = py "Reasoning error: " ++ Services.str_exn e
         /\ Services.metadata s' = Services.metadata state.
Proof.
  intros Hne.
  destruct (reasoning_agent_outcome ext state tr)
    as [[Hnil _] | [_ (prompt & [(a & El & E) | (e & El & E)])]];
    [contradiction| |]; exists prompt; eexists; (split; [exact E|]);
    (split; [reflexivity|]); intros e' He'; rewrite El in He'.
  - discriminate.
  - injection He' as <-. repeat split.
Qed.

Lemma reasoning_failure_is_recorded_witness :
  exists prompt s',
    Services._reasoning_agent Scenarios.model_down Examples.short_state []
    = (Ok s', [Services.LlmCall prompt])
    /\ Services.error s'
       = py "Reasoning error: " ++ py "model unavailable".
Proof.
  assert (Hne : Services.retrieved_chunks Examples.short_state <> [])
    by discriminate.
  destruct (@reasoning_failure_is_recorded Scenarios.model_down
              Examples.short_state [] Hne) as (prompt & s' & E & _ & Hfail).
  exists prompt, s'. split; [exact E|].
  exact (proj1 (proj2 (proj2 (Hfail _ eq_refl)))).
Defined.

(** *** [_utility_agent] *)

Lemma utility_prompt_unknown (intent text : pystr) :
  ~ In intent DocumentUtility.UTILITY_ACTIONS ->
  Services.utility_prompt intent text = None.
Proof.
  intros Hn. unfold Services.utility_prompt.
  destruct (str_eqb intent (py "SUMMARIZE")) eqn:E1.
  { apply str_eqb_eq in E1. exfalso. apply Hn. now left. }
  destruct (str_eqb intent (py "TRANSLATE")) eqn:E2.
  { apply str_eqb_eq in E2. exfalso. apply Hn. right. now left. }
  destruct (str_eqb intent (py "CHECKLIST")) eqn:E3; [|reflexivity].
  apply str_eqb_eq in E3. exfalso. apply Hn. right. right. now left.
Qed.

(** X6. [_utility_agent] always returns a state, and it calls the model
    exactly when the intent is one of SUMMARIZE, TRANSLATE and CHECKLIST,
    once, with a prompt containing the document content, or the query when
    there is no content.  For any other intent it makes no call and only
    sets the error to "Unknown utility intent: " followed by the intent.
    When the model raises, the answer is the fixed apology, the citations
    stay and the error is "Utility agent error: " followed by the text of
    the exception. *)
Theorem utility_agent_calls (ext : Services.Externals)
    (state : Services.AgentState) (tr : list Services.event) :
  exists s' new,
    Services._utility_agent ext state tr = (Ok s', tr ++ new)
    /\ (In (Services.intent state) DocumentUtility.UTILITY_ACTIONS ->
          exists prompt,
            new = [Services.LlmCall prompt]
            /\ contains (DocumentUtility.utility_text state) prompt
            /\ (forall a,
                  Services.llm_invoke ext prompt = Ok a ->
                  Services.answer s' = a /\ Services.citations s' = []
                  /\ Services.error s' = Services.error state)
            /\ (forall e,
                  Services.llm_invoke ext prompt = Raise e ->
                  Services.answer s'
                  = py "I encountered an error processing your request."
                  /\ Services.citations s' = Services.citations state
                  /\ Services.error s'
                     = py "Utility agent error: " ++ Services.str_exn e))
    /\ (~ In (Services.intent state) DocumentUtility.UTILITY_ACTIONS ->
          new = []
          /\ s' = Services.set_error
                    (py "Unknown utility intent: " ++ Services.intent state)
                    state).
Proof.
  destruct (in_dec (list_eq_dec N.eq_dec) (Services.intent state)
                   DocumentUtility.UTILITY_ACTIONS) as [Hin | Hout].
  - destruct (@utility_agent_outcome ext state tr Hin)
      as (prompt & s' & E & Hc & Hres).
    exists s', [Services.LlmCall prompt]. split; [exact E|].
    split; [|intros Hn; contradiction].
    intros _. exists prompt. split; [reflexivity|]. split; [exact Hc|].
    destruct Hres as [(a & El & Ha & Hcit & Herr)
                     | (e & El & Ha & Hcit & Herr)]; split.
    + intros a' Ha'. rewrite El in Ha'. injection Ha' as <-. auto.
    + intros e' He'. rewrite El in He'. discriminate.
    + intros a' Ha'. rewrite El in Ha'. discriminate.
    + intros e' He'. rewrite El in He'. injection He' as <-. auto.
  - exists (Services.set_error
              (py "Unknown utility intent: " ++ Services.intent state) state),
           [].
    split.
    + unfold Services._utility_agent. cbv zeta.
      rewrite (utility_prompt_unknown _ Hout). rewrite app_nil_r.
      reflexivity.
    + split; [intros Hin; contradiction | intros _; now split].
Qed.

Lemma utility_agent_calls_witness :
  (exists s' prompt,
     Services._utility_agent Scenarios.model_down Scenarios.summary_request []
     = (Ok s', [Services.LlmCall prompt])
     /\ Services.error s'
        = py "Utility agent error: " ++ py "model unavailable")
  /\ Services._utility_agent Scenarios.model_down Scenarios.odd_request []
     = (Ok (Services.set_error (py "Unknown utility intent: EXPLAIN")
                               Scenarios.odd_request), []).
Proof.
  split.
  - destruct (@utility_agent_calls Scenarios.model_down
                Scenarios.summary_request [])
      as (s' & new & E & Hknown & _).
    destruct Hknown as (prompt & -> & _ & _ & Hfail).
    { now left. }
    exists s', prompt. split; [exact E|].
    exact (proj2 (proj2 (Hfail _ eq_refl))).
  - destruct (@utility_agent_calls Scenarios.model_down
                Scenarios.odd_request [])
      as (s' & new & E & _ & Hunknown).
    destruct Hunknown as [-> ->].
    { intros [H | [H | [H | []]]]; discriminate. }
    exact E.
Defined.

(** *** [process_document_utility] *)

(** X7. [process_document_utility] makes no call and returns an empty
    answer with an error when the document is not found or not ready,
    when it has no chunk, or when the action in upper case is not one of
    the three, tested in this order.  Otherwise it calls the model once,
    with a prompt containing the chunk texts joined by blank lines, and
    returns no citation, with the model's answer and no error, or with the
    fixed apology and the failure in the error field. *)
Theorem document_utility_outcome (ext : Services.Externals)
    (tables : DocumentUtility.Tables) (document_id : Z) (action : pystr)
    (tr : list Services.event) :
  let result :=
    fst (DocumentUtility.process_document_utility ext tables document_id
           action tr) in
  let tr' :=
    snd (DocumentUtility.process_document_utility ext tables document_id
           action tr) in
  let intent := DocumentUtility.upper tables action in
  (tr' = tr
   /\ Services.res_answer result = []
   /\ Services.res_citations result = []
   /\ ((DocumentUtility.get_ready_document tables document_id = None
        /\ Services.res_error result = py "Document not found or not ready.")
       \/ (exists document,
             DocumentUtility.get_ready_document tables document_id
             = Some document
             /\ DocumentUtility.chunks_by_index tables document = []
             /\ Services.res_error result
                = py "Document has no content chunks.")
       \/ (exists document,
             DocumentUtility.get_ready_document tables document_id
             = Some document
             /\ DocumentUtility.chunks_by_index tables document <> []
             /\ ~ In intent DocumentUtility.UTILITY_ACTIONS
             /\ Services.res_error result
                = py "Unknown action: " ++ action)))
  \/ (exists document prompt,
        DocumentUtility.get_ready_document tables document_id = Some document
        /\ DocumentUtility.chunks_by_index tables document <> []
        /\ In intent DocumentUtility.UTILITY_ACTIONS
        /\ tr' = tr ++ [Services.LlmCall prompt]
        /\ contains
             (join (Services.nl ++ Services.nl)
                   (map Services.text
                        (DocumentUtility.chunks_by_index tables document)))
             prompt
        /\ Services.res_citations result = []
        /\ ((exists a,
               Services.llm_invoke ext prompt = Ok a
               /\ Services.res_answer result = a
               /\ Services.res_error result = [])
            \/ (exists e,
                  Services.llm_invoke ext prompt = Raise e
                  /\ Services.res_answer result
                     = py "I encountered an error processing your request."
                  /\ Services.res_error result
                     = py "Utility agent error: " ++ Services.str_exn e))).
Proof.
  intros result tr' intent. subst result tr' intent.
  unfold DocumentUtility.process_document_utility.
  destruct (DocumentUtility.get_ready_document tables document_id)
    as [document|] eqn:Ed.
  2:{ left. repeat split. left. now split. }
  destruct (DocumentUtility.chunks_by_index tables document)
    as [|c cs] eqn:Ec.
  { left. repeat split. right. left. exists document.
    split; [reflexivity|]. split; [exact Ec | reflexivity]. }
  destruct (existsb (str_eqb (DocumentUtility.upper tables action))
                    DocumentUtility.UTILITY_ACTIONS) eqn:Ea; cbn [negb].
  2:{ left. repeat split. right. right. exists document.
      split; [reflexivity|]. split; [rewrite Ec; discriminate|].
      split; [|reflexivity]. intros Hin.
      assert (existsb (str_eqb (DocumentUtility.upper tables action))
                      DocumentUtility.UTILITY_ACTIONS = true); [|congruence].
      apply existsb_exists. eexists. split; [exact Hin|].
      now apply str_eqb_eq. }
  assert (Hin : In (DocumentUtility.upper tables action)
                   DocumentUtility.UTILITY_ACTIONS).
  { apply existsb_exists in Ea. destruct Ea as (x & Hx & Heq).
    apply str_eqb_eq in Heq. now subst x. }
  right.
  match goal with |- context [Services._utility_agent ext ?st tr] =>
    destruct (@utility_agent_outcome ext st tr Hin)
      as (prompt & s' & E & Hc & Hout); rewrite E
  end.
  exists document, prompt. cbn [fst snd].
  split; [reflexivity|]. split; [rewrite Ec; discriminate|].
  split; [exact Hin|]. split; [reflexivity|]. rewrite Ec. split.
  - unfold DocumentUtility.utility_text in Hc.
    cbn [Services.document_content Services.query] in Hc.
    destruct (join (Services.nl ++ Services.nl)
                   (map Services.text (c :: cs))); exact Hc.
  - destruct Hout as [(a & El & Ha & Hcit & Herr)
                     | (e & El & Ha & Hcit & Herr)].
    + split; [exact Hcit|]. left. exists a. now repeat split.
    + split; [exact Hcit|]. right. exists e. now repeat split.
Qed.

End PipelineSpec.


Module SelectionSpec.
Import Py PyFacts Spec RerankSpec.

(** The selection loop never raises, whatever the scores: it extends the
    selection by candidates taken, each at most once, from the remaining
    ones, up to [top_k] results. *)
Lemma select_loop_selects (K : Z)
    (selected remaining : list V3.RetrievalResult) :
  exists picked rest,
    V3.select_loop K selected remaining = Ok (selected ++ picked)
    /\ Permutation remaining (picked ++ rest)
    /\ (Z.of_nat (List.length (selected ++ picked))
        <= Z.max (Z.of_nat (List.length selected)) K)%Z.
Proof.
  funelim (V3.select_loop K selected remaining).
  - exists [], remaining. rewrite app_nil_r.
    split; [reflexivity|]. split; [reflexivity | lia].
  - exists [], remaining. rewrite app_nil_r.
    split; [reflexivity|]. split; [reflexivity | lia].
  - match goal with Hb : V3.best_candidate _ _ = Some _ |- _ =>
      destruct (remove_best _ _ Hb) as (pre & post & Hsplit & Hrem & _)
    end.
    assert (Hrem' : remaining' = pre ++ post) by congruence.
    apply loop_guard in Heq. destruct Heq as [Hlt _].
    clear Heqcall.
    repeat match goal with
             Hs : @eq (sigma _) _ _ |- _ => clear Hs
           end.
    subst remaining' remaining.
    match goal with
      IH : exists _ _, V3.select_loop _ _ _ = _ /\ _ |- _ =>
      destruct IH as (picked & rest & Hout & HP & Hlen)
    end.
    exists (best :: picked), rest.
    rewrite <- app_assoc in Hout, Hlen. cbn [app] in Hout, Hlen.
    split; [exact Hout|]. split.
    + cbn [app]. rewrite <- HP. symmetry. apply Permutation_middle.
    + rewrite !length_app in *. cbn [List.length] in *. lia.
  - exfalso.
    match goal with
      Hb : V3.best_candidate _ _ = Some _,
      Hr : V3.list_remove _ _ = Raise _ |- _ =>
      destruct (remove_best _ _ Hb) as (pre & post & _ & Hrem & _);
      congruence
    end.
Qed.

(** X8. [rerank] never raises, for any [top_k] (given, zero or absent) and any
    scores: it returns a selection from its input in which no input
    element is used twice, led by the first input element, of at most
    [max(1, K)] results where [K] is [top_k or settings.rerank_top_k]. *)
Theorem rerank_always_selects (settings : V3.Settings) (query : pystr)
    (results : list V3.RetrievalResult) (top_k : option Z) :
  let K := V3.or_Z top_k (V3.rerank_top_k settings) in
  exists out rest,
    V3.rerank settings query results top_k = Ok out
    /\ Permutation results (out ++ rest)
    /\ (forall top tl, results = top :: tl -> exists tl', out = top :: tl')
    /\ (Z.of_nat (List.length out) <= Z.max 1 K)%Z.
Proof.
  intros K. subst K. unfold V3.rerank.
  destruct results as [|top remaining].
  - exists [], []. split; [reflexivity|]. split; [constructor|].
    split; [discriminate | cbn; lia].
  - destruct (Z.leb_spec (Z.of_nat (List.length (top :: remaining)))
                         (V3.or_Z top_k (V3.rerank_top_k settings)))
      as [Hle | Hgt].
    + exists (top :: remaining), []. rewrite app_nil_r.
      split; [reflexivity|]. split; [reflexivity|].
      split; [intros t tl [= <- <-]; now exists remaining | lia].
    + unfold V3._diversity_rerank.
      destruct (select_loop_selects
                  (V3.or_Z top_k (V3.rerank_top_k settings)) [top] remaining)
        as (picked & rest & Hout & HP & Hlen).
      exists ([top] ++ picked), rest. split; [exact Hout|]. split.
      * cbn [app]. now constructor.
      * split; [intros t tl [= <- <-]; now exists picked|].
        cbn [List.length] in Hlen. exact Hlen.
Qed.

(** X9. Reranking a reranked list with the same [top_k] changes nothing. *)
Theorem rerank_idempotent (settings : V3.Settings) (query : pystr)
    (results : list V3.RetrievalResult) (top_k : option Z) :
  exists out,
    V3.rerank settings query results top_k = Ok out
    /\ V3.rerank settings query out top_k = Ok out.
Proof.
  set (K := V3.or_Z top_k (V3.rerank_top_k settings)).
  assert (Hfirst : exists out,
            V3.rerank settings query results top_k = Ok out
            /\ (Z.of_nat (List.length out) <= Z.max 1 K)%Z).
  { unfold V3.rerank. fold K. destruct results as [|top remaining].
    - exists []. split; [reflexivity | cbn; lia].
    - destruct (Z.leb_spec (Z.of_nat (List.length (top :: remaining))) K)
        as [Hle | Hgt].
      + exists (top :: remaining). split; [reflexivity | lia].
      + unfold V3._diversity_rerank.
        destruct (select_loop_selects K [top] remaining)
          as (picked & rest & Hout & _ & Hlen).
        exists ([top] ++ picked). split; [exact Hout|].
        cbn [List.length] in Hlen. exact Hlen. }
  destruct Hfirst as (out & Hout & Hlen).
  exists out. split; [exact Hout|].
  unfold V3.rerank. fold K. destruct out as [|top tl]; [reflexivity|].
  destruct (Z.leb_spec (Z.of_nat (List.length (top :: tl))) K)
    as [Hle | Hgt]; [reflexivity|].
  assert (Htl : tl = []).
  { destruct tl; [reflexivity|]. cbn [List.length] in Hlen, Hgt. lia. }
  subst tl. unfold V3._diversity_rerank.
  destruct (select_loop_selects K [top] [])
    as (picked & rest & Hsel & HP & _).
  apply Permutation_nil in HP. apply app_eq_nil in HP.
  destruct HP as [-> _]. exact Hsel.
Qed.

(** *** Diversity *)

Lemma same_doc_count_spec (candidate : V3.RetrievalResult)
    (selected : list V3.RetrievalResult) :
  V3._calculate_diversity candidate selected
  = 1 / (1 + inject_Z (Z.of_nat
             (V3.same_doc_count (V3.document_id (V3.chunk candidate))
                                selected))).
Proof. unfold V3._calculate_diversity. destruct selected; reflexivity. Qed.

Lemma inv_succ_range (n : nat) :
  0 < 1 / (1 + inject_Z (Z.of_nat n)) <= 1
  /\ (1 / (1 + inject_Z (Z.of_nat n)) == 1 <-> n = 0%nat).
Proof.
  assert (Hn : 0 <= inject_Z (Z.of_nat n)).
  { change 0 with (inject_Z 0). rewrite <- Zle_Qle. lia. }
  assert (Hpos : 0 < 1 + inject_Z (Z.of_nat n)) by lra.
  split; [split|].
  - unfold Qdiv. rewrite Qmult_1_l. now apply Qinv_lt_0_compat.
  - apply Qle_shift_div_r; [exact Hpos | lra].
  - split.
    + intros H.
      assert (Hm : (1 + inject_Z (Z.of_nat n))
                   * (1 / (1 + inject_Z (Z.of_nat n))) == 1)
        by (field; lra).
      rewrite H in Hm. rewrite Qmult_1_r in Hm.
      assert (H0 : inject_Z (Z.of_nat n) == inject_Z 0).
      { rewrite <- (Qplus_inj_l _ _ 1). rewrite Hm. reflexivity. }
      unfold Qeq in H0. cbn in H0. lia.
    + intros ->. reflexivity.
Qed.

(** X10. The diversity score lies in (0, 1]; it is 1 exactly when no selected
    result is of the candidate's document; and for a relevance in [0, 1]
    the combined score lies in (0, 1]. *)
Theorem diversity_in_unit_interval (candidate : V3.RetrievalResult)
    (selected : list V3.RetrievalResult) :
  let d := V3._calculate_diversity candidate selected in
  0 < d <= 1
  /\ (d == 1
      <-> forall s, In s selected ->
            V3.document_id (V3.chunk s)
            <> V3.document_id (V3.chunk candidate))
  /\ (0 <= V3.score candidate <= 1 ->
      0 < V3.combined_score selected candidate <= 1).
Proof.
  intros d. subst d. rewrite same_doc_count_spec.
  set (n := V3.same_doc_count (V3.document_id (V3.chunk candidate)) selected).
  destruct (inv_succ_range n) as [Hr Hone].
  split; [exact Hr|]. split.
  - rewrite Hone. subst n. unfold V3.same_doc_count.
    rewrite length_zero_iff_nil. split.
    + intros Hnil s Hs Heq.
      assert (Hin : In s (filter (fun s0 =>
                      str_eqb (V3.document_id (V3.chunk s0))
                              (V3.document_id (V3.chunk candidate)))
                      selected)).
      { apply filter_In. split; [exact Hs | now apply str_eqb_eq]. }
      rewrite Hnil in Hin. destruct Hin.
    + intros Hall.
      destruct (filter _ selected) as [|s l] eqn:E; [reflexivity|].
      assert (Hin : In s (s :: l)) by now left.
      rewrite <- E in Hin. apply filter_In in Hin. destruct Hin as [Hs Heq].
      apply str_eqb_eq in Heq. exfalso. exact (Hall s Hs Heq).
  - intros [H0 H1]. unfold V3.combined_score. rewrite same_doc_count_spec.
    fold n. lra.
Qed.

Lemma diversity_in_unit_interval_witness :
  let candidate := Examples.fused "a2" "A" (8 # 10) in
  let selected := [Examples.fused "a1" "A" (9 # 10)] in
  0 <= V3.score candidate <= 1
  /\ 0 < V3.combined_score selected candidate <= 1.
Proof.
  intros candidate selected.
  assert (H : 0 <= V3.score candidate <= 1) by (split; discriminate).
  split; [exact H|].
  exact (proj2 (proj2 (diversity_in_unit_interval candidate selected)) H).
Defined.

End SelectionSpec.

Module HybridSpec.
Import Py PyFacts Spec RerankSpec FusionSpec ListFacts.

(** *** Weights given to the constructor *)

Lemma or_Q_nonzero (x : option Q) (y : Q) :
  ~ y == 0 -> ~ V3.or_Q x y == 0.
Proof.
  intros Hy. unfold V3.or_Q. destruct x as [v|]; [|exact Hy].
  destruct (Qeq_bool v 0) eqn:E; [exact Hy|].
  now apply Qeq_bool_false.
Qed.

(** X11. A weight of zero passed to the constructor is replaced by the
    configured weight, so with non-zero configured weights no retriever
    has a zero weight: neither retrieval method can be switched off. *)
Theorem retriever_weights_never_zero (settings : V3.Settings)
    (bm25_weight vector_weight : option Q) :
  ~ V3.bm25_weight settings == 0 ->
  ~ V3.vector_weight settings == 0 ->
  let self := V3.HybridRetriever_init settings bm25_weight vector_weight in
  ~ V3.self_bm25_weight self == 0
  /\ ~ V3.self_vector_weight self == 0
  /\ (forall w, bm25_weight = Some w -> w == 0 ->
        V3.self_bm25_weight self = V3.bm25_weight settings)
  /\ (forall w, vector_weight = Some w -> w == 0 ->
        V3.self_vector_weight self = V3.vector_weight settings).
Proof.
  intros Hb Hv self. subst self. cbn [V3.HybridRetriever_init
    V3.self_bm25_weight V3.self_vector_weight].
  split; [now apply or_Q_nonzero|]. split; [now apply or_Q_nonzero|].
  split; intros w -> Hw; unfold V3.or_Q;
    apply Qeq_bool_iff in Hw; now rewrite Hw.
Qed.

Lemma retriever_weights_never_zero_witness :
  let self :=
    V3.HybridRetriever_init V3.default_settings (Some 0) (Some 1) in
  V3.self_bm25_weight self = 1 # 2 /\ V3.self_vector_weight self = 1.
Proof.
  intros self.
  assert (Hb : ~ V3.bm25_weight V3.default_settings == 0) by discriminate.
  assert (Hv : ~ V3.vector_weight V3.default_settings == 0) by discriminate.
  destruct (@retriever_weights_never_zero V3.default_settings (Some 0)
              (Some 1) Hb Hv) as (_ & _ & H0 & _).
  split; [|reflexivity].
  exact (H0 0 eq_refl (Qeq_refl 0)).
Defined.

End HybridSpec.


Module FloatHybridSpec.
Import Py PyFacts Float FloatFacts FloatSpec FloatFusionSpec FloatRerankSpec.

(** *** The stable sort permutes *)

Lemma float_insert_desc_perm {A} (key : A -> pyfloat) (x : A) (l : list A) :
  Permutation (Float.insert_desc key x l) (x :: l).
Proof.
  induction l as [|y r IH]; simpl; [reflexivity|].
  destruct (fltb (key x) (key y)); [|reflexivity].
  rewrite IH. apply perm_swap.
Qed.

Lemma float_sort_desc_perm {A} (key : A -> pyfloat) (l : list A) :
  Permutation (Float.sort_desc key l) l.
Proof.
  induction l as [|x r IH]; simpl; [constructor|].
  rewrite float_insert_desc_perm. now constructor.
Qed.

(** *** The keys of [result_map] *)

Lemma float_add_vector_keys (rs : list FloatV3.RawResult) : forall d,
  dict_keys (fold_left FloatV3.add_vector rs d)
  = fold_left (add_unseen str_eqb)
              (map (fun r => V3.chunk_id (FloatV3.r_chunk r)) rs)
              (dict_keys d).
Proof.
  induction rs as [|r rs IH]; intros d; simpl; [reflexivity|].
  rewrite IH. unfold FloatV3.add_vector.
  now rewrite (dict_keys_set str_eqb str_eqb_eq).
Qed.

Lemma float_add_bm25_keys (rs : list FloatV3.RawResult) : forall d,
  dict_keys (fold_left FloatV3.add_bm25 rs d)
  = fold_left (add_unseen str_eqb)
              (map (fun r => V3.chunk_id (FloatV3.r_chunk r)) rs)
              (dict_keys d).
Proof.
  induction rs as [|r rs IH]; intros d; simpl; [reflexivity|].
  rewrite IH. unfold FloatV3.add_bm25.
  destruct (dict_lookup str_eqb (V3.chunk_id (FloatV3.r_chunk r)) d);
    now rewrite (dict_keys_set str_eqb str_eqb_eq).
Qed.

(** An invariant of the entries that the two loops keep. *)
Lemma result_map_invariant (P : pystr * FloatV3.Merged -> Prop)
    (v b : list FloatV3.RawResult) :
  (forall r, In r v ->
     P (V3.chunk_id (FloatV3.r_chunk r),
        {| FloatV3.m_chunk := FloatV3.r_chunk r;
           FloatV3.m_vector_score := FloatV3.get_normalized r;
           FloatV3.m_bm25_score := Fin 0 |})) ->
  (forall r data, In r b ->
     P (V3.chunk_id (FloatV3.r_chunk r), data) ->
     P (V3.chunk_id (FloatV3.r_chunk r),
        {| FloatV3.m_chunk := FloatV3.m_chunk data;
           FloatV3.m_vector_score := FloatV3.m_vector_score data;
           FloatV3.m_bm25_score := FloatV3.get_normalized r |})) ->
  (forall r, In r b ->
     P (V3.chunk_id (FloatV3.r_chunk r),
        {| FloatV3.m_chunk := FloatV3.r_chunk r;
           FloatV3.m_vector_score := Fin 0;
           FloatV3.m_bm25_score := FloatV3.get_normalized r |})) ->
  Forall P (fold_left FloatV3.add_bm25 b
              (fold_left FloatV3.add_vector v [])).
Proof.
  intros Hv Hb1 Hb2.
  assert (Hvec : forall d, Forall P d ->
            Forall P (fold_left FloatV3.add_vector v d)).
  { clear Hb1 Hb2. induction v as [|r rs IH]; intros d Hd; simpl;
      [exact Hd|].
    apply IH; [intros; apply Hv; now right|].
    unfold FloatV3.add_vector.
    apply (dict_set_Forall str_eqb str_eqb_eq); [exact Hd|].
    apply Hv. now left. }
  assert (Hbm : forall d, Forall P d ->
            Forall P (fold_left FloatV3.add_bm25 b d)).
  { clear Hv Hvec. induction b as [|r rs IH]; intros d Hd; simpl;
      [exact Hd|].
    apply IH; [intros; eapply Hb1; eauto; now right
              | intros; apply Hb2; now right |].
    unfold FloatV3.add_bm25.
    destruct (dict_lookup str_eqb (V3.chunk_id (FloatV3.r_chunk r)) d)
      as [m|] eqn:E;
      apply (dict_set_Forall str_eqb str_eqb_eq); try exact Hd.
    - apply Hb1; [now left|].
      apply (dict_lookup_In str_eqb str_eqb_eq) in E.
      rewrite Forall_forall in Hd. exact (Hd _ E).
    - apply Hb2. now left. }
  apply Hbm, Hvec. constructor.
Qed.

(** The combined list has one entry per chunk id, in order of first
    appearance: vector results first, then the BM25-only ones. *)
Lemma float_combine_results_ids (F : Format) (self : FloatV3.HybridRetriever)
    (v b : list FloatV3.RawResult) :
  map (fun h => V3.chunk_id (fst h)) (FloatV3._combine_results F self v b)
  = first_seen str_eqb
      (map (fun r => V3.chunk_id (FloatV3.r_chunk r)) (v ++ b)).
Proof.
  unfold FloatV3._combine_results. rewrite map_map. cbn [fst].
  assert (Hk : FloatV3.keyed_by_chunk_id
                 (fold_left FloatV3.add_bm25 b
                            (fold_left FloatV3.add_vector v []))).
  { apply result_map_invariant; cbn; auto. }
  transitivity
    (dict_keys (fold_left FloatV3.add_bm25 b
                          (fold_left FloatV3.add_vector v []))).
  - unfold dict_keys. apply map_ext_in. intros kv Hin.
    unfold FloatV3.keyed_by_chunk_id in Hk. rewrite Forall_forall in Hk.
    exact (Hk _ Hin).
  - rewrite float_add_bm25_keys, float_add_vector_keys. unfold first_seen.
    now rewrite map_app, fold_left_app.
Qed.

Section Hybrid.
Variable F : Format.
Hypothesis L : Laws F.

(** *** Normalised scores in the unit interval *)

Lemma normalized_well_ranged (raw : list FloatV3.RawResult) :
  well_ranged F (map FloatV3.r_score raw) ->
  exists out,
    FloatV3._normalize_scores F raw = Ok out
    /\ map FloatV3.r_chunk out = map FloatV3.r_chunk raw
    /\ Forall (fun r' => in_unit_interval (FloatV3.get_normalized r')) out.
Proof.
  intros (Hfl & Hfin & Hrange).
  destruct raw as [|r0 rs].
  { exists []. split; [reflexivity|]. split; [reflexivity | constructor]. }
  assert (Hne : r0 :: rs <> []) by discriminate.
  destruct (float_v3_normalize_scores_eq L Hne Hfl)
    as (mn & mx & Emn & Emx & Heq).
  destruct (@float_bounds (map FloatV3.r_score (r0 :: rs)))
    as (mn' & mx' & Emn' & Emx' & Imn & Imx & Hb); [discriminate|].
  assert (mn' = mn) by congruence. assert (mx' = mx) by congruence.
  subst mn' mx'.
  eexists. split; [exact Heq|]. split; [now rewrite map_map|].
  apply Forall_forall. intros r' Hr'. apply in_map_iff in Hr'.
  destruct Hr' as (r & <- & Hr). cbn.
  assert (Is : In (FloatV3.r_score r) (map FloatV3.r_score (r0 :: rs)))
    by now apply in_map.
  destruct (Hb (all_finite_not_nan Hfin) _ Is) as [H1 H2].
  apply (@min_max_norm_unit F L (map FloatV3.r_score (r0 :: rs)));
    try assumption.
  now apply Hrange.
Qed.

Lemma zero_in_unit : in_unit_interval (Fin 0).
Proof. exists 0. split; [reflexivity | lra]. Qed.

(** The product of a score in [0,1] and a weight lies between 0 and the
    weight. *)
Lemma weighted_score (s w : pyfloat) :
  in_unit_interval s -> weight F w ->
  exists x q, fmul F s w = Fin x /\ w = Fin q /\ 0 <= x <= q.
Proof.
  intros (v & -> & Hv) (q & -> & (Hq & Hq1 & Hq2) & Hq0). cbn [fmul].
  assert (R0 : 0 <= rnd F (v * q)).
  { apply (rnd_nonneg L). apply Qmult_le_0_compat; lra. }
  assert (R1 : rnd F (v * q) <= q).
  { rewrite <- Hq at 2. apply (rnd_mono L).
    setoid_replace q with (1 * q) at 2 by ring.
    apply Qmult_le_compat_r; lra. }
  exists (rnd F (v * q)), q. split; [apply round_finite; lra|].
  split; [reflexivity | now split].
Qed.

(** The hybrid score of two normalised scores lies between 0 and the
    float sum of the two weights. *)
Lemma similarity_score_bounded (b v bw vw : pyfloat) :
  in_unit_interval b -> in_unit_interval v ->
  weight F bw -> weight F vw ->
  fleb (Fin 0) (FloatV3.calculate_similarity_score F b v bw vw) = true
  /\ fleb (FloatV3.calculate_similarity_score F b v bw vw) (fadd F bw vw)
     = true.
Proof.
  intros Hb Hv Hbw Hvw. unfold FloatV3.calculate_similarity_score.
  destruct (weighted_score Hb Hbw) as (x & q1 & -> & -> & Hx).
  destruct (weighted_score Hv Hvw) as (y & q2 & -> & -> & Hy).
  cbn [fadd]. split.
  - apply (round_nonneg L). lra.
  - apply (round_mono L). lra.
Qed.

(** Every combined result of normalised lists has a score between 0 and
    the float sum of the weights. *)
Lemma combine_results_bounded (self : FloatV3.HybridRetriever)
    (v b : list FloatV3.RawResult) :
  weight F (FloatV3.self_bm25_weight self) ->
  weight F (FloatV3.self_vector_weight self) ->
  Forall (fun r => in_unit_interval (FloatV3.get_normalized r)) v ->
  Forall (fun r => in_unit_interval (FloatV3.get_normalized r)) b ->
  Forall (fun h =>
            fleb (Fin 0) (snd h) = true
            /\ fleb (snd h)
                    (fadd F (FloatV3.self_bm25_weight self)
                            (FloatV3.self_vector_weight self)) = true)
         (FloatV3._combine_results F self v b).
Proof.
  intros Hbw Hvw Hv Hb. rewrite Forall_forall in Hv, Hb.
  unfold FloatV3._combine_results.
  assert (Hinv : Forall (fun kv : pystr * FloatV3.Merged =>
                   in_unit_interval (FloatV3.m_vector_score (snd kv))
                   /\ in_unit_interval (FloatV3.m_bm25_score (snd kv)))
                 (fold_left FloatV3.add_bm25 b
                    (fold_left FloatV3.add_vector v []))).
  { apply result_map_invariant; cbn [snd FloatV3.m_vector_score
                                      FloatV3.m_bm25_score].
    - intros r Hr. split; [now apply Hv | apply zero_in_unit].
    - intros r data Hr [H1 _]. split; [exact H1 | now apply Hb].
    - intros r Hr. split; [apply zero_in_unit | now apply Hb]. }
  apply Forall_forall. intros h Hh. apply in_map_iff in Hh.
  destruct Hh as (kv & <- & Hkv). cbn [snd].
  rewrite Forall_forall in Hinv. destruct (Hinv kv Hkv) as [H1 H2].
  now apply similarity_score_bounded.
Qed.

Lemma float_fuse_eq (self : FloatV3.HybridRetriever)
    (v b : list FloatV3.RawResult) :
  weight F (FloatV3.self_bm25_weight self) ->
  weight F (FloatV3.self_vector_weight self) ->
  well_ranged F (map FloatV3.r_score v) ->
  well_ranged F (map FloatV3.r_score b) ->
  exists combined,
    FloatV3.fuse F self v b = Ok (Float.sort_desc snd combined)
    /\ map (fun h => V3.chunk_id (fst h)) combined
       = first_seen str_eqb
           (map (fun r => V3.chunk_id (FloatV3.r_chunk r)) (v ++ b))
    /\ Forall (fun h =>
                 fleb (Fin 0) (snd h) = true
                 /\ fleb (snd h)
                         (fadd F (FloatV3.self_bm25_weight self)
                                 (FloatV3.self_vector_weight self)) = true)
              combined.
Proof.
  intros Hbw Hvw Hv Hb.
  destruct (normalized_well_ranged _ Hv) as (v' & Ev & Cv & Uv).
  destruct (normalized_well_ranged _ Hb) as (b' & Eb & Cb & Ub).
  exists (FloatV3._combine_results F self v' b'). split; [|split].
  - unfold FloatV3.fuse. rewrite Ev, Eb. reflexivity.
  - rewrite float_combine_results_ids.
    rewrite <- (map_map FloatV3.r_chunk V3.chunk_id (v' ++ b')).
    rewrite <- (map_map FloatV3.r_chunk V3.chunk_id (v ++ b)).
    now rewrite !map_app, Cv, Cb.
  - now apply combine_results_bounded.
Qed.

End Hybrid.

(** X12. With weights that are finite floats and not negative, and raw
    scores that are finite floats whose range does not overflow, fusion
    returns without raising and every hybrid score lies between 0 and the
    float sum of the two weights: between 0 and 1 under the default
    weights of one half each. *)
Theorem hybrid_scores_bounded (F : Format) (L : Laws F)
    (self : FloatV3.HybridRetriever) (v b : list FloatV3.RawResult) :
  weight F (FloatV3.self_bm25_weight self) ->
  weight F (FloatV3.self_vector_weight self) ->
  well_ranged F (map FloatV3.r_score v) ->
  well_ranged F (map FloatV3.r_score b) ->
  exists out,
    FloatV3.fuse F self v b = Ok out
    /\ forall h, In h out ->
         fleb (Fin 0) (snd h) = true
         /\ fleb (snd h)
                 (fadd F (FloatV3.self_bm25_weight self)
                         (FloatV3.self_vector_weight self)) = true.
Proof.
  intros Hbw Hvw Hv Hb.
  destruct (@float_fuse_eq F L self v b Hbw Hvw Hv Hb)
    as (combined & Heq & _ & Hall).
  eexists. split; [exact Heq|]. intros h Hh.
  apply (Permutation_in _ (float_sort_desc_perm snd combined)) in Hh.
  rewrite Forall_forall in Hall. exact (Hall h Hh).
Qed.

Ltac float_well_ranged :=
  split; [|split];
  [ FloatFusionSpec.float_values
  | cbv [FloatExamples.vector_hits FloatExamples.bm25_hits
         FloatExamples.raw_semantic FloatExamples.raw map
         FloatV3.r_score];
    repeat (apply Forall_cons; [vm_compute; reflexivity|]); apply Forall_nil
  | let mn := fresh "mn" in let mx := fresh "mx" in
    let E1 := fresh "E" in let E2 := fresh "E" in
    intros mn mx E1 E2; vm_compute in E1, E2;
    injection E1 as <-; injection E2 as <-; vm_compute; reflexivity ].

Lemma half_is_weight : weight binary64 (FloatExamples.f64 (1 # 2)).
Proof.
  exists (1 # 2). split; [vm_compute; reflexivity|].
  split; [|discriminate].
  vm_compute. repeat split; try reflexivity; discriminate.
Qed.

Lemma vector_hits_well_ranged (k : Z) :
  well_ranged binary64 (map FloatV3.r_score (FloatExamples.vector_hits k)).
Proof. float_well_ranged. Qed.

Lemma bm25_hits_well_ranged (k : Z) :
  well_ranged binary64 (map FloatV3.r_score (FloatExamples.bm25_hits k)).
Proof. float_well_ranged. Qed.

Lemma hybrid_scores_bounded_witness :
  exists out,
    FloatV3.fuse binary64 FloatExamples.half_weights
                 (FloatExamples.vector_hits 10)
                 (FloatExamples.bm25_hits 10) = Ok out
    /\ forall h, In h out ->
         fleb (Fin 0) (snd h) = true /\ fleb (snd h) (Fin 1) = true.
Proof.
  destruct (@hybrid_scores_bounded binary64 binary64_laws
              FloatExamples.half_weights (FloatExamples.vector_hits 10)
              (FloatExamples.bm25_hits 10) half_is_weight half_is_weight
              (vector_hits_well_ranged 10) (bm25_hits_well_ranged 10))
    as (out & Hout & Hr).
  exists out. split; [exact Hout|]. intros h Hh.
  destruct (Hr h Hh) as [H0 H1]. split; [exact H0|].
  eapply fleb_trans; [exact H1 | vm_compute; reflexivity].
Defined.

(** *** [retrieve]: fusion, cut and reranking together *)

Lemma float_greedy_selection_extends (F : Format) (K : Z)
    (selected remaining out : list FloatV3.RetrievalResult) :
  greedy_selection F K selected remaining out ->
  exists picked rest,
    out = selected ++ picked /\ Permutation remaining (picked ++ rest).
Proof.
  induction 1 as [sel rem _ | sel
                  | sel pre best post out _ _ _ _ (picked & rest & -> & HP)].
  - exists [], rem. now rewrite app_nil_r.
  - exists [], []. now rewrite app_nil_r.
  - exists (best :: picked), rest. split.
    + now rewrite <- app_assoc.
    + cbn [app]. rewrite <- HP. symmetry. apply Permutation_middle.
Qed.

Lemma float_greedy_selection_length (F : Format) (K : Z)
    (selected remaining out : list FloatV3.RetrievalResult) :
  greedy_selection F K selected remaining out ->
  (Z.of_nat (List.length selected) <= K)%Z ->
  Z.of_nat (List.length out)
  = Z.min K (Z.of_nat (List.length selected + List.length remaining)).
Proof.
  induction 1 as [sel rem Hfull | sel | sel pre best post out Hlt _ _ _ IH];
    intros Hle.
  - lia.
  - cbn [List.length]. lia.
  - rewrite IH by (rewrite length_app; cbn [List.length]; lia).
    rewrite !length_app. cbn [List.length]. f_equal. lia.
Qed.

Lemma float_rerank_default_length (F : Format) (L : Laws F)
    (settings : V3.Settings) (query : pystr)
    (results : list FloatV3.RetrievalResult) :
  (1 <= V3.rerank_top_k settings)%Z ->
  (forall r, In r results -> fleb (Fin 0) (FloatV3.score r) = true) ->
  exists out rest,
    FloatV3.rerank F settings query results None = Ok out
    /\ Permutation results (out ++ rest)
    /\ Z.of_nat (List.length out)
       = Z.min (V3.rerank_top_k settings) (Z.of_nat (List.length results)).
Proof.
  intros HK Hpos. unfold FloatV3.rerank. destruct results as [|top remaining].
  { exists [], []. split; [reflexivity|]. split; [constructor|].
    cbn [List.length]. lia. }
  cbn [V3.or_Z].
  destruct (Z.leb_spec (Z.of_nat (List.length (top :: remaining)))
                       (V3.rerank_top_k settings)) as [Hle | Hgt].
  { exists (top :: remaining), []. rewrite app_nil_r.
    split; [reflexivity|]. split; [reflexivity | lia]. }
  cbn [FloatV3._diversity_rerank].
  destruct (@float_select_loop_greedy F L (V3.rerank_top_k settings)
              [top] remaining) as (out & Hout & Hg).
  { discriminate. }
  { intros r Hr. apply Hpos. now right. }
  destruct (float_greedy_selection_extends Hg) as (picked & rest & -> & HP).
  exists ([top] ++ picked), rest. split; [exact Hout|]. split.
  - cbn [app]. now constructor.
  - rewrite (float_greedy_selection_length Hg) by (cbn; lia). reflexivity.
Qed.

Lemma NoDup_map_app_l {A B : Type} (f : A -> B) (l1 l2 : list A) :
  NoDup (map f (l1 ++ l2)) -> NoDup (map f l1).
Proof.
  rewrite map_app. intros H. now apply NoDup_app_remove_r in H.
Qed.

(** X13. [retrieve] asks each retriever for twice [top_k] candidates,
    fuses them and keeps the [top_k] best; with reranking, and more than
    one result, it builds a [Reranker] and applies it with its default
    size.
    Let [top_k] be not negative, the reranker size at least one, the
    weights finite floats that are not negative and the raw scores finite
    floats whose range does not overflow.  Where the reranker is built
    and its construction raises, [retrieve] raises the same exception.
    Otherwise it returns results of distinct chunk ids, all marked
    "hybrid", each for a chunk some retriever returned, with a score
    between 0 and the float sum of the weights; their number is
    [min(top_k, number of distinct candidate ids)], cut to the reranker
    size when reranking is on. *)
Theorem retrieve_result_count (F : Format) (L : Laws F)
    (settings : V3.Settings) (new_reranker : res unit)
    (self : FloatV3.HybridRetriever)
    (vector_retrieve bm25_retrieve : Z -> list FloatV3.RawResult)
    (query : pystr) (top_k : option Z) (use_reranking : bool) :
  let K := V3.or_Z top_k (V3.top_k_retrieval settings) in
  let v := vector_retrieve (K * 2)%Z in
  let b := bm25_retrieve (K * 2)%Z in
  let candidates := map (fun r => V3.chunk_id (FloatV3.r_chunk r)) (v ++ b) in
  let n := Z.of_nat (List.length (first_seen str_eqb candidates)) in
  let reranks := use_reranking && (1 <? Z.min K n)%Z in
  (0 <= K)%Z ->
  (1 <= V3.rerank_top_k settings)%Z ->
  weight F (FloatV3.self_bm25_weight self) ->
  weight F (FloatV3.self_vector_weight self) ->
  well_ranged F (map FloatV3.r_score v) ->
  well_ranged F (map FloatV3.r_score b) ->
  (forall e, reranks = true -> new_reranker = Raise e ->
     FloatV3.retrieve F settings new_reranker self vector_retrieve
                      bm25_retrieve query top_k use_reranking = Raise e)
  /\ (reranks = false \/ new_reranker = Ok tt ->
      exists out,
        FloatV3.retrieve F settings new_reranker self vector_retrieve
                         bm25_retrieve query top_k use_reranking = Ok out
        /\ Z.of_nat (List.length out)
           = (if use_reranking
              then Z.min (V3.rerank_top_k settings) (Z.min K n)
              else Z.min K n)
        /\ NoDup (map (fun r => V3.chunk_id (FloatV3.chunk r)) out)
        /\ forall r, In r out ->
             FloatV3.source r = py "hybrid"
             /\ In (V3.chunk_id (FloatV3.chunk r)) candidates
             /\ fleb (Fin 0) (FloatV3.score r) = true
             /\ fleb (FloatV3.score r)
                     (fadd F (FloatV3.self_bm25_weight self)
                             (FloatV3.self_vector_weight self)) = true).
Proof.
  intros K v b candidates n reranks HK HR Hbw Hvw Hv Hb.
  unfold FloatV3.retrieve. fold K. fold v b.
  destruct (@float_fuse_eq F L self v b Hbw Hvw Hv Hb)
    as (combined & Hfuse & Hids & Hbound).
  rewrite Hfuse. cbn [bind].
  set (mk := fun result : V3.DocumentChunk * pyfloat =>
               {| FloatV3.chunk := fst result; FloatV3.score := snd result;
                  FloatV3.source := py "hybrid" |}).
  set (fused := Float.sort_desc snd combined) in *.
  change (map mk (slice_to K fused)) with (map mk (slice_to K fused)).
  set (rr := map mk (slice_to K fused)).
  assert (Hperm : Permutation fused combined)
    by apply float_sort_desc_perm.
  assert (Hlen : Z.of_nat (List.length rr) = Z.min K n).
  { subst rr n candidates.
    rewrite length_map, ListFacts.slice_to_nonneg by exact HK.
    rewrite length_firstn, (Permutation_length Hperm).
    rewrite <- Hids, length_map. lia. }
  assert (Hnd : NoDup (map (fun r => V3.chunk_id (FloatV3.chunk r)) rr)).
  { subst rr. rewrite map_map. cbn [mk FloatV3.chunk].
    rewrite ListFacts.slice_to_nonneg by exact HK.
    rewrite <- (firstn_skipn (Z.to_nat K) fused) in Hperm.
    apply (@NoDup_map_app_l _ _
             (fun h : V3.DocumentChunk * pyfloat => V3.chunk_id (fst h))
             _ (skipn (Z.to_nat K) fused)).
    apply (Permutation_NoDup
             (Permutation_map
                (fun h : V3.DocumentChunk * pyfloat => V3.chunk_id (fst h))
                (Permutation_sym Hperm))).
    pose proof (first_seen_NoDup str_eqb str_eqb_eq
                  (map (fun r => V3.chunk_id (FloatV3.r_chunk r)) (v ++ b)))
      as Hfs.
    rewrite <- Hids in Hfs. exact Hfs. }
  assert (Hin : forall r, In r rr ->
            FloatV3.source r = py "hybrid"
            /\ In (V3.chunk_id (FloatV3.chunk r)) candidates
            /\ fleb (Fin 0) (FloatV3.score r) = true
            /\ fleb (FloatV3.score r)
                    (fadd F (FloatV3.self_bm25_weight self)
                            (FloatV3.self_vector_weight self)) = true).
  { intros r Hr. subst rr. apply in_map_iff in Hr.
    destruct Hr as (h & <- & Hh).
    cbn [mk FloatV3.source FloatV3.chunk FloatV3.score].
    rewrite ListFacts.slice_to_nonneg in Hh by exact HK.
    apply ListFacts.firstn_incl in Hh.
    pose proof (Permutation_in _ Hperm Hh) as Hc.
    split; [reflexivity|]. split.
    - apply (first_seen_In str_eqb str_eqb_eq). subst candidates.
      rewrite <- Hids.
      apply (in_map (fun h : V3.DocumentChunk * pyfloat =>
                       V3.chunk_id (fst h))).
      exact Hc.
    - rewrite Forall_forall in Hbound. exact (Hbound h Hc). }
  assert (Hreranks : reranks
                     = use_reranking && (1 <? List.length rr)%nat).
  { subst reranks. f_equal. rewrite <- Hlen.
    destruct (Nat.ltb_spec 1 (List.length rr));
      destruct (Z.ltb_spec 1 (Z.of_nat (List.length rr))); lia || reflexivity. }
  fold rr. rewrite <- Hreranks.
  destruct reranks eqn:Er.
  - unfold FloatV3.rerank_results. split.
    + intros e _ ->. reflexivity.
    + intros [Hf | ->]; [discriminate|]. cbn [bind].
      destruct (@float_rerank_default_length F L settings query rr HR
                  (fun r Hr => proj1 (proj2 (proj2 (Hin r Hr)))))
        as (out & rest & Hout & HP & Hl).
      exists out. split; [exact Hout|].
      symmetry in Hreranks. apply andb_true_iff in Hreranks.
      destruct Hreranks as [-> _].
      split; [lia|]. split.
      * apply (@NoDup_map_app_l _ _ _ out rest).
        exact (Permutation_NoDup (Permutation_map _ HP) Hnd).
      * intros r Hr. apply Hin.
        apply (Permutation_in _ (Permutation_sym HP)).
        apply in_or_app. now left.
  - split; [intros e Hf; discriminate|]. intros _.
    exists rr. split; [reflexivity|]. split.
    + destruct use_reranking; [|exact Hlen].
      cbn [andb] in Hreranks. symmetry in Hreranks.
      apply Nat.ltb_ge in Hreranks. lia.
    + split; [exact Hnd | exact Hin].
Qed.

Lemma retrieve_result_count_witness :
  (exists out,
     FloatV3.retrieve binary64 V3.default_settings (Ok tt)
                      FloatExamples.half_weights FloatExamples.vector_hits
                      FloatExamples.bm25_hits (py "query") None true
     = Ok out
     /\ List.length out = 3%nat)
  /\ FloatV3.retrieve binary64 V3.default_settings
                      (Raise (ServiceError (py "no API key")))
                      FloatExamples.half_weights FloatExamples.vector_hits
                      FloatExamples.bm25_hits (py "query") None true
     = Raise (ServiceError (py "no API key")).
Proof.
  assert (HK : (0 <= V3.or_Z None (V3.top_k_retrieval V3.default_settings))%Z)
    by discriminate.
  assert (HR : (1 <= V3.rerank_top_k V3.default_settings)%Z)
    by discriminate.
  split.
  - destruct (@retrieve_result_count binary64 binary64_laws
                V3.default_settings (Ok tt) FloatExamples.half_weights
                FloatExamples.vector_hits FloatExamples.bm25_hits
                (py "query") None true HK HR half_is_weight half_is_weight
                (vector_hits_well_ranged _) (bm25_hits_well_ranged _))
      as [_ Hok].
    destruct (Hok (or_intror eq_refl)) as (out & Hout & Hlen & _).
    exists out. split; [exact Hout|].
    match type of Hlen with
    | _ = ?r => assert (Hr : r = 3%Z) by (vm_compute; reflexivity);
                rewrite Hr in Hlen
    end.
    lia.
  - destruct (@retrieve_result_count binary64 binary64_laws
                V3.default_settings
                (Raise (ServiceError (py "no API key")))
                FloatExamples.half_weights
                FloatExamples.vector_hits FloatExamples.bm25_hits
                (py "query") None true HK HR half_is_weight half_is_weight
                (vector_hits_well_ranged _) (bm25_hits_well_ranged _))
      as [Hraise _].
    apply Hraise; [vm_compute; reflexivity | reflexivity].
Defined.

End FloatHybridSpec.

Module FloatPipelineSpec.
Import Py PyFacts Float FloatFacts FloatFusionSpec FloatHybridSpec.

Section Fused.
Variable F : Format.
Hypothesis L : Laws F.

(** *** Fused scores of [services.py] *)

(** The entries of the dictionary [normalize_scores] returns, and [0] for
    the ids it does not have, are in [0,1]. *)
Lemma float_normalized_value_range (results : list FloatServices.scored)
    (k : Z) :
  well_ranged F (map snd results) ->
  exists d,
    FloatServices.normalize_scores F results = Ok d
    /\ (forall k, In k (dict_keys d)
                  <-> In k (map (fun r => Services.id (fst r)) results))
    /\ forall k, in_unit_interval (dict_get Z.eqb k (Fin 0) d).
Proof.
  intros (Hfl & Hfin & Hrange).
  destruct results as [|r0 rs].
  { exists []. split; [reflexivity|]. split; [reflexivity|].
    intros k'. apply zero_in_unit. }
  assert (Hne : r0 :: rs <> []) by discriminate.
  destruct (float_normalize_scores_eq F Hne) as (mn & mx & Emn & Emx & Heq).
  destruct (@float_bounds (map snd (r0 :: rs)))
    as (mn' & mx' & Emn' & Emx' & Imn & Imx & Hb); [discriminate|].
  assert (mn' = mn) by congruence. assert (mx' = mx) by congruence.
  subst mn' mx'.
  eexists. split; [exact Heq|]. split.
  - intros k'. rewrite (dict_keys_of_items Z.eqb Z.eqb_eq).
    rewrite (first_seen_In Z.eqb Z.eqb_eq), map_map. reflexivity.
  - intros k'. unfold dict_get.
    match goal with
    | |- context [dict_lookup Z.eqb k' ?d] =>
      destruct (dict_lookup Z.eqb k' d) as [v|] eqn:E
    end; [|apply zero_in_unit].
    apply (dict_of_items_lookup Z.eqb Z.eqb_eq) in E.
    apply in_map_iff in E. destruct E as ([c s] & [= _ <-] & Hin).
    cbn [snd].
    assert (Is : In s (map snd (r0 :: rs)))
      by (apply in_map_iff; now exists (c, s)).
    destruct (Hb (all_finite_not_nan Hfin) _ Is) as [H1 H2].
    apply (@min_max_norm_unit F L (map snd (r0 :: rs))); try assumption.
    now apply Hrange.
Qed.

(** The complement [1 - alpha] of a weight that is at most 1 is a weight,
    and is at most 1. *)
Lemma complement_weight (alpha : pyfloat) :
  weight F alpha -> fleb alpha (Fin 1) = true ->
  weight F (fsub F (Fin 1) alpha)
  /\ fleb (fsub F (Fin 1) alpha) (Fin 1) = true.
Proof.
  intros (a & -> & (Ha & Ha1 & Ha2) & Ha0) Hle. apply fleb_Fin in Hle.
  cbn [fsub].
  destruct (@round_unit F L (1 - a)) as [Er Hr]; [lra|].
  rewrite Er. split.
  - exists (rnd F (1 - a)). split; [reflexivity|]. split; [|lra].
    split; [apply (rnd_idem L)|].
    pose proof (fmax_one L). lra.
  - apply fleb_Fin. lra.
Qed.

Lemma weight_times_score (w s : pyfloat) :
  weight F w -> in_unit_interval s ->
  exists x q, fmul F w s = Fin x /\ w = Fin q /\ 0 <= x <= q.
Proof.
  intros (q & -> & (Hq & Hq1 & Hq2) & Hq0) (v & -> & Hv). cbn [fmul].
  assert (R0 : 0 <= rnd F (q * v)).
  { apply (rnd_nonneg L). apply Qmult_le_0_compat; lra. }
  assert (R1 : rnd F (q * v) <= q).
  { rewrite <- Hq at 2. apply (rnd_mono L).
    setoid_replace q with (q * 1) at 2 by ring.
    apply Qmult_le_compat_nonneg; lra. }
  exists (rnd F (q * v)), q. split; [apply round_finite; lra|].
  split; [reflexivity | now split].
Qed.

Lemma float_combine_scores_eq (alpha : pyfloat) (vs bs : pydict Z pyfloat)
    (ids : list Z) :
  NoDup ids ->
  FloatServices.combine_scores F alpha vs bs ids
  = map (fun k =>
           (k, fadd F (fmul F alpha (dict_get Z.eqb k (Fin 0) vs))
                      (fmul F (fsub F (Fin 1) alpha)
                              (dict_get Z.eqb k (Fin 0) bs)))) ids.
Proof.
  intros H. unfold FloatServices.combine_scores.
  rewrite (fold_set_distinct Z.eqb Z.eqb_eq
             (fun k => fadd F (fmul F alpha (dict_get Z.eqb k (Fin 0) vs))
                         (fmul F (fsub F (Fin 1) alpha)
                                 (dict_get Z.eqb k (Fin 0) bs)))) by auto.
  reflexivity.
Qed.

Lemma float_chunk_dict_lookup (rs : list FloatServices.scored) (k : Z) :
  In k (map (fun r => Services.id (fst r)) rs) ->
  exists c,
    dict_lookup Z.eqb k
      (dict_of_items Z.eqb (map (fun r => (Services.id (fst r), fst r)) rs))
    = Some c
    /\ Services.id c = k /\ In c (map fst rs).
Proof.
  intros Hk.
  assert (Hkeys : In k (dict_keys (dict_of_items Z.eqb
            (map (fun r => (Services.id (fst r), fst r)) rs)))).
  { rewrite (dict_keys_of_items Z.eqb Z.eqb_eq).
    apply (first_seen_In Z.eqb Z.eqb_eq). now rewrite map_map. }
  apply (dict_lookup_keys Z.eqb Z.eqb_eq) in Hkeys. destruct Hkeys as [c Hc].
  exists c. split; [exact Hc|].
  apply (dict_of_items_lookup Z.eqb Z.eqb_eq) in Hc.
  apply in_map_iff in Hc. destruct Hc as (r & [= <- <-] & Hr).
  split; [reflexivity | now apply in_map].
Qed.

Lemma float_mapM_chunk_lookup (cd : pydict Z Services.DocumentChunk)
    (P : Services.DocumentChunk -> Prop) (f : Z -> pyfloat) (ids : list Z) :
  (forall k, In k ids ->
     exists c, dict_lookup Z.eqb k cd = Some c /\ Services.id c = k /\ P c) ->
  exists l,
    mapM (fun kv => c <- dict_index Z.eqb (fst kv) cd ;; Ok (c, snd kv))
         (map (fun k => (k, f k)) ids) = Ok l
    /\ map (fun r => Services.id (fst r)) l = ids
    /\ Forall (fun r => P (fst r) /\ snd r = f (Services.id (fst r))) l.
Proof.
  induction ids as [|k r IH]; intros H.
  - exists []. repeat split; constructor.
  - destruct (H k (or_introl eq_refl)) as (c & Hc & Hid & HP).
    destruct IH as (l & Hl & Hids & Hall);
      [intros; apply H; now right|].
    exists ((c, f k) :: l). cbn [map mapM fst snd].
    unfold dict_index at 1. rewrite Hc. cbn [bind]. rewrite Hl. cbn [bind].
    repeat split.
    + cbn. now rewrite Hid, Hids.
    + constructor; [|exact Hall]. cbn. now rewrite Hid.
Qed.

(** The fused list: one entry per chunk id of the two lists, each with a
    chunk of the lists and a score between 0 and the float sum of the
    two weights, then sorted. *)
Lemma float_combine_and_rerank_eq `{Services.SetOrder}
    (vr br : list FloatServices.scored) (query : pystr) (alpha : pyfloat) :
  weight F alpha -> fleb alpha (Fin 1) = true ->
  well_ranged F (map snd vr) -> well_ranged F (map snd br) ->
  exists l,
    FloatServices._combine_and_rerank F vr br query alpha
    = Ok (Float.sort_desc snd l)
    /\ NoDup (map (fun r => Services.id (fst r)) l)
    /\ (forall k, In k (map (fun r => Services.id (fst r)) l)
                  <-> In k (map (fun r => Services.id (fst r)) vr)
                      \/ In k (map (fun r => Services.id (fst r)) br))
    /\ Forall (fun r =>
                 In (fst r) (map fst (vr ++ br))
                 /\ fleb (Fin 0) (snd r) = true
                 /\ fleb (snd r) (fadd F alpha (fsub F (Fin 1) alpha))
                    = true) l.
Proof.
  intros Hw Hle Hv Hb.
  destruct (@float_normalized_value_range vr 0%Z Hv)
    as (vs & Evs & Kvs & Uvs).
  destruct (@float_normalized_value_range br 0%Z Hb)
    as (bs & Ebs & Kbs & Ubs).
  destruct (complement_weight Hw Hle) as [Hw' _].
  set (f := fun k => fadd F (fmul F alpha (dict_get Z.eqb k (Fin 0) vs))
                       (fmul F (fsub F (Fin 1) alpha)
                               (dict_get Z.eqb k (Fin 0) bs))).
  destruct (@float_mapM_chunk_lookup
              (dict_of_items Z.eqb
                 (map (fun r => (Services.id (fst r), fst r)) (vr ++ br)))
              (fun c => In c (map fst (vr ++ br)))
              f (Services.iter_union (dict_keys vs) (dict_keys bs)))
    as (l & Hl & Hids & Hall).
  { intros k Hk. apply float_chunk_dict_lookup.
    apply Services.iter_union_In in Hk.
    rewrite map_app, in_app_iff. rewrite <- Kvs, <- Kbs. exact Hk. }
  exists l. split; [|split; [|split]].
  - unfold FloatServices._combine_and_rerank. rewrite Evs, Ebs. cbn [bind].
    rewrite float_combine_scores_eq by apply Services.iter_union_NoDup.
    unfold f in Hl. rewrite Hl. reflexivity.
  - rewrite Hids. apply Services.iter_union_NoDup.
  - intros k. now rewrite <- Kvs, <- Kbs, <- Services.iter_union_In, <- Hids.
  - apply Forall_forall. intros r Hr.
    rewrite Forall_forall in Hall. destruct (Hall r Hr) as [Hc ->].
    split; [exact Hc|]. unfold f.
    destruct (weight_times_score Hw (Uvs (Services.id (fst r))))
      as (x & a & -> & Ea & Hx).
    destruct (weight_times_score Hw' (Ubs (Services.id (fst r))))
      as (y & b & -> & Eb & Hy).
    rewrite Eb, Ea. cbn [fadd]. split.
    + apply (round_nonneg L). lra.
    + apply (round_mono L). lra.
Qed.

(** [alpha = 0.7] is a weight, and at most 1. *)
Lemma default_alpha_is_weight :
  weight F (FloatServices.default_alpha F)
  /\ fleb (FloatServices.default_alpha F) (Fin 1) = true.
Proof.
  unfold FloatServices.default_alpha, literal.
  destruct (@round_unit F L (7 # 10)) as [Er Hr]; [split; discriminate|].
  rewrite Er. split.
  - exists (rnd F (7 # 10)). split; [reflexivity|]. split; [|lra].
    split; [apply (rnd_idem L)|].
    pose proof (fmax_one L). lra.
  - apply fleb_Fin. lra.
Qed.

End Fused.

(** X2. With a weight alpha that is a finite float between 0 and 1, and
    scores that are finite floats whose range does not overflow,
    [_combine_and_rerank] returns without raising, with one result per
    chunk id of the two lists, and every fused score lies between 0 and
    the float sum of alpha and [1 - alpha]. *)
Theorem fused_scores_bounded (F : Format) (L : Laws F)
    `{Services.SetOrder}
    (vr br : list FloatServices.scored) (query : pystr) (alpha : pyfloat) :
  weight F alpha -> fleb alpha (Fin 1) = true ->
  well_ranged F (map snd vr) -> well_ranged F (map snd br) ->
  exists fused,
    FloatServices._combine_and_rerank F vr br query alpha = Ok fused
    /\ (forall k, In k (map (fun r => Services.id (fst r)) fused)
                  <-> In k (map (fun r => Services.id (fst r)) vr)
                      \/ In k (map (fun r => Services.id (fst r)) br))
    /\ NoDup (map (fun r => Services.id (fst r)) fused)
    /\ forall r, In r fused ->
         fleb (Fin 0) (snd r) = true
         /\ fleb (snd r) (fadd F alpha (fsub F (Fin 1) alpha)) = true.
Proof.
  intros Hw Hle Hv Hb.
  destruct (@float_combine_and_rerank_eq F L _ vr br query alpha Hw Hle Hv Hb)
    as (l & Heq & Hnd & Hin & Hall).
  pose proof (float_sort_desc_perm snd l) as HP.
  pose proof (Permutation_map (fun r => Services.id (fst r)) HP) as HPid.
  exists (Float.sort_desc snd l). split; [exact Heq|]. split; [|split].
  - intros k. rewrite <- Hin.
    split; apply Permutation_in; [exact HPid | now apply Permutation_sym].
  - exact (Permutation_NoDup (Permutation_sym HPid) Hnd).
  - intros r Hr. apply (Permutation_in _ HP) in Hr.
    rewrite Forall_forall in Hall. exact (proj2 (Hall r Hr)).
Qed.

Lemma semantic_well_ranged :
  well_ranged binary64 (map snd FloatExamples.semantic).
Proof.
  split; [|split].
  - FloatFusionSpec.float_values.
  - cbv [FloatExamples.semantic map snd].
    repeat (apply Forall_cons; [vm_compute; reflexivity|]); apply Forall_nil.
  - intros mn mx E1 E2; vm_compute in E1, E2.
    injection E1 as <-; injection E2 as <-; vm_compute; reflexivity.
Qed.

Lemma lexical_well_ranged :
  well_ranged binary64 (map snd FloatExamples.lexical).
Proof.
  split; [|split].
  - FloatFusionSpec.float_values.
  - cbv [FloatExamples.lexical map snd].
    repeat (apply Forall_cons; [vm_compute; reflexivity|]); apply Forall_nil.
  - intros mn mx E1 E2; vm_compute in E1, E2.
    injection E1 as <-; injection E2 as <-; vm_compute; reflexivity.
Qed.

Lemma fused_scores_bounded_witness :
  exists fused,
    @FloatServices._combine_and_rerank binary64 Examples.union_order
      FloatExamples.semantic FloatExamples.lexical (py "query")
      (FloatServices.default_alpha binary64) = Ok fused
    /\ List.length fused = 4%nat
    /\ forall r, In r fused ->
         fleb (Fin 0) (snd r) = true /\ fleb (snd r) (Fin 1) = true.
Proof.
  destruct (@fused_scores_bounded binary64 binary64_laws Examples.union_order
              FloatExamples.semantic FloatExamples.lexical (py "query")
              (FloatServices.default_alpha binary64)
              (proj1 (default_alpha_is_weight binary64_laws))
              (proj2 (default_alpha_is_weight binary64_laws))
              semantic_well_ranged lexical_well_ranged)
    as (fused & Hf & _ & _ & Hr).
  exists fused. split; [exact Hf|]. split.
  - apply (f_equal (fun r => match r with
                             | Ok l => List.length l | Raise _ => 0%nat
                             end)) in Hf.
    rewrite <- Hf. vm_compute. reflexivity.
  - intros r Hin. destruct (Hr r Hin) as [H0 H1]. split; [exact H0|].
    eapply fleb_trans; [exact H1 | vm_compute; reflexivity].
Defined.

End FloatPipelineSpec.

Module FloatRetrieverSpec.
Import Py PyFacts Float FloatFacts FloatHybridSpec FloatPipelineSpec ListFacts.

(** *** The stable sort on floats sorts keys that are not NaN *)

Section FloatSort.
Variables (A : Type) (key : A -> pyfloat).



End FloatSort.


(** *** [mapM]: the first failure is the outcome *)



(** *** The two searches *)

Section Searches.
Context (F : Format) (ext : FloatRetriever.Externals).





End Searches.




End FloatRetrieverSpec.


Module DomainSpec.
Import Py PyFacts ListFacts.

(** *** Snippets and truncation *)

Lemma slice_to_length {A : Type} (n : Z) (l : list A) :
  (0 <= n <= Z.of_nat (List.length l))%Z ->
  Z.of_nat (List.length (slice_to n l)) = n.
Proof.
  intros H. rewrite slice_to_nonneg by lia. rewrite length_firstn. lia.
Qed.

(** X14. [get_snippet] returns a text of at most [max_length] characters as
    it is; a longer text is cut to its first [max_length] characters and
    the three dots are added after the cut, so the snippet then has
    [max_length + 3] characters: more than asked for, and more than the
    text itself has when the text exceeds the limit by one or two. *)
Theorem snippet_length (self : Domain.DocumentChunk) (max_length : Z) :
  (0 <= max_length)%Z ->
  let n := Z.of_nat (List.length (Domain.text self)) in
  let snippet := Domain.get_snippet self max_length in
  (n <= max_length -> snippet = Domain.text self)%Z
  /\ (max_length < n ->
        Z.of_nat (List.length snippet) = max_length + 3
        /\ firstn (Z.to_nat max_length) snippet
           = firstn (Z.to_nat max_length) (Domain.text self)
        /\ skipn (Z.to_nat max_length) snippet = py "...")%Z
  /\ (Z.of_nat (List.length snippet) <= max_length + 3)%Z
  /\ (max_length < n < max_length + 3 ->
        n < Z.of_nat (List.length snippet))%Z.
Proof.
  intros Hm n snippet.
  assert (Hshort : (n <= max_length -> snippet = Domain.text self)%Z).
  { intros H. subst snippet n. unfold Domain.get_snippet.
    destruct (Z.leb_spec (Z.of_nat (List.length (Domain.text self)))
                         max_length); [reflexivity | lia]. }
  assert (Hlong : (max_length < n ->
             snippet = firstn (Z.to_nat max_length) (Domain.text self)
                       ++ py "..."
             /\ List.length (firstn (Z.to_nat max_length) (Domain.text self))
                = Z.to_nat max_length)%Z).
  { intros H. subst snippet n. unfold Domain.get_snippet.
    destruct (Z.leb_spec (Z.of_nat (List.length (Domain.text self)))
                         max_length); [lia|].
    rewrite slice_to_nonneg by exact Hm. split; [reflexivity|].
    rewrite length_firstn. lia. }
  assert (Hlen : (max_length < n ->
             Z.of_nat (List.length snippet) = max_length + 3)%Z).
  { intros H. destruct (Hlong H) as [-> Hl].
    rewrite length_app, Hl. change (List.length (py "...")) with 3%nat.
    lia. }
  split; [exact Hshort|]. split; [|split].
  - intros H. split; [exact (Hlen H)|]. destruct (Hlong H) as [-> Hl].
    split.
    + rewrite firstn_app, Hl, Nat.sub_diag. cbn [firstn].
      rewrite app_nil_r. rewrite <- Hl at 1. now rewrite firstn_all.
    + rewrite skipn_app, Hl, Nat.sub_diag. cbn [skipn].
      rewrite <- Hl at 1. now rewrite skipn_all.
  - destruct (Z.le_gt_cases n max_length) as [H | H].
    + rewrite (Hshort H). fold n. lia.
    + rewrite (Hlen H). lia.
  - intros [H1 H2]. rewrite (Hlen H1). lia.
Qed.

Lemma snippet_length_witness :
  Domain.get_snippet Scenarios.long_domain_chunk 12
  = py "A longer tex..."
  /\ List.length (Domain.get_snippet Scenarios.long_domain_chunk 12)
     = 15%nat.
Proof.
  assert (H0 : (0 <= 12)%Z) by discriminate.
  destruct (@snippet_length Scenarios.long_domain_chunk 12 H0)
    as (_ & Hcut & _ & Hlonger).
  assert (Hn : (12 < Z.of_nat (List.length
                    (Domain.text Scenarios.long_domain_chunk)))%Z)
    by reflexivity.
  destruct (Hcut Hn) as (Hlen & Hhead & Htail).
  split; [|lia].
  rewrite <- (firstn_skipn (Z.to_nat 12)
                (Domain.get_snippet Scenarios.long_domain_chunk 12)).
  rewrite Hhead, Htail. reflexivity.
Defined.

(** X15. [truncate_text] with a suffix that fits into the limit never
    returns more than [max_length] characters: a longer text is cut so
    that, with the suffix, it has exactly [max_length]. *)
Theorem truncate_text_within_limit (text suffix : pystr) (max_length : Z) :
  (Z.of_nat (List.length suffix) <= max_length)%Z ->
  let out := Helpers.truncate_text text max_length suffix in
  (Z.of_nat (List.length out) <= max_length)%Z
  /\ (Z.of_nat (List.length text) <= max_length -> out = text)%Z
  /\ (max_length < Z.of_nat (List.length text) ->
        Z.of_nat (List.length out) = max_length
        /\ exists kept,
             out = kept ++ suffix
             /\ kept = firstn (List.length kept) text)%Z.
Proof.
  intros Hs out. subst out. unfold Helpers.truncate_text.
  destruct (Z.leb_spec (Z.of_nat (List.length text)) max_length) as [H | H].
  { split; [exact H|]. split; [reflexivity | lia]. }
  assert (Hl : Z.of_nat (List.length
                 (slice_to (max_length - Z.of_nat (List.length suffix)) text))
               = (max_length - Z.of_nat (List.length suffix))%Z)
    by (apply slice_to_length; lia).
  assert (Hlen : Z.of_nat (List.length
                   (slice_to (max_length - Z.of_nat (List.length suffix)) text
                    ++ suffix)) = max_length)
    by (rewrite length_app; lia).
  split; [lia|]. split; [lia|]. intros _. split; [exact Hlen|].
  eexists. split; [reflexivity|].
  rewrite slice_to_nonneg by lia. rewrite length_firstn.
  rewrite Nat.min_l by lia. reflexivity.
Qed.

Lemma truncate_text_within_limit_witness :
  List.length (Helpers.truncate_text (py "A longer text") 10 (py "..."))
  = 10%nat.
Proof.
  assert (Hs : (Z.of_nat (List.length (py "...")) <= 10)%Z)
    by discriminate.
  destruct (@truncate_text_within_limit (py "A longer text") (py "...") 10
              Hs) as (_ & _ & Hcut).
  destruct Hcut as [Hlen _]; [reflexivity|]. lia.
Defined.

(** X16. With a limit below the length of the suffix the subtraction in
    [truncate_text] gives a negative slice bound, which Python counts
    from the end of the text: a text longer than the limit then loses
    only [len(suffix) - max_length] characters before the suffix is
    added, and the result is longer than the limit. *)
Theorem truncate_text_short_limit (text suffix : pystr) (max_length : Z) :
  (max_length < Z.of_nat (List.length suffix))%Z ->
  (max_length < Z.of_nat (List.length text))%Z ->
  let out := Helpers.truncate_text text max_length suffix in
  let dropped := Z.to_nat (Z.of_nat (List.length suffix) - max_length) in
  out = firstn (List.length text - dropped) text ++ suffix
  /\ (max_length < Z.of_nat (List.length out))%Z.
Proof.
  intros Hs Ht out dropped. subst out dropped. unfold Helpers.truncate_text.
  destruct (Z.leb_spec (Z.of_nat (List.length text)) max_length); [lia|].
  unfold slice_to.
  destruct (Z.ltb_spec (max_length - Z.of_nat (List.length suffix)) 0);
    [|lia].
  replace (- (max_length - Z.of_nat (List.length suffix)))%Z
    with (Z.of_nat (List.length suffix) - max_length)%Z by lia.
  split; [reflexivity|]. rewrite length_app. lia.
Qed.

Lemma truncate_text_short_limit_witness :
  Helpers.truncate_text (py "A longer text") 2 (py "...")
  = py "A longer tex..."
  /\ (2 < Z.of_nat (List.length
                      (Helpers.truncate_text (py "A longer text") 2
                                             (py "..."))))%Z.
Proof.
  assert (Hs : (2 < Z.of_nat (List.length (py "...")))%Z) by reflexivity.
  assert (Ht : (2 < Z.of_nat (List.length (py "A longer text")))%Z)
    by reflexivity.
  destruct (@truncate_text_short_limit (py "A longer text") (py "...") 2
              Hs Ht) as [Hout Hlen].
  split; [|exact Hlen]. rewrite Hout. reflexivity.
Defined.

(** *** [merge_metadata] *)

Lemma dict_lookup_absent (k : pystr) (d : pydict pystr pyval) :
  ~ In k (dict_keys d) -> dict_lookup str_eqb k d = None.
Proof.
  induction d as [|[k0 v0] r IH]; cbn; intros H; [reflexivity|].
  destruct (str_eqb k k0) eqn:E.
  - apply str_eqb_eq in E. subst. tauto.
  - apply IH. tauto.
Qed.

Lemma dict_lookup_rev (k : pystr) (d : pydict pystr pyval) :
  NoDup (dict_keys d) ->
  dict_lookup str_eqb k (rev d) = dict_lookup str_eqb k d.
Proof.
  induction d as [|[k0 v0] r IH]; cbn [rev]; intros Hnd; [reflexivity|].
  cbn in Hnd. inversion Hnd as [|? ? Hk Hr]; subst.
  rewrite (dict_lookup_app str_eqb), (IH Hr). cbn.
  destruct (str_eqb k k0) eqn:E; [|now destruct (dict_lookup str_eqb k r)].
  apply str_eqb_eq in E. subst k0.
  now rewrite (@dict_lookup_absent k r Hk).
Qed.

Lemma add_unseen_fold_filter (l : list pystr) : forall acc,
  NoDup l ->
  fold_left (add_unseen str_eqb) l acc
  = acc ++ filter (fun k => negb (existsb (str_eqb k) acc)) l.
Proof.
  induction l as [|k r IH]; intros acc Hnd; cbn [fold_left filter].
  { now rewrite app_nil_r. }
  inversion Hnd as [|? ? Hk Hr]; subst. rewrite (IH _ Hr).
  unfold add_unseen. destruct (existsb (str_eqb k) acc) eqn:E; cbn [negb].
  - reflexivity.
  - rewrite <- app_assoc. cbn [app]. do 2 f_equal.
    apply filter_ext_in. intros a Ha. rewrite existsb_app. cbn.
    destruct (str_eqb a k) eqn:Eak; [|now rewrite !orb_false_r].
    apply str_eqb_eq in Eak. subst. contradiction.
Qed.

(** X17. [merge_metadata] lets the additional dictionary win: a key of
    [additional] has its value there, every other key has its value of
    [base].  The keys of [base] keep their places and the new keys
    follow in the order of [additional]. *)
Theorem merge_metadata_lookup (base additional : pydict pystr pyval) :
  NoDup (dict_keys additional) ->
  let merged := Helpers.merge_metadata base additional in
  (forall k,
     dict_lookup str_eqb k merged
     = match dict_lookup str_eqb k additional with
       | Some v => Some v
       | None => dict_lookup str_eqb k base
       end)
  /\ dict_keys merged
     = dict_keys base
       ++ filter (fun k => negb (existsb (str_eqb k) (dict_keys base)))
                 (dict_keys additional).
Proof.
  intros Hnd merged. subst merged. unfold Helpers.merge_metadata. split.
  - intros k. rewrite (dict_lookup_fold str_eqb str_eqb_eq).
    now rewrite (@dict_lookup_rev k additional Hnd).
  - rewrite (dict_keys_fold str_eqb str_eqb_eq).
    now apply add_unseen_fold_filter.
Qed.

Lemma merge_metadata_lookup_witness :
  let merged :=
    Helpers.merge_metadata Scenarios.base_metadata Scenarios.page_metadata in
  dict_lookup str_eqb (py "page") merged = Some (VInt 2)
  /\ dict_lookup str_eqb (py "source") merged = Some (VStr (py "upload"))
  /\ dict_keys merged = [py "source"; py "page"; py "lang"].
Proof.
  intros merged.
  assert (Hnd : NoDup (dict_keys Scenarios.page_metadata)).
  { repeat constructor; cbn; intuition discriminate. }
  destruct (@merge_metadata_lookup Scenarios.base_metadata
              Scenarios.page_metadata Hnd) as [Hlook Hkeys].
  split; [exact (Hlook (py "page"))|].
  split; [exact (Hlook (py "source")) | exact Hkeys].
Defined.

(** *** The life cycle of a document *)

Import DomainDocument.

Lemma perform_outcome (c : call) (d : Document) :
  match perform c d with
  | Done d' =>
      can_transition_to (status d) (status d') = true
      /\ status d' <> UPLOADED
      /\ (status d' = READY <->
          exists now n p, c = MarkAsReady now n p)
      /\ id d' = id d /\ title d' = title d /\ file_path d' = file_path d
      /\ file_type d' = file_type d /\ file_size d' = file_size d
      /\ language d' = language d
  | InvalidDocumentStateError from to =>
      from = status d /\ can_transition_to (status d) to = false
  end.
Proof.
  destruct c as [|now n p|m]; cbn [perform];
    unfold start_processing, mark_as_ready, mark_as_failed;
    match goal with
    | |- context [can_transition_to ?a ?b] =>
        destruct (can_transition_to a b) eqn:E
    end; cbn [negb status id title file_path file_type file_size language];
    try (split; [reflexivity | exact E]);
    (split; [exact E|]); (split; [discriminate|]);
    (split; [|repeat split]).
  - split; [discriminate | intros (? & ? & ? & ?); discriminate].
  - split; [intros _; now exists now, n, p | reflexivity].
  - split; [discriminate | intros (? & ? & ? & ?); discriminate].
Qed.

(** The invariant the three methods keep. *)
Lemma perform_invariant (c : call) (d d' : Document) :
  (error_message d <> None <-> status d = FAILED) ->
  (processed_at d <> None <-> status d = READY) ->
  (status d <> READY -> num_chunks d = 0%Z /\ num_pages d = 0%Z) ->
  perform c d = Done d' ->
  (error_message d' <> None <-> status d' = FAILED)
  /\ (processed_at d' <> None <-> status d' = READY)
  /\ (status d' <> READY -> num_chunks d' = 0%Z /\ num_pages d' = 0%Z).
Proof.
  intros He Hp Hn H.
  destruct c as [|now n p|m]; cbn [perform] in H;
    unfold start_processing, mark_as_ready, mark_as_failed in H;
    match type of H with
    | context [can_transition_to ?a ?b] =>
        destruct (can_transition_to a b) eqn:E
    end; cbn [negb] in H; try discriminate;
    injection H as <-;
    cbn [status error_message processed_at num_chunks num_pages];
    destruct (status d) eqn:Es; try discriminate.
  all: repeat split; try discriminate; try congruence; intros;
       try (apply Hn; discriminate);
       try (exfalso; apply Hp in H; discriminate).
Qed.

Lemma run_snoc (calls : list call) (c : call) : forall d,
  run (calls ++ [c]) d
  = match run calls d with
    | Done d1 => perform c d1
    | InvalidDocumentStateError a b => InvalidDocumentStateError a b
    end.
Proof.
  induction calls as [|c0 r IH]; intros d; cbn [app run].
  - now destruct (perform c d).
  - destruct (perform c0 d); [apply IH | reflexivity].
Qed.

Lemma run_invariant (calls : list call) : forall d d',
  (error_message d <> None <-> status d = FAILED) ->
  (processed_at d <> None <-> status d = READY) ->
  (status d <> READY -> num_chunks d = 0%Z /\ num_pages d = 0%Z) ->
  run calls d = Done d' ->
  (error_message d' <> None <-> status d' = FAILED)
  /\ (processed_at d' <> None <-> status d' = READY)
  /\ (status d' <> READY -> num_chunks d' = 0%Z /\ num_pages d' = 0%Z)
  /\ title d' = title d /\ file_path d' = file_path d
  /\ file_type d' = file_type d /\ file_size d' = file_size d.
Proof.
  induction calls as [|c r IH]; intros d d' He Hp Hn H; cbn [run] in H.
  - injection H as <-. tauto.
  - destruct (perform c d) as [d1|] eqn:E; [|discriminate].
    destruct (perform_invariant c d He Hp Hn E) as (He1 & Hp1 & Hn1).
    pose proof (perform_outcome c d) as Ho. rewrite E in Ho.
    destruct Ho as (_ & _ & _ & _ & Ht & Hf & Hy & Hs & _).
    destruct (IH d1 d' He1 Hp1 Hn1 H)
      as (He' & Hp' & Hn' & Ht' & Hf' & Hy' & Hs').
    split; [exact He'|]. split; [exact Hp'|]. split; [exact Hn'|].
    split; [congruence|]. split; [congruence|].
    split; congruence.
Qed.

(** X18. A document created with the defaults and taken through any calls of
    [start_processing], [mark_as_ready] and [mark_as_failed] that all
    succeed: it has an error message exactly when it is FAILED and a
    processing time exactly when it is READY; unless READY it has no
    chunks and no pages; it is READY only if the last call was
    [mark_as_ready], whose counts and time it then carries; it is
    UPLOADED only if nothing was called; title, path, type and size are
    those it was created with. *)
Theorem document_lifecycle (calls : list call) (title' file_path' : pystr)
    (file_type' : FileType) (file_size' : Z) (d' : Document) :
  run calls (new_document title' file_path' file_type' file_size')
  = Done d' ->
  (error_message d' <> None <-> status d' = FAILED)
  /\ (processed_at d' <> None <-> status d' = READY)
  /\ (status d' <> READY -> num_chunks d' = 0%Z /\ num_pages d' = 0%Z)
  /\ (status d' = READY ->
        exists before now n p,
          calls = before ++ [MarkAsReady now n p]
          /\ num_chunks d' = n /\ num_pages d' = p
          /\ processed_at d' = Some now)
  /\ (status d' = UPLOADED <-> calls = [])
  /\ title d' = title' /\ file_path d' = file_path'
  /\ file_type d' = file_type' /\ file_size d' = file_size'.
Proof.
  intros H.
  set (d0 := new_document title' file_path' file_type' file_size') in *.
  assert (He0 : error_message d0 <> None <-> status d0 = FAILED)
    by (cbn; split; [congruence | discriminate]).
  assert (Hp0 : processed_at d0 <> None <-> status d0 = READY)
    by (cbn; split; [congruence | discriminate]).
  assert (Hn0 : status d0 <> READY ->
                num_chunks d0 = 0%Z /\ num_pages d0 = 0%Z)
    by (cbn; tauto).
  destruct (run_invariant calls d0 He0 Hp0 Hn0 H)
    as (He & Hp & Hn & Ht & Hf & Hy & Hs).
  split; [exact He|]. split; [exact Hp|]. split; [exact Hn|].
  assert (Hlast : calls = [] /\ d' = d0
                  \/ exists before c d1,
                       calls = before ++ [c]
                       /\ run before d0 = Done d1
                       /\ perform c d1 = Done d').
  { induction calls as [|c before _] using rev_ind.
    - left. cbn [run] in H. injection H as <-. now split.
    - right. rewrite run_snoc in H.
      destruct (run before d0) as [d1|] eqn:E; [|discriminate].
      now exists before, c, d1. }
  split; [|split; [|tauto]].
  - intros Hready. destruct Hlast as [[-> ->] | (before & c & d1 & -> & _ & E)];
      [discriminate|].
    pose proof (perform_outcome c d1) as Ho. rewrite E in Ho.
    destruct Ho as (_ & _ & Hr & _).
    destruct (proj1 Hr Hready) as (now & n & p & ->).
    exists before, now, n, p. split; [reflexivity|].
    cbn [perform] in E. unfold mark_as_ready in E.
    destruct (can_transition_to (status d1) READY); cbn [negb] in E;
      [|discriminate].
    injection E as <-. cbn. auto.
  - destruct Hlast as [[-> ->] | (before & c & d1 & -> & _ & E)].
    + split; reflexivity.
    + pose proof (perform_outcome c d1) as Ho. rewrite E in Ho.
      destruct Ho as (_ & Hu & _).
      split; [intros Hup; contradiction|].
      intros Hnil. destruct before; discriminate.
Qed.

Lemma document_lifecycle_witness :
  exists d',
    run Scenarios.retried_processing Scenarios.uploaded_report = Done d'
    /\ status d' = READY /\ error_message d' = None
    /\ num_chunks d' = 7%Z /\ num_pages d' = 2%Z
    /\ processed_at d' = Some 1700000000%Z.
Proof.
  destruct (run Scenarios.retried_processing Scenarios.uploaded_report)
    as [d'|a b] eqn:E; [|discriminate].
  exists d'. split; [reflexivity|].
  destruct (@document_lifecycle Scenarios.retried_processing (py "Report")
              (py "docs/report.pdf") PDF 2048%Z d' E)
    as (Herr & _ & _ & Hready & _).
  assert (Hs : status d' = READY) by (injection E as <-; reflexivity).
  split; [exact Hs|]. split.
  - destruct (error_message d') as [m|] eqn:Em; [|reflexivity].
    assert (Hf : status d' = FAILED) by (apply Herr; discriminate).
    rewrite Hs in Hf. discriminate.
  - destruct (Hready Hs) as (before & now & n & p & Hcalls & Hn & Hp & Ht).
    assert (Hlast : MarkAsReady now n p = MarkAsReady 1700000000 7 2).
    { apply (f_equal (fun l => last l StartProcessing)) in Hcalls.
      rewrite last_last in Hcalls. symmetry. exact Hcalls. }
    injection Hlast as -> -> ->. auto.
Defined.

(** X19. A READY document is final: every call of [start_processing],
    [mark_as_ready] or [mark_as_failed] on it raises
    [InvalidDocumentStateError], so no run of calls that starts with a
    READY document and makes at least one call succeeds.  A FAILED
    document accepts [start_processing] only. *)
Theorem ready_document_is_final (d : Document) :
  (status d = READY ->
   forall c calls,
     exists to, run (c :: calls) d = InvalidDocumentStateError READY to)
  /\ (status d = FAILED ->
      forall c d', perform c d = Done d' ->
        c = StartProcessing /\ status d' = PROCESSING
        /\ error_message d' = None).
Proof.
  split.
  - intros Hs c calls. cbn [run].
    destruct c as [|now n p|m]; cbn [perform];
      unfold start_processing, mark_as_ready, mark_as_failed;
      rewrite Hs; cbn; eexists; reflexivity.
  - intros Hs c d' H.
    destruct c as [|now n p|m]; cbn [perform] in H;
      unfold start_processing, mark_as_ready, mark_as_failed in H;
      rewrite Hs in H; cbn in H; try discriminate.
    injection H as <-. now repeat split.
Qed.

Lemma ready_document_is_final_witness :
  exists to,
    run [MarkAsFailed (py "late error")] Scenarios.ready_report
    = InvalidDocumentStateError READY to.
Proof.
  exact (proj1 (@ready_document_is_final Scenarios.ready_report) eq_refl
           (MarkAsFailed (py "late error")) []).
Defined.

End DomainSpec.
